(** * Vehicle diagnostic back end: a shallow embedding of [app.py]

    The class [VehicleDiagnosticSystem] of [app.py] is embedded here as
    functions over an explicit state.  Python values are a small tagged
    union, exceptions are an error result, the object's fields and the
    effects on the outside world (history appends, requests to the
    assistants service, file writes) are threaded through a state and
    error monad that records the effects in the order they happen. *)

From Stdlib Require Import ZArith List Bool Ascii String Lia.
From Stdlib Require Import DecimalString.
Import ListNotations.
Open Scope string_scope.

(* ================================================================== *)
(** ** Python values *)

(** The values that reach the system: JSON scalars of a request body and
    the cells of the code table ([None], booleans, integers, strings).
    Floats are left out. *)
Inductive pyval : Type :=
| PyNone
| PyBool (b : bool)
| PyInt (z : Z)
| PyStr (s : string).

(** The exception classes the code can meet.  [ExnOther] stands for any
    class raised by a collaborator and named by its class name. *)
Inductive pyexn : Type :=
| IndexError
| TypeError
| AttributeError
| KeyError
| FileNotFoundError
| PermissionError
| UnicodeEncodeError
| ExnOther (class_name : string).

(** A computation either returns or raises. *)
Inductive result (A : Type) : Type :=
| Ok (a : A)
| Raise (e : pyexn).
Arguments Ok {A} a.
Arguments Raise {A} e.

Definition nl : string := String (ascii_of_nat 10) EmptyString.

(** [bool(v)]: Python truthiness, as used by [if v:]. *)
Definition py_truthy (v : pyval) : bool :=
  match v with
  | PyNone => false
  | PyBool b => b
  | PyInt z => negb (Z.eqb z 0)
  | PyStr s => negb (String.eqb s EmptyString)
  end.

(** [str(v)], as used by an f-string placeholder. *)
Definition py_str (v : pyval) : string :=
  match v with
  | PyNone => "None"
  | PyBool true => "True"
  | PyBool false => "False"
  | PyInt z => NilZero.string_of_int (Z.to_int z)
  | PyStr s => s
  end.

(** [==] on values, the equality a dict uses for its keys: a boolean
    equals the integer 0 or 1 it stands for. *)
Definition int_of_bool (b : bool) : Z := if b then 1%Z else 0%Z.

Definition py_eqb (a b : pyval) : bool :=
  match a, b with
  | PyNone, PyNone => true
  | PyStr s, PyStr t => String.eqb s t
  | PyInt x, PyInt y => Z.eqb x y
  | PyBool x, PyBool y => Bool.eqb x y
  | PyBool x, PyInt y => Z.eqb (int_of_bool x) y
  | PyInt x, PyBool y => Z.eqb x (int_of_bool y)
  | _, _ => false
  end.

(* ------------------------------------------------------------------ *)
(** *** [str.upper]

    Strings are byte strings: the UTF-8 form of the code points of a
    Python [str], a lone surrogate (which a JSON body can carry) in the
    three-byte form [ED A0..BF xx].  [str.upper] maps each character on
    its own, by the full case mapping of the Unicode database;
    [upper_table] lists every character it changes. *)

(** A byte [10xxxxxx] continues a character. *)
Definition is_continuation (c : ascii) : bool :=
  let n := nat_of_ascii c in (128 <=? n)%nat && (n <? 192)%nat.

(** The number of bytes of the character that the byte [c] begins. *)
Definition char_width (c : ascii) : nat :=
  let n := nat_of_ascii c in
  if (n <? 192)%nat then 1
  else if (n <? 224)%nat then 2
  else if (n <? 240)%nat then 3
  else 4.

(** The entry of a character in a case table; a character without an
    entry stays as it is. *)
Fixpoint case_lookup (table : list (string * string)) (ch : string) : string :=
  match table with
  | [] => ch
  | (k, v) :: table' => if String.eqb k ch then v else case_lookup table' ch
  end.

(** [f] applied to every character of a string.  A character is gathered
    byte by byte: [pending] holds the bytes read so far, [need] counts
    those still to come.  Bytes that do not form a character are kept. *)
Fixpoint map_chars (f : string -> string) (pending : string) (need : nat)
    (s : string) : string :=
  match s with
  | EmptyString => pending
  | String c s' =>
      if is_continuation c then
        match need with
        | O => pending ++ String c (map_chars f EmptyString 0 s')
        | S O =>
            f (pending ++ String c EmptyString)
            ++ map_chars f EmptyString 0 s'
        | S n => map_chars f (pending ++ String c EmptyString) n s'
        end
      else
        pending ++
        match char_width c with
        | S (S n) => map_chars f (String c EmptyString) (S n) s'
        | _ => f (String c EmptyString) ++ map_chars f EmptyString 0 s'
        end
  end.

(** An entry of a case table: a character and what it becomes. *)
Notation "k ~> v" := (pair k v) (at level 70, only parsing).

(** The characters that [str.upper] changes, each with what it becomes
    (Unicode 14.0, the database of CPython 3.11). *)
Definition upper_table : list (string * string) :=
  [ "a" ~> "A"; "b" ~> "B"; "c" ~> "C"; "d" ~> "D"; "e" ~> "E"; "f" ~> "F";
    "g" ~> "G"; "h" ~> "H"; "i" ~> "I"; "j" ~> "J"; "k" ~> "K"; "l" ~> "L";
    "m" ~> "M"; "n" ~> "N"; "o" ~> "O"; "p" ~> "P"; "q" ~> "Q"; "r" ~> "R";
    "s" ~> "S"; "t" ~> "T"; "u" ~> "U"; "v" ~> "V"; "w" ~> "W"; "x" ~> "X";
    "y" ~> "Y"; "z" ~> "Z"; "µ" ~> "Μ"; "ß" ~> "SS"; "à" ~> "À"; "á" ~> "Á";
    "â" ~> "Â"; "ã" ~> "Ã"; "ä" ~> "Ä"; "å" ~> "Å"; "æ" ~> "Æ"; "ç" ~> "Ç";
    "è" ~> "È"; "é" ~> "É"; "ê" ~> "Ê"; "ë" ~> "Ë"; "ì" ~> "Ì"; "í" ~> "Í";
    "î" ~> "Î"; "ï" ~> "Ï"; "ð" ~> "Ð"; "ñ" ~> "Ñ"; "ò" ~> "Ò"; "ó" ~> "Ó";
    "ô" ~> "Ô"; "õ" ~> "Õ"; "ö" ~> "Ö"; "ø" ~> "Ø"; "ù" ~> "Ù"; "ú" ~> "Ú";
    "û" ~> "Û"; "ü" ~> "Ü"; "ý" ~> "Ý"; "þ" ~> "Þ"; "ÿ" ~> "Ÿ"; "ā" ~> "Ā";
    "ă" ~> "Ă"; "ą" ~> "Ą"; "ć" ~> "Ć"; "ĉ" ~> "Ĉ" ]
  ++
  [ "ċ" ~> "Ċ"; "č" ~> "Č"; "ď" ~> "Ď"; "đ" ~> "Đ"; "ē" ~> "Ē"; "ĕ" ~> "Ĕ";
    "ė" ~> "Ė"; "ę" ~> "Ę"; "ě" ~> "Ě"; "ĝ" ~> "Ĝ"; "ğ" ~> "Ğ"; "ġ" ~> "Ġ";
    "ģ" ~> "Ģ"; "ĥ" ~> "Ĥ"; "ħ" ~> "Ħ"; "ĩ" ~> "Ĩ"; "ī" ~> "Ī"; "ĭ" ~> "Ĭ";
    "į" ~> "Į"; "ı" ~> "I"; "ĳ" ~> "Ĳ"; "ĵ" ~> "Ĵ"; "ķ" ~> "Ķ"; "ĺ" ~> "Ĺ";
    "ļ" ~> "Ļ"; "ľ" ~> "Ľ"; "ŀ" ~> "Ŀ"; "ł" ~> "Ł"; "ń" ~> "Ń"; "ņ" ~> "Ņ";
    "ň" ~> "Ň"; "ŉ" ~> "ʼN"; "ŋ" ~> "Ŋ"; "ō" ~> "Ō"; "ŏ" ~> "Ŏ"; "ő" ~> "Ő";
    "œ" ~> "Œ"; "ŕ" ~> "Ŕ"; "ŗ" ~> "Ŗ"; "ř" ~> "Ř"; "ś" ~> "Ś"; "ŝ" ~> "Ŝ";
    "ş" ~> "Ş"; "š" ~> "Š"; "ţ" ~> "Ţ"; "ť" ~> "Ť"; "ŧ" ~> "Ŧ"; "ũ" ~> "Ũ";
    "ū" ~> "Ū"; "ŭ" ~> "Ŭ"; "ů" ~> "Ů"; "ű" ~> "Ű"; "ų" ~> "Ų"; "ŵ" ~> "Ŵ";
    "ŷ" ~> "Ŷ"; "ź" ~> "Ź"; "ż" ~> "Ż"; "ž" ~> "Ž"; "ſ" ~> "S"; "ƀ" ~> "Ƀ";
    "ƃ" ~> "Ƃ"; "ƅ" ~> "Ƅ"; "ƈ" ~> "Ƈ"; "ƌ" ~> "Ƌ" ]
  ++
  [ "ƒ" ~> "Ƒ"; "ƕ" ~> "Ƕ"; "ƙ" ~> "Ƙ"; "ƚ" ~> "Ƚ"; "ƞ" ~> "Ƞ"; "ơ" ~> "Ơ";
    "ƣ" ~> "Ƣ"; "ƥ" ~> "Ƥ"; "ƨ" ~> "Ƨ"; "ƭ" ~> "Ƭ"; "ư" ~> "Ư"; "ƴ" ~> "Ƴ";
    "ƶ" ~> "Ƶ"; "ƹ" ~> "Ƹ"; "ƽ" ~> "Ƽ"; "ƿ" ~> "Ƿ"; "ǅ" ~> "Ǆ"; "ǆ" ~> "Ǆ";
    "ǈ" ~> "Ǉ"; "ǉ" ~> "Ǉ"; "ǋ" ~> "Ǌ"; "ǌ" ~> "Ǌ"; "ǎ" ~> "Ǎ"; "ǐ" ~> "Ǐ";
    "ǒ" ~> "Ǒ"; "ǔ" ~> "Ǔ"; "ǖ" ~> "Ǖ"; "ǘ" ~> "Ǘ"; "ǚ" ~> "Ǚ"; "ǜ" ~> "Ǜ";
    "ǝ" ~> "Ǝ"; "ǟ" ~> "Ǟ"; "ǡ" ~> "Ǡ"; "ǣ" ~> "Ǣ"; "ǥ" ~> "Ǥ"; "ǧ" ~> "Ǧ";
    "ǩ" ~> "Ǩ"; "ǫ" ~> "Ǫ"; "ǭ" ~> "Ǭ"; "ǯ" ~> "Ǯ"; "ǰ" ~> "J̌"; "ǲ" ~> "Ǳ";
    "ǳ" ~> "Ǳ"; "ǵ" ~> "Ǵ"; "ǹ" ~> "Ǹ"; "ǻ" ~> "Ǻ"; "ǽ" ~> "Ǽ"; "ǿ" ~> "Ǿ";
    "ȁ" ~> "Ȁ"; "ȃ" ~> "Ȃ"; "ȅ" ~> "Ȅ"; "ȇ" ~> "Ȇ"; "ȉ" ~> "Ȉ"; "ȋ" ~> "Ȋ";
    "ȍ" ~> "Ȍ"; "ȏ" ~> "Ȏ"; "ȑ" ~> "Ȑ"; "ȓ" ~> "Ȓ"; "ȕ" ~> "Ȕ"; "ȗ" ~> "Ȗ";
    "ș" ~> "Ș"; "ț" ~> "Ț"; "ȝ" ~> "Ȝ"; "ȟ" ~> "Ȟ" ]
  ++
  [ "ȣ" ~> "Ȣ"; "ȥ" ~> "Ȥ"; "ȧ" ~> "Ȧ"; "ȩ" ~> "Ȩ"; "ȫ" ~> "Ȫ"; "ȭ" ~> "Ȭ";
    "ȯ" ~> "Ȯ"; "ȱ" ~> "Ȱ"; "ȳ" ~> "Ȳ"; "ȼ" ~> "Ȼ"; "ȿ" ~> "Ȿ"; "ɀ" ~> "Ɀ";
    "ɂ" ~> "Ɂ"; "ɇ" ~> "Ɇ"; "ɉ" ~> "Ɉ"; "ɋ" ~> "Ɋ"; "ɍ" ~> "Ɍ"; "ɏ" ~> "Ɏ";
    "ɐ" ~> "Ɐ"; "ɑ" ~> "Ɑ"; "ɒ" ~> "Ɒ"; "ɓ" ~> "Ɓ"; "ɔ" ~> "Ɔ"; "ɖ" ~> "Ɖ";
    "ɗ" ~> "Ɗ"; "ə" ~> "Ə"; "ɛ" ~> "Ɛ"; "ɜ" ~> "Ɜ"; "ɠ" ~> "Ɠ"; "ɡ" ~> "Ɡ";
    "ɣ" ~> "Ɣ"; "ɥ" ~> "Ɥ"; "ɦ" ~> "Ɦ"; "ɨ" ~> "Ɨ"; "ɩ" ~> "Ɩ"; "ɪ" ~> "Ɪ";
    "ɫ" ~> "Ɫ"; "ɬ" ~> "Ɬ"; "ɯ" ~> "Ɯ"; "ɱ" ~> "Ɱ"; "ɲ" ~> "Ɲ"; "ɵ" ~> "Ɵ";
    "ɽ" ~> "Ɽ"; "ʀ" ~> "Ʀ"; "ʂ" ~> "Ʂ"; "ʃ" ~> "Ʃ"; "ʇ" ~> "Ʇ"; "ʈ" ~> "Ʈ";
    "ʉ" ~> "Ʉ"; "ʊ" ~> "Ʊ"; "ʋ" ~> "Ʋ"; "ʌ" ~> "Ʌ"; "ʒ" ~> "Ʒ"; "ʝ" ~> "Ʝ";
    "ʞ" ~> "Ʞ"; "ͅ" ~> "Ι"; "ͱ" ~> "Ͱ"; "ͳ" ~> "Ͳ"; "ͷ" ~> "Ͷ"; "ͻ" ~> "Ͻ";
    "ͼ" ~> "Ͼ"; "ͽ" ~> "Ͽ"; "ΐ" ~> "Ϊ́"; "ά" ~> "Ά" ]
  ++
  [ "έ" ~> "Έ"; "ή" ~> "Ή"; "ί" ~> "Ί"; "ΰ" ~> "Ϋ́"; "α" ~> "Α"; "β" ~> "Β";
    "γ" ~> "Γ"; "δ" ~> "Δ"; "ε" ~> "Ε"; "ζ" ~> "Ζ"; "η" ~> "Η"; "θ" ~> "Θ";
    "ι" ~> "Ι"; "κ" ~> "Κ"; "λ" ~> "Λ"; "μ" ~> "Μ"; "ν" ~> "Ν"; "ξ" ~> "Ξ";
    "ο" ~> "Ο"; "π" ~> "Π"; "ρ" ~> "Ρ"; "ς" ~> "Σ"; "σ" ~> "Σ"; "τ" ~> "Τ";
    "υ" ~> "Υ"; "φ" ~> "Φ"; "χ" ~> "Χ"; "ψ" ~> "Ψ"; "ω" ~> "Ω"; "ϊ" ~> "Ϊ";
    "ϋ" ~> "Ϋ"; "ό" ~> "Ό"; "ύ" ~> "Ύ"; "ώ" ~> "Ώ"; "ϐ" ~> "Β"; "ϑ" ~> "Θ";
    "ϕ" ~> "Φ"; "ϖ" ~> "Π"; "ϗ" ~> "Ϗ"; "ϙ" ~> "Ϙ"; "ϛ" ~> "Ϛ"; "ϝ" ~> "Ϝ";
    "ϟ" ~> "Ϟ"; "ϡ" ~> "Ϡ"; "ϣ" ~> "Ϣ"; "ϥ" ~> "Ϥ"; "ϧ" ~> "Ϧ"; "ϩ" ~> "Ϩ";
    "ϫ" ~> "Ϫ"; "ϭ" ~> "Ϭ"; "ϯ" ~> "Ϯ"; "ϰ" ~> "Κ"; "ϱ" ~> "Ρ"; "ϲ" ~> "Ϲ";
    "ϳ" ~> "Ϳ"; "ϵ" ~> "Ε"; "ϸ" ~> "Ϸ"; "ϻ" ~> "Ϻ"; "а" ~> "А"; "б" ~> "Б";
    "в" ~> "В"; "г" ~> "Г"; "д" ~> "Д"; "е" ~> "Е" ]
  ++
  [ "ж" ~> "Ж"; "з" ~> "З"; "и" ~> "И"; "й" ~> "Й"; "к" ~> "К"; "л" ~> "Л";
    "м" ~> "М"; "н" ~> "Н"; "о" ~> "О"; "п" ~> "П"; "р" ~> "Р"; "с" ~> "С";
    "т" ~> "Т"; "у" ~> "У"; "ф" ~> "Ф"; "х" ~> "Х"; "ц" ~> "Ц"; "ч" ~> "Ч";
    "ш" ~> "Ш"; "щ" ~> "Щ"; "ъ" ~> "Ъ"; "ы" ~> "Ы"; "ь" ~> "Ь"; "э" ~> "Э";
    "ю" ~> "Ю"; "я" ~> "Я"; "ѐ" ~> "Ѐ"; "ё" ~> "Ё"; "ђ" ~> "Ђ"; "ѓ" ~> "Ѓ";
    "є" ~> "Є"; "ѕ" ~> "Ѕ"; "і" ~> "І"; "ї" ~> "Ї"; "ј" ~> "Ј"; "љ" ~> "Љ";
    "њ" ~> "Њ"; "ћ" ~> "Ћ"; "ќ" ~> "Ќ"; "ѝ" ~> "Ѝ"; "ў" ~> "Ў"; "џ" ~> "Џ";
    "ѡ" ~> "Ѡ"; "ѣ" ~> "Ѣ"; "ѥ" ~> "Ѥ"; "ѧ" ~> "Ѧ"; "ѩ" ~> "Ѩ"; "ѫ" ~> "Ѫ";
    "ѭ" ~> "Ѭ"; "ѯ" ~> "Ѯ"; "ѱ" ~> "Ѱ"; "ѳ" ~> "Ѳ"; "ѵ" ~> "Ѵ"; "ѷ" ~> "Ѷ";
    "ѹ" ~> "Ѹ"; "ѻ" ~> "Ѻ"; "ѽ" ~> "Ѽ"; "ѿ" ~> "Ѿ"; "ҁ" ~> "Ҁ"; "ҋ" ~> "Ҋ";
    "ҍ" ~> "Ҍ"; "ҏ" ~> "Ҏ"; "ґ" ~> "Ґ"; "ғ" ~> "Ғ" ]
  ++
  [ "ҕ" ~> "Ҕ"; "җ" ~> "Җ"; "ҙ" ~> "Ҙ"; "қ" ~> "Қ"; "ҝ" ~> "Ҝ"; "ҟ" ~> "Ҟ";
    "ҡ" ~> "Ҡ"; "ң" ~> "Ң"; "ҥ" ~> "Ҥ"; "ҧ" ~> "Ҧ"; "ҩ" ~> "Ҩ"; "ҫ" ~> "Ҫ";
    "ҭ" ~> "Ҭ"; "ү" ~> "Ү"; "ұ" ~> "Ұ"; "ҳ" ~> "Ҳ"; "ҵ" ~> "Ҵ"; "ҷ" ~> "Ҷ";
    "ҹ" ~> "Ҹ"; "һ" ~> "Һ"; "ҽ" ~> "Ҽ"; "ҿ" ~> "Ҿ"; "ӂ" ~> "Ӂ"; "ӄ" ~> "Ӄ";
    "ӆ" ~> "Ӆ"; "ӈ" ~> "Ӈ"; "ӊ" ~> "Ӊ"; "ӌ" ~> "Ӌ"; "ӎ" ~> "Ӎ"; "ӏ" ~> "Ӏ";
    "ӑ" ~> "Ӑ"; "ӓ" ~> "Ӓ"; "ӕ" ~> "Ӕ"; "ӗ" ~> "Ӗ"; "ә" ~> "Ә"; "ӛ" ~> "Ӛ";
    "ӝ" ~> "Ӝ"; "ӟ" ~> "Ӟ"; "ӡ" ~> "Ӡ"; "ӣ" ~> "Ӣ"; "ӥ" ~> "Ӥ"; "ӧ" ~> "Ӧ";
    "ө" ~> "Ө"; "ӫ" ~> "Ӫ"; "ӭ" ~> "Ӭ"; "ӯ" ~> "Ӯ"; "ӱ" ~> "Ӱ"; "ӳ" ~> "Ӳ";
    "ӵ" ~> "Ӵ"; "ӷ" ~> "Ӷ"; "ӹ" ~> "Ӹ"; "ӻ" ~> "Ӻ"; "ӽ" ~> "Ӽ"; "ӿ" ~> "Ӿ";
    "ԁ" ~> "Ԁ"; "ԃ" ~> "Ԃ"; "ԅ" ~> "Ԅ"; "ԇ" ~> "Ԇ"; "ԉ" ~> "Ԉ"; "ԋ" ~> "Ԋ";
    "ԍ" ~> "Ԍ"; "ԏ" ~> "Ԏ"; "ԑ" ~> "Ԑ"; "ԓ" ~> "Ԓ" ]
  ++
  [ "ԕ" ~> "Ԕ"; "ԗ" ~> "Ԗ"; "ԙ" ~> "Ԙ"; "ԛ" ~> "Ԛ"; "ԝ" ~> "Ԝ"; "ԟ" ~> "Ԟ";
    "ԡ" ~> "Ԡ"; "ԣ" ~> "Ԣ"; "ԥ" ~> "Ԥ"; "ԧ" ~> "Ԧ"; "ԩ" ~> "Ԩ"; "ԫ" ~> "Ԫ";
    "ԭ" ~> "Ԭ"; "ԯ" ~> "Ԯ"; "ա" ~> "Ա"; "բ" ~> "Բ"; "գ" ~> "Գ"; "դ" ~> "Դ";
    "ե" ~> "Ե"; "զ" ~> "Զ"; "է" ~> "Է"; "ը" ~> "Ը"; "թ" ~> "Թ"; "ժ" ~> "Ժ";
    "ի" ~> "Ի"; "լ" ~> "Լ"; "խ" ~> "Խ"; "ծ" ~> "Ծ"; "կ" ~> "Կ"; "հ" ~> "Հ";
    "ձ" ~> "Ձ"; "ղ" ~> "Ղ"; "ճ" ~> "Ճ"; "մ" ~> "Մ"; "յ" ~> "Յ"; "ն" ~> "Ն";
    "շ" ~> "Շ"; "ո" ~> "Ո"; "չ" ~> "Չ"; "պ" ~> "Պ"; "ջ" ~> "Ջ"; "ռ" ~> "Ռ";
    "ս" ~> "Ս"; "վ" ~> "Վ"; "տ" ~> "Տ"; "ր" ~> "Ր"; "ց" ~> "Ց"; "ւ" ~> "Ւ";
    "փ" ~> "Փ"; "ք" ~> "Ք"; "օ" ~> "Օ"; "ֆ" ~> "Ֆ"; "և" ~> "ԵՒ"; "ა" ~> "Ა";
    "ბ" ~> "Ბ"; "გ" ~> "Გ"; "დ" ~> "Დ"; "ე" ~> "Ე"; "ვ" ~> "Ვ"; "ზ" ~> "Ზ";
    "თ" ~> "Თ"; "ი" ~> "Ი"; "კ" ~> "Კ"; "ლ" ~> "Ლ" ]
  ++
  [ "მ" ~> "Მ"; "ნ" ~> "Ნ"; "ო" ~> "Ო"; "პ" ~> "Პ"; "ჟ" ~> "Ჟ"; "რ" ~> "Რ";
    "ს" ~> "Ს"; "ტ" ~> "Ტ"; "უ" ~> "Უ"; "ფ" ~> "Ფ"; "ქ" ~> "Ქ"; "ღ" ~> "Ღ";
    "ყ" ~> "Ყ"; "შ" ~> "Შ"; "ჩ" ~> "Ჩ"; "ც" ~> "Ც"; "ძ" ~> "Ძ"; "წ" ~> "Წ";
    "ჭ" ~> "Ჭ"; "ხ" ~> "Ხ"; "ჯ" ~> "Ჯ"; "ჰ" ~> "Ჰ"; "ჱ" ~> "Ჱ"; "ჲ" ~> "Ჲ";
    "ჳ" ~> "Ჳ"; "ჴ" ~> "Ჴ"; "ჵ" ~> "Ჵ"; "ჶ" ~> "Ჶ"; "ჷ" ~> "Ჷ"; "ჸ" ~> "Ჸ";
    "ჹ" ~> "Ჹ"; "ჺ" ~> "Ჺ"; "ჽ" ~> "Ჽ"; "ჾ" ~> "Ჾ"; "ჿ" ~> "Ჿ"; "ᏸ" ~> "Ᏸ";
    "ᏹ" ~> "Ᏹ"; "ᏺ" ~> "Ᏺ"; "ᏻ" ~> "Ᏻ"; "ᏼ" ~> "Ᏼ"; "ᏽ" ~> "Ᏽ"; "ᲀ" ~> "В";
    "ᲁ" ~> "Д"; "ᲂ" ~> "О"; "ᲃ" ~> "С"; "ᲄ" ~> "Т"; "ᲅ" ~> "Т"; "ᲆ" ~> "Ъ";
    "ᲇ" ~> "Ѣ"; "ᲈ" ~> "Ꙋ"; "ᵹ" ~> "Ᵹ"; "ᵽ" ~> "Ᵽ"; "ᶎ" ~> "Ᶎ"; "ḁ" ~> "Ḁ";
    "ḃ" ~> "Ḃ"; "ḅ" ~> "Ḅ"; "ḇ" ~> "Ḇ"; "ḉ" ~> "Ḉ"; "ḋ" ~> "Ḋ"; "ḍ" ~> "Ḍ";
    "ḏ" ~> "Ḏ"; "ḑ" ~> "Ḑ"; "ḓ" ~> "Ḓ"; "ḕ" ~> "Ḕ" ]
  ++
  [ "ḗ" ~> "Ḗ"; "ḙ" ~> "Ḙ"; "ḛ" ~> "Ḛ"; "ḝ" ~> "Ḝ"; "ḟ" ~> "Ḟ"; "ḡ" ~> "Ḡ";
    "ḣ" ~> "Ḣ"; "ḥ" ~> "Ḥ"; "ḧ" ~> "Ḧ"; "ḩ" ~> "Ḩ"; "ḫ" ~> "Ḫ"; "ḭ" ~> "Ḭ";
    "ḯ" ~> "Ḯ"; "ḱ" ~> "Ḱ"; "ḳ" ~> "Ḳ"; "ḵ" ~> "Ḵ"; "ḷ" ~> "Ḷ"; "ḹ" ~> "Ḹ";
    "ḻ" ~> "Ḻ"; "ḽ" ~> "Ḽ"; "ḿ" ~> "Ḿ"; "ṁ" ~> "Ṁ"; "ṃ" ~> "Ṃ"; "ṅ" ~> "Ṅ";
    "ṇ" ~> "Ṇ"; "ṉ" ~> "Ṉ"; "ṋ" ~> "Ṋ"; "ṍ" ~> "Ṍ"; "ṏ" ~> "Ṏ"; "ṑ" ~> "Ṑ";
    "ṓ" ~> "Ṓ"; "ṕ" ~> "Ṕ"; "ṗ" ~> "Ṗ"; "ṙ" ~> "Ṙ"; "ṛ" ~> "Ṛ"; "ṝ" ~> "Ṝ";
    "ṟ" ~> "Ṟ"; "ṡ" ~> "Ṡ"; "ṣ" ~> "Ṣ"; "ṥ" ~> "Ṥ"; "ṧ" ~> "Ṧ"; "ṩ" ~> "Ṩ";
    "ṫ" ~> "Ṫ"; "ṭ" ~> "Ṭ"; "ṯ" ~> "Ṯ"; "ṱ" ~> "Ṱ"; "ṳ" ~> "Ṳ"; "ṵ" ~> "Ṵ";
    "ṷ" ~> "Ṷ"; "ṹ" ~> "Ṹ"; "ṻ" ~> "Ṻ"; "ṽ" ~> "Ṽ"; "ṿ" ~> "Ṿ"; "ẁ" ~> "Ẁ";
    "ẃ" ~> "Ẃ"; "ẅ" ~> "Ẅ"; "ẇ" ~> "Ẇ"; "ẉ" ~> "Ẉ"; "ẋ" ~> "Ẋ"; "ẍ" ~> "Ẍ";
    "ẏ" ~> "Ẏ"; "ẑ" ~> "Ẑ"; "ẓ" ~> "Ẓ"; "ẕ" ~> "Ẕ" ]
  ++
  [ "ẖ" ~> "H̱"; "ẗ" ~> "T̈"; "ẘ" ~> "W̊"; "ẙ" ~> "Y̊"; "ẚ" ~> "Aʾ";
    "ẛ" ~> "Ṡ"; "ạ" ~> "Ạ"; "ả" ~> "Ả"; "ấ" ~> "Ấ"; "ầ" ~> "Ầ"; "ẩ" ~> "Ẩ";
    "ẫ" ~> "Ẫ"; "ậ" ~> "Ậ"; "ắ" ~> "Ắ"; "ằ" ~> "Ằ"; "ẳ" ~> "Ẳ"; "ẵ" ~> "Ẵ";
    "ặ" ~> "Ặ"; "ẹ" ~> "Ẹ"; "ẻ" ~> "Ẻ"; "ẽ" ~> "Ẽ"; "ế" ~> "Ế"; "ề" ~> "Ề";
    "ể" ~> "Ể"; "ễ" ~> "Ễ"; "ệ" ~> "Ệ"; "ỉ" ~> "Ỉ"; "ị" ~> "Ị"; "ọ" ~> "Ọ";
    "ỏ" ~> "Ỏ"; "ố" ~> "Ố"; "ồ" ~> "Ồ"; "ổ" ~> "Ổ"; "ỗ" ~> "Ỗ"; "ộ" ~> "Ộ";
    "ớ" ~> "Ớ"; "ờ" ~> "Ờ"; "ở" ~> "Ở"; "ỡ" ~> "Ỡ"; "ợ" ~> "Ợ"; "ụ" ~> "Ụ";
    "ủ" ~> "Ủ"; "ứ" ~> "Ứ"; "ừ" ~> "Ừ"; "ử" ~> "Ử"; "ữ" ~> "Ữ"; "ự" ~> "Ự";
    "ỳ" ~> "Ỳ"; "ỵ" ~> "Ỵ"; "ỷ" ~> "Ỷ"; "ỹ" ~> "Ỹ"; "ỻ" ~> "Ỻ"; "ỽ" ~> "Ỽ";
    "ỿ" ~> "Ỿ"; "ἀ" ~> "Ἀ"; "ἁ" ~> "Ἁ"; "ἂ" ~> "Ἂ"; "ἃ" ~> "Ἃ"; "ἄ" ~> "Ἄ";
    "ἅ" ~> "Ἅ"; "ἆ" ~> "Ἆ"; "ἇ" ~> "Ἇ"; "ἐ" ~> "Ἐ"; "ἑ" ~> "Ἑ" ]
  ++
  [ "ἒ" ~> "Ἒ"; "ἓ" ~> "Ἓ"; "ἔ" ~> "Ἔ"; "ἕ" ~> "Ἕ"; "ἠ" ~> "Ἠ"; "ἡ" ~> "Ἡ";
    "ἢ" ~> "Ἢ"; "ἣ" ~> "Ἣ"; "ἤ" ~> "Ἤ"; "ἥ" ~> "Ἥ"; "ἦ" ~> "Ἦ"; "ἧ" ~> "Ἧ";
    "ἰ" ~> "Ἰ"; "ἱ" ~> "Ἱ"; "ἲ" ~> "Ἲ"; "ἳ" ~> "Ἳ"; "ἴ" ~> "Ἴ"; "ἵ" ~> "Ἵ";
    "ἶ" ~> "Ἶ"; "ἷ" ~> "Ἷ"; "ὀ" ~> "Ὀ"; "ὁ" ~> "Ὁ"; "ὂ" ~> "Ὂ"; "ὃ" ~> "Ὃ";
    "ὄ" ~> "Ὄ"; "ὅ" ~> "Ὅ"; "ὐ" ~> "Υ̓"; "ὑ" ~> "Ὑ"; "ὒ" ~> "Υ̓̀"; "ὓ" ~> "Ὓ";
    "ὔ" ~> "Υ̓́"; "ὕ" ~> "Ὕ"; "ὖ" ~> "Υ̓͂"; "ὗ" ~> "Ὗ"; "ὠ" ~> "Ὠ";
    "ὡ" ~> "Ὡ"; "ὢ" ~> "Ὢ"; "ὣ" ~> "Ὣ"; "ὤ" ~> "Ὤ"; "ὥ" ~> "Ὥ"; "ὦ" ~> "Ὦ";
    "ὧ" ~> "Ὧ"; "ὰ" ~> "Ὰ"; "ά" ~> "Ά"; "ὲ" ~> "Ὲ"; "έ" ~> "Έ"; "ὴ" ~> "Ὴ";
    "ή" ~> "Ή"; "ὶ" ~> "Ὶ"; "ί" ~> "Ί"; "ὸ" ~> "Ὸ"; "ό" ~> "Ό"; "ὺ" ~> "Ὺ";
    "ύ" ~> "Ύ"; "ὼ" ~> "Ὼ"; "ώ" ~> "Ώ"; "ᾀ" ~> "ἈΙ"; "ᾁ" ~> "ἉΙ"; "ᾂ" ~> "ἊΙ";
    "ᾃ" ~> "ἋΙ"; "ᾄ" ~> "ἌΙ"; "ᾅ" ~> "ἍΙ"; "ᾆ" ~> "ἎΙ"; "ᾇ" ~> "ἏΙ" ]
  ++
  [ "ᾈ" ~> "ἈΙ"; "ᾉ" ~> "ἉΙ"; "ᾊ" ~> "ἊΙ"; "ᾋ" ~> "ἋΙ"; "ᾌ" ~> "ἌΙ";
    "ᾍ" ~> "ἍΙ"; "ᾎ" ~> "ἎΙ"; "ᾏ" ~> "ἏΙ"; "ᾐ" ~> "ἨΙ"; "ᾑ" ~> "ἩΙ";
    "ᾒ" ~> "ἪΙ"; "ᾓ" ~> "ἫΙ"; "ᾔ" ~> "ἬΙ"; "ᾕ" ~> "ἭΙ"; "ᾖ" ~> "ἮΙ";
    "ᾗ" ~> "ἯΙ"; "ᾘ" ~> "ἨΙ"; "ᾙ" ~> "ἩΙ"; "ᾚ" ~> "ἪΙ"; "ᾛ" ~> "ἫΙ";
    "ᾜ" ~> "ἬΙ"; "ᾝ" ~> "ἭΙ"; "ᾞ" ~> "ἮΙ"; "ᾟ" ~> "ἯΙ"; "ᾠ" ~> "ὨΙ";
    "ᾡ" ~> "ὩΙ"; "ᾢ" ~> "ὪΙ"; "ᾣ" ~> "ὫΙ"; "ᾤ" ~> "ὬΙ"; "ᾥ" ~> "ὭΙ";
    "ᾦ" ~> "ὮΙ"; "ᾧ" ~> "ὯΙ"; "ᾨ" ~> "ὨΙ"; "ᾩ" ~> "ὩΙ"; "ᾪ" ~> "ὪΙ";
    "ᾫ" ~> "ὫΙ"; "ᾬ" ~> "ὬΙ"; "ᾭ" ~> "ὭΙ"; "ᾮ" ~> "ὮΙ"; "ᾯ" ~> "ὯΙ";
    "ᾰ" ~> "Ᾰ"; "ᾱ" ~> "Ᾱ"; "ᾲ" ~> "ᾺΙ"; "ᾳ" ~> "ΑΙ"; "ᾴ" ~> "ΆΙ";
    "ᾶ" ~> "Α͂"; "ᾷ" ~> "Α͂Ι"; "ᾼ" ~> "ΑΙ"; "ι" ~> "Ι"; "ῂ" ~> "ῊΙ";
    "ῃ" ~> "ΗΙ"; "ῄ" ~> "ΉΙ"; "ῆ" ~> "Η͂"; "ῇ" ~> "Η͂Ι"; "ῌ" ~> "ΗΙ";
    "ῐ" ~> "Ῐ"; "ῑ" ~> "Ῑ"; "ῒ" ~> "Ϊ̀"; "ΐ" ~> "Ϊ́"; "ῖ" ~> "Ι͂";
    "ῗ" ~> "Ϊ͂"; "ῠ" ~> "Ῠ"; "ῡ" ~> "Ῡ"; "ῢ" ~> "Ϋ̀" ]
  ++
  [ "ΰ" ~> "Ϋ́"; "ῤ" ~> "Ρ̓"; "ῥ" ~> "Ῥ"; "ῦ" ~> "Υ͂"; "ῧ" ~> "Ϋ͂";
    "ῲ" ~> "ῺΙ"; "ῳ" ~> "ΩΙ"; "ῴ" ~> "ΏΙ"; "ῶ" ~> "Ω͂"; "ῷ" ~> "Ω͂Ι";
    "ῼ" ~> "ΩΙ"; "ⅎ" ~> "Ⅎ"; "ⅰ" ~> "Ⅰ"; "ⅱ" ~> "Ⅱ"; "ⅲ" ~> "Ⅲ"; "ⅳ" ~> "Ⅳ";
    "ⅴ" ~> "Ⅴ"; "ⅵ" ~> "Ⅵ"; "ⅶ" ~> "Ⅶ"; "ⅷ" ~> "Ⅷ"; "ⅸ" ~> "Ⅸ"; "ⅹ" ~> "Ⅹ";
    "ⅺ" ~> "Ⅺ"; "ⅻ" ~> "Ⅻ"; "ⅼ" ~> "Ⅼ"; "ⅽ" ~> "Ⅽ"; "ⅾ" ~> "Ⅾ"; "ⅿ" ~> "Ⅿ";
    "ↄ" ~> "Ↄ"; "ⓐ" ~> "Ⓐ"; "ⓑ" ~> "Ⓑ"; "ⓒ" ~> "Ⓒ"; "ⓓ" ~> "Ⓓ"; "ⓔ" ~> "Ⓔ";
    "ⓕ" ~> "Ⓕ"; "ⓖ" ~> "Ⓖ"; "ⓗ" ~> "Ⓗ"; "ⓘ" ~> "Ⓘ"; "ⓙ" ~> "Ⓙ"; "ⓚ" ~> "Ⓚ";
    "ⓛ" ~> "Ⓛ"; "ⓜ" ~> "Ⓜ"; "ⓝ" ~> "Ⓝ"; "ⓞ" ~> "Ⓞ"; "ⓟ" ~> "Ⓟ"; "ⓠ" ~> "Ⓠ";
    "ⓡ" ~> "Ⓡ"; "ⓢ" ~> "Ⓢ"; "ⓣ" ~> "Ⓣ"; "ⓤ" ~> "Ⓤ"; "ⓥ" ~> "Ⓥ"; "ⓦ" ~> "Ⓦ";
    "ⓧ" ~> "Ⓧ"; "ⓨ" ~> "Ⓨ"; "ⓩ" ~> "Ⓩ"; "ⰰ" ~> "Ⰰ"; "ⰱ" ~> "Ⰱ"; "ⰲ" ~> "Ⰲ";
    "ⰳ" ~> "Ⰳ"; "ⰴ" ~> "Ⰴ"; "ⰵ" ~> "Ⰵ"; "ⰶ" ~> "Ⰶ"; "ⰷ" ~> "Ⰷ"; "ⰸ" ~> "Ⰸ" ]
  ++
  [ "ⰹ" ~> "Ⰹ"; "ⰺ" ~> "Ⰺ"; "ⰻ" ~> "Ⰻ"; "ⰼ" ~> "Ⰼ"; "ⰽ" ~> "Ⰽ"; "ⰾ" ~> "Ⰾ";
    "ⰿ" ~> "Ⰿ"; "ⱀ" ~> "Ⱀ"; "ⱁ" ~> "Ⱁ"; "ⱂ" ~> "Ⱂ"; "ⱃ" ~> "Ⱃ"; "ⱄ" ~> "Ⱄ";
    "ⱅ" ~> "Ⱅ"; "ⱆ" ~> "Ⱆ"; "ⱇ" ~> "Ⱇ"; "ⱈ" ~> "Ⱈ"; "ⱉ" ~> "Ⱉ"; "ⱊ" ~> "Ⱊ";
    "ⱋ" ~> "Ⱋ"; "ⱌ" ~> "Ⱌ"; "ⱍ" ~> "Ⱍ"; "ⱎ" ~> "Ⱎ"; "ⱏ" ~> "Ⱏ"; "ⱐ" ~> "Ⱐ";
    "ⱑ" ~> "Ⱑ"; "ⱒ" ~> "Ⱒ"; "ⱓ" ~> "Ⱓ"; "ⱔ" ~> "Ⱔ"; "ⱕ" ~> "Ⱕ"; "ⱖ" ~> "Ⱖ";
    "ⱗ" ~> "Ⱗ"; "ⱘ" ~> "Ⱘ"; "ⱙ" ~> "Ⱙ"; "ⱚ" ~> "Ⱚ"; "ⱛ" ~> "Ⱛ"; "ⱜ" ~> "Ⱜ";
    "ⱝ" ~> "Ⱝ"; "ⱞ" ~> "Ⱞ"; "ⱟ" ~> "Ⱟ"; "ⱡ" ~> "Ⱡ"; "ⱥ" ~> "Ⱥ"; "ⱦ" ~> "Ⱦ";
    "ⱨ" ~> "Ⱨ"; "ⱪ" ~> "Ⱪ"; "ⱬ" ~> "Ⱬ"; "ⱳ" ~> "Ⱳ"; "ⱶ" ~> "Ⱶ"; "ⲁ" ~> "Ⲁ";
    "ⲃ" ~> "Ⲃ"; "ⲅ" ~> "Ⲅ"; "ⲇ" ~> "Ⲇ"; "ⲉ" ~> "Ⲉ"; "ⲋ" ~> "Ⲋ"; "ⲍ" ~> "Ⲍ";
    "ⲏ" ~> "Ⲏ"; "ⲑ" ~> "Ⲑ"; "ⲓ" ~> "Ⲓ"; "ⲕ" ~> "Ⲕ"; "ⲗ" ~> "Ⲗ"; "ⲙ" ~> "Ⲙ";
    "ⲛ" ~> "Ⲛ"; "ⲝ" ~> "Ⲝ"; "ⲟ" ~> "Ⲟ"; "ⲡ" ~> "Ⲡ" ]
  ++
  [ "ⲣ" ~> "Ⲣ"; "ⲥ" ~> "Ⲥ"; "ⲧ" ~> "Ⲧ"; "ⲩ" ~> "Ⲩ"; "ⲫ" ~> "Ⲫ"; "ⲭ" ~> "Ⲭ";
    "ⲯ" ~> "Ⲯ"; "ⲱ" ~> "Ⲱ"; "ⲳ" ~> "Ⲳ"; "ⲵ" ~> "Ⲵ"; "ⲷ" ~> "Ⲷ"; "ⲹ" ~> "Ⲹ";
    "ⲻ" ~> "Ⲻ"; "ⲽ" ~> "Ⲽ"; "ⲿ" ~> "Ⲿ"; "ⳁ" ~> "Ⳁ"; "ⳃ" ~> "Ⳃ"; "ⳅ" ~> "Ⳅ";
    "ⳇ" ~> "Ⳇ"; "ⳉ" ~> "Ⳉ"; "ⳋ" ~> "Ⳋ"; "ⳍ" ~> "Ⳍ"; "ⳏ" ~> "Ⳏ"; "ⳑ" ~> "Ⳑ";
    "ⳓ" ~> "Ⳓ"; "ⳕ" ~> "Ⳕ"; "ⳗ" ~> "Ⳗ"; "ⳙ" ~> "Ⳙ"; "ⳛ" ~> "Ⳛ"; "ⳝ" ~> "Ⳝ";
    "ⳟ" ~> "Ⳟ"; "ⳡ" ~> "Ⳡ"; "ⳣ" ~> "Ⳣ"; "ⳬ" ~> "Ⳬ"; "ⳮ" ~> "Ⳮ"; "ⳳ" ~> "Ⳳ";
    "ⴀ" ~> "Ⴀ"; "ⴁ" ~> "Ⴁ"; "ⴂ" ~> "Ⴂ"; "ⴃ" ~> "Ⴃ"; "ⴄ" ~> "Ⴄ"; "ⴅ" ~> "Ⴅ";
    "ⴆ" ~> "Ⴆ"; "ⴇ" ~> "Ⴇ"; "ⴈ" ~> "Ⴈ"; "ⴉ" ~> "Ⴉ"; "ⴊ" ~> "Ⴊ"; "ⴋ" ~> "Ⴋ";
    "ⴌ" ~> "Ⴌ"; "ⴍ" ~> "Ⴍ"; "ⴎ" ~> "Ⴎ"; "ⴏ" ~> "Ⴏ"; "ⴐ" ~> "Ⴐ"; "ⴑ" ~> "Ⴑ";
    "ⴒ" ~> "Ⴒ"; "ⴓ" ~> "Ⴓ"; "ⴔ" ~> "Ⴔ"; "ⴕ" ~> "Ⴕ"; "ⴖ" ~> "Ⴖ"; "ⴗ" ~> "Ⴗ";
    "ⴘ" ~> "Ⴘ"; "ⴙ" ~> "Ⴙ"; "ⴚ" ~> "Ⴚ"; "ⴛ" ~> "Ⴛ" ]
  ++
  [ "ⴜ" ~> "Ⴜ"; "ⴝ" ~> "Ⴝ"; "ⴞ" ~> "Ⴞ"; "ⴟ" ~> "Ⴟ"; "ⴠ" ~> "Ⴠ"; "ⴡ" ~> "Ⴡ";
    "ⴢ" ~> "Ⴢ"; "ⴣ" ~> "Ⴣ"; "ⴤ" ~> "Ⴤ"; "ⴥ" ~> "Ⴥ"; "ⴧ" ~> "Ⴧ"; "ⴭ" ~> "Ⴭ";
    "ꙁ" ~> "Ꙁ"; "ꙃ" ~> "Ꙃ"; "ꙅ" ~> "Ꙅ"; "ꙇ" ~> "Ꙇ"; "ꙉ" ~> "Ꙉ"; "ꙋ" ~> "Ꙋ";
    "ꙍ" ~> "Ꙍ"; "ꙏ" ~> "Ꙏ"; "ꙑ" ~> "Ꙑ"; "ꙓ" ~> "Ꙓ"; "ꙕ" ~> "Ꙕ"; "ꙗ" ~> "Ꙗ";
    "ꙙ" ~> "Ꙙ"; "ꙛ" ~> "Ꙛ"; "ꙝ" ~> "Ꙝ"; "ꙟ" ~> "Ꙟ"; "ꙡ" ~> "Ꙡ"; "ꙣ" ~> "Ꙣ";
    "ꙥ" ~> "Ꙥ"; "ꙧ" ~> "Ꙧ"; "ꙩ" ~> "Ꙩ"; "ꙫ" ~> "Ꙫ"; "ꙭ" ~> "Ꙭ"; "ꚁ" ~> "Ꚁ";
    "ꚃ" ~> "Ꚃ"; "ꚅ" ~> "Ꚅ"; "ꚇ" ~> "Ꚇ"; "ꚉ" ~> "Ꚉ"; "ꚋ" ~> "Ꚋ"; "ꚍ" ~> "Ꚍ";
    "ꚏ" ~> "Ꚏ"; "ꚑ" ~> "Ꚑ"; "ꚓ" ~> "Ꚓ"; "ꚕ" ~> "Ꚕ"; "ꚗ" ~> "Ꚗ"; "ꚙ" ~> "Ꚙ";
    "ꚛ" ~> "Ꚛ"; "ꜣ" ~> "Ꜣ"; "ꜥ" ~> "Ꜥ"; "ꜧ" ~> "Ꜧ"; "ꜩ" ~> "Ꜩ"; "ꜫ" ~> "Ꜫ";
    "ꜭ" ~> "Ꜭ"; "ꜯ" ~> "Ꜯ"; "ꜳ" ~> "Ꜳ"; "ꜵ" ~> "Ꜵ"; "ꜷ" ~> "Ꜷ"; "ꜹ" ~> "Ꜹ";
    "ꜻ" ~> "Ꜻ"; "ꜽ" ~> "Ꜽ"; "ꜿ" ~> "Ꜿ"; "ꝁ" ~> "Ꝁ" ]
  ++
  [ "ꝃ" ~> "Ꝃ"; "ꝅ" ~> "Ꝅ"; "ꝇ" ~> "Ꝇ"; "ꝉ" ~> "Ꝉ"; "ꝋ" ~> "Ꝋ"; "ꝍ" ~> "Ꝍ";
    "ꝏ" ~> "Ꝏ"; "ꝑ" ~> "Ꝑ"; "ꝓ" ~> "Ꝓ"; "ꝕ" ~> "Ꝕ"; "ꝗ" ~> "Ꝗ"; "ꝙ" ~> "Ꝙ";
    "ꝛ" ~> "Ꝛ"; "ꝝ" ~> "Ꝝ"; "ꝟ" ~> "Ꝟ"; "ꝡ" ~> "Ꝡ"; "ꝣ" ~> "Ꝣ"; "ꝥ" ~> "Ꝥ";
    "ꝧ" ~> "Ꝧ"; "ꝩ" ~> "Ꝩ"; "ꝫ" ~> "Ꝫ"; "ꝭ" ~> "Ꝭ"; "ꝯ" ~> "Ꝯ"; "ꝺ" ~> "Ꝺ";
    "ꝼ" ~> "Ꝼ"; "ꝿ" ~> "Ꝿ"; "ꞁ" ~> "Ꞁ"; "ꞃ" ~> "Ꞃ"; "ꞅ" ~> "Ꞅ"; "ꞇ" ~> "Ꞇ";
    "ꞌ" ~> "Ꞌ"; "ꞑ" ~> "Ꞑ"; "ꞓ" ~> "Ꞓ"; "ꞔ" ~> "Ꞔ"; "ꞗ" ~> "Ꞗ"; "ꞙ" ~> "Ꞙ";
    "ꞛ" ~> "Ꞛ"; "ꞝ" ~> "Ꞝ"; "ꞟ" ~> "Ꞟ"; "ꞡ" ~> "Ꞡ"; "ꞣ" ~> "Ꞣ"; "ꞥ" ~> "Ꞥ";
    "ꞧ" ~> "Ꞧ"; "ꞩ" ~> "Ꞩ"; "ꞵ" ~> "Ꞵ"; "ꞷ" ~> "Ꞷ"; "ꞹ" ~> "Ꞹ"; "ꞻ" ~> "Ꞻ";
    "ꞽ" ~> "Ꞽ"; "ꞿ" ~> "Ꞿ"; "ꟁ" ~> "Ꟁ"; "ꟃ" ~> "Ꟃ"; "ꟈ" ~> "Ꟈ"; "ꟊ" ~> "Ꟊ";
    "ꟑ" ~> "Ꟑ"; "ꟗ" ~> "Ꟗ"; "ꟙ" ~> "Ꟙ"; "ꟶ" ~> "Ꟶ"; "ꭓ" ~> "Ꭓ"; "ꭰ" ~> "Ꭰ";
    "ꭱ" ~> "Ꭱ"; "ꭲ" ~> "Ꭲ"; "ꭳ" ~> "Ꭳ"; "ꭴ" ~> "Ꭴ" ]
  ++
  [ "ꭵ" ~> "Ꭵ"; "ꭶ" ~> "Ꭶ"; "ꭷ" ~> "Ꭷ"; "ꭸ" ~> "Ꭸ"; "ꭹ" ~> "Ꭹ"; "ꭺ" ~> "Ꭺ";
    "ꭻ" ~> "Ꭻ"; "ꭼ" ~> "Ꭼ"; "ꭽ" ~> "Ꭽ"; "ꭾ" ~> "Ꭾ"; "ꭿ" ~> "Ꭿ"; "ꮀ" ~> "Ꮀ";
    "ꮁ" ~> "Ꮁ"; "ꮂ" ~> "Ꮂ"; "ꮃ" ~> "Ꮃ"; "ꮄ" ~> "Ꮄ"; "ꮅ" ~> "Ꮅ"; "ꮆ" ~> "Ꮆ";
    "ꮇ" ~> "Ꮇ"; "ꮈ" ~> "Ꮈ"; "ꮉ" ~> "Ꮉ"; "ꮊ" ~> "Ꮊ"; "ꮋ" ~> "Ꮋ"; "ꮌ" ~> "Ꮌ";
    "ꮍ" ~> "Ꮍ"; "ꮎ" ~> "Ꮎ"; "ꮏ" ~> "Ꮏ"; "ꮐ" ~> "Ꮐ"; "ꮑ" ~> "Ꮑ"; "ꮒ" ~> "Ꮒ";
    "ꮓ" ~> "Ꮓ"; "ꮔ" ~> "Ꮔ"; "ꮕ" ~> "Ꮕ"; "ꮖ" ~> "Ꮖ"; "ꮗ" ~> "Ꮗ"; "ꮘ" ~> "Ꮘ";
    "ꮙ" ~> "Ꮙ"; "ꮚ" ~> "Ꮚ"; "ꮛ" ~> "Ꮛ"; "ꮜ" ~> "Ꮜ"; "ꮝ" ~> "Ꮝ"; "ꮞ" ~> "Ꮞ";
    "ꮟ" ~> "Ꮟ"; "ꮠ" ~> "Ꮠ"; "ꮡ" ~> "Ꮡ"; "ꮢ" ~> "Ꮢ"; "ꮣ" ~> "Ꮣ"; "ꮤ" ~> "Ꮤ";
    "ꮥ" ~> "Ꮥ"; "ꮦ" ~> "Ꮦ"; "ꮧ" ~> "Ꮧ"; "ꮨ" ~> "Ꮨ"; "ꮩ" ~> "Ꮩ"; "ꮪ" ~> "Ꮪ";
    "ꮫ" ~> "Ꮫ"; "ꮬ" ~> "Ꮬ"; "ꮭ" ~> "Ꮭ"; "ꮮ" ~> "Ꮮ"; "ꮯ" ~> "Ꮯ"; "ꮰ" ~> "Ꮰ";
    "ꮱ" ~> "Ꮱ"; "ꮲ" ~> "Ꮲ"; "ꮳ" ~> "Ꮳ"; "ꮴ" ~> "Ꮴ" ]
  ++
  [ "ꮵ" ~> "Ꮵ"; "ꮶ" ~> "Ꮶ"; "ꮷ" ~> "Ꮷ"; "ꮸ" ~> "Ꮸ"; "ꮹ" ~> "Ꮹ"; "ꮺ" ~> "Ꮺ";
    "ꮻ" ~> "Ꮻ"; "ꮼ" ~> "Ꮼ"; "ꮽ" ~> "Ꮽ"; "ꮾ" ~> "Ꮾ"; "ꮿ" ~> "Ꮿ"; "ﬀ" ~> "FF";
    "ﬁ" ~> "FI"; "ﬂ" ~> "FL"; "ﬃ" ~> "FFI"; "ﬄ" ~> "FFL"; "ﬅ" ~> "ST";
    "ﬆ" ~> "ST"; "ﬓ" ~> "ՄՆ"; "ﬔ" ~> "ՄԵ"; "ﬕ" ~> "ՄԻ"; "ﬖ" ~> "ՎՆ";
    "ﬗ" ~> "ՄԽ"; "ａ" ~> "Ａ"; "ｂ" ~> "Ｂ"; "ｃ" ~> "Ｃ"; "ｄ" ~> "Ｄ"; "ｅ" ~> "Ｅ";
    "ｆ" ~> "Ｆ"; "ｇ" ~> "Ｇ"; "ｈ" ~> "Ｈ"; "ｉ" ~> "Ｉ"; "ｊ" ~> "Ｊ"; "ｋ" ~> "Ｋ";
    "ｌ" ~> "Ｌ"; "ｍ" ~> "Ｍ"; "ｎ" ~> "Ｎ"; "ｏ" ~> "Ｏ"; "ｐ" ~> "Ｐ"; "ｑ" ~> "Ｑ";
    "ｒ" ~> "Ｒ"; "ｓ" ~> "Ｓ"; "ｔ" ~> "Ｔ"; "ｕ" ~> "Ｕ"; "ｖ" ~> "Ｖ"; "ｗ" ~> "Ｗ";
    "ｘ" ~> "Ｘ"; "ｙ" ~> "Ｙ"; "ｚ" ~> "Ｚ"; "𐐨" ~> "𐐀"; "𐐩" ~> "𐐁"; "𐐪" ~> "𐐂";
    "𐐫" ~> "𐐃"; "𐐬" ~> "𐐄"; "𐐭" ~> "𐐅"; "𐐮" ~> "𐐆"; "𐐯" ~> "𐐇"; "𐐰" ~> "𐐈";
    "𐐱" ~> "𐐉"; "𐐲" ~> "𐐊"; "𐐳" ~> "𐐋"; "𐐴" ~> "𐐌"; "𐐵" ~> "𐐍"; "𐐶" ~> "𐐎" ]
  ++
  [ "𐐷" ~> "𐐏"; "𐐸" ~> "𐐐"; "𐐹" ~> "𐐑"; "𐐺" ~> "𐐒"; "𐐻" ~> "𐐓"; "𐐼" ~> "𐐔";
    "𐐽" ~> "𐐕"; "𐐾" ~> "𐐖"; "𐐿" ~> "𐐗"; "𐑀" ~> "𐐘"; "𐑁" ~> "𐐙"; "𐑂" ~> "𐐚";
    "𐑃" ~> "𐐛"; "𐑄" ~> "𐐜"; "𐑅" ~> "𐐝"; "𐑆" ~> "𐐞"; "𐑇" ~> "𐐟"; "𐑈" ~> "𐐠";
    "𐑉" ~> "𐐡"; "𐑊" ~> "𐐢"; "𐑋" ~> "𐐣"; "𐑌" ~> "𐐤"; "𐑍" ~> "𐐥"; "𐑎" ~> "𐐦";
    "𐑏" ~> "𐐧"; "𐓘" ~> "𐒰"; "𐓙" ~> "𐒱"; "𐓚" ~> "𐒲"; "𐓛" ~> "𐒳"; "𐓜" ~> "𐒴";
    "𐓝" ~> "𐒵"; "𐓞" ~> "𐒶"; "𐓟" ~> "𐒷"; "𐓠" ~> "𐒸"; "𐓡" ~> "𐒹"; "𐓢" ~> "𐒺";
    "𐓣" ~> "𐒻"; "𐓤" ~> "𐒼"; "𐓥" ~> "𐒽"; "𐓦" ~> "𐒾"; "𐓧" ~> "𐒿"; "𐓨" ~> "𐓀";
    "𐓩" ~> "𐓁"; "𐓪" ~> "𐓂"; "𐓫" ~> "𐓃"; "𐓬" ~> "𐓄"; "𐓭" ~> "𐓅"; "𐓮" ~> "𐓆";
    "𐓯" ~> "𐓇"; "𐓰" ~> "𐓈"; "𐓱" ~> "𐓉"; "𐓲" ~> "𐓊"; "𐓳" ~> "𐓋"; "𐓴" ~> "𐓌";
    "𐓵" ~> "𐓍"; "𐓶" ~> "𐓎"; "𐓷" ~> "𐓏"; "𐓸" ~> "𐓐"; "𐓹" ~> "𐓑"; "𐓺" ~> "𐓒";
    "𐓻" ~> "𐓓"; "𐖗" ~> "𐕰"; "𐖘" ~> "𐕱"; "𐖙" ~> "𐕲" ]
  ++
  [ "𐖚" ~> "𐕳"; "𐖛" ~> "𐕴"; "𐖜" ~> "𐕵"; "𐖝" ~> "𐕶"; "𐖞" ~> "𐕷"; "𐖟" ~> "𐕸";
    "𐖠" ~> "𐕹"; "𐖡" ~> "𐕺"; "𐖣" ~> "𐕼"; "𐖤" ~> "𐕽"; "𐖥" ~> "𐕾"; "𐖦" ~> "𐕿";
    "𐖧" ~> "𐖀"; "𐖨" ~> "𐖁"; "𐖩" ~> "𐖂"; "𐖪" ~> "𐖃"; "𐖫" ~> "𐖄"; "𐖬" ~> "𐖅";
    "𐖭" ~> "𐖆"; "𐖮" ~> "𐖇"; "𐖯" ~> "𐖈"; "𐖰" ~> "𐖉"; "𐖱" ~> "𐖊"; "𐖳" ~> "𐖌";
    "𐖴" ~> "𐖍"; "𐖵" ~> "𐖎"; "𐖶" ~> "𐖏"; "𐖷" ~> "𐖐"; "𐖸" ~> "𐖑"; "𐖹" ~> "𐖒";
    "𐖻" ~> "𐖔"; "𐖼" ~> "𐖕"; "𐳀" ~> "𐲀"; "𐳁" ~> "𐲁"; "𐳂" ~> "𐲂"; "𐳃" ~> "𐲃";
    "𐳄" ~> "𐲄"; "𐳅" ~> "𐲅"; "𐳆" ~> "𐲆"; "𐳇" ~> "𐲇"; "𐳈" ~> "𐲈"; "𐳉" ~> "𐲉";
    "𐳊" ~> "𐲊"; "𐳋" ~> "𐲋"; "𐳌" ~> "𐲌"; "𐳍" ~> "𐲍"; "𐳎" ~> "𐲎"; "𐳏" ~> "𐲏";
    "𐳐" ~> "𐲐"; "𐳑" ~> "𐲑"; "𐳒" ~> "𐲒"; "𐳓" ~> "𐲓"; "𐳔" ~> "𐲔"; "𐳕" ~> "𐲕";
    "𐳖" ~> "𐲖"; "𐳗" ~> "𐲗"; "𐳘" ~> "𐲘"; "𐳙" ~> "𐲙"; "𐳚" ~> "𐲚"; "𐳛" ~> "𐲛";
    "𐳜" ~> "𐲜"; "𐳝" ~> "𐲝"; "𐳞" ~> "𐲞"; "𐳟" ~> "𐲟" ]
  ++
  [ "𐳠" ~> "𐲠"; "𐳡" ~> "𐲡"; "𐳢" ~> "𐲢"; "𐳣" ~> "𐲣"; "𐳤" ~> "𐲤"; "𐳥" ~> "𐲥";
    "𐳦" ~> "𐲦"; "𐳧" ~> "𐲧"; "𐳨" ~> "𐲨"; "𐳩" ~> "𐲩"; "𐳪" ~> "𐲪"; "𐳫" ~> "𐲫";
    "𐳬" ~> "𐲬"; "𐳭" ~> "𐲭"; "𐳮" ~> "𐲮"; "𐳯" ~> "𐲯"; "𐳰" ~> "𐲰"; "𐳱" ~> "𐲱";
    "𐳲" ~> "𐲲"; "𑣀" ~> "𑢠"; "𑣁" ~> "𑢡"; "𑣂" ~> "𑢢"; "𑣃" ~> "𑢣"; "𑣄" ~> "𑢤";
    "𑣅" ~> "𑢥"; "𑣆" ~> "𑢦"; "𑣇" ~> "𑢧"; "𑣈" ~> "𑢨"; "𑣉" ~> "𑢩"; "𑣊" ~> "𑢪";
    "𑣋" ~> "𑢫"; "𑣌" ~> "𑢬"; "𑣍" ~> "𑢭"; "𑣎" ~> "𑢮"; "𑣏" ~> "𑢯"; "𑣐" ~> "𑢰";
    "𑣑" ~> "𑢱"; "𑣒" ~> "𑢲"; "𑣓" ~> "𑢳"; "𑣔" ~> "𑢴"; "𑣕" ~> "𑢵"; "𑣖" ~> "𑢶";
    "𑣗" ~> "𑢷"; "𑣘" ~> "𑢸"; "𑣙" ~> "𑢹"; "𑣚" ~> "𑢺"; "𑣛" ~> "𑢻"; "𑣜" ~> "𑢼";
    "𑣝" ~> "𑢽"; "𑣞" ~> "𑢾"; "𑣟" ~> "𑢿"; "𖹠" ~> "𖹀"; "𖹡" ~> "𖹁"; "𖹢" ~> "𖹂";
    "𖹣" ~> "𖹃"; "𖹤" ~> "𖹄"; "𖹥" ~> "𖹅"; "𖹦" ~> "𖹆"; "𖹧" ~> "𖹇"; "𖹨" ~> "𖹈";
    "𖹩" ~> "𖹉"; "𖹪" ~> "𖹊"; "𖹫" ~> "𖹋"; "𖹬" ~> "𖹌" ]
  ++
  [ "𖹭" ~> "𖹍"; "𖹮" ~> "𖹎"; "𖹯" ~> "𖹏"; "𖹰" ~> "𖹐"; "𖹱" ~> "𖹑"; "𖹲" ~> "𖹒";
    "𖹳" ~> "𖹓"; "𖹴" ~> "𖹔"; "𖹵" ~> "𖹕"; "𖹶" ~> "𖹖"; "𖹷" ~> "𖹗"; "𖹸" ~> "𖹘";
    "𖹹" ~> "𖹙"; "𖹺" ~> "𖹚"; "𖹻" ~> "𖹛"; "𖹼" ~> "𖹜"; "𖹽" ~> "𖹝"; "𖹾" ~> "𖹞";
    "𖹿" ~> "𖹟"; "𞤢" ~> "𞤀"; "𞤣" ~> "𞤁"; "𞤤" ~> "𞤂"; "𞤥" ~> "𞤃"; "𞤦" ~> "𞤄";
    "𞤧" ~> "𞤅"; "𞤨" ~> "𞤆"; "𞤩" ~> "𞤇"; "𞤪" ~> "𞤈"; "𞤫" ~> "𞤉"; "𞤬" ~> "𞤊";
    "𞤭" ~> "𞤋"; "𞤮" ~> "𞤌"; "𞤯" ~> "𞤍"; "𞤰" ~> "𞤎"; "𞤱" ~> "𞤏"; "𞤲" ~> "𞤐";
    "𞤳" ~> "𞤑"; "𞤴" ~> "𞤒"; "𞤵" ~> "𞤓"; "𞤶" ~> "𞤔"; "𞤷" ~> "𞤕"; "𞤸" ~> "𞤖";
    "𞤹" ~> "𞤗"; "𞤺" ~> "𞤘"; "𞤻" ~> "𞤙"; "𞤼" ~> "𞤚"; "𞤽" ~> "𞤛"; "𞤾" ~> "𞤜";
    "𞤿" ~> "𞤝"; "𞥀" ~> "𞤞"; "𞥁" ~> "𞤟"; "𞥂" ~> "𞤠"; "𞥃" ~> "𞤡" ].

Definition upper (s : string) : string :=
  map_chars (case_lookup upper_table) EmptyString 0 s.

(* ------------------------------------------------------------------ *)
(** *** Dictionaries

    A Python [dict] keeps insertion order; setting a key that is already
    there replaces its value in place. *)
Definition py_dict : Type := list (pyval * pyval).

Fixpoint dict_get (d : py_dict) (k : pyval) : option pyval :=
  match d with
  | [] => None
  | (k', v) :: d' => if py_eqb k' k then Some v else dict_get d' k
  end.

Fixpoint dict_set (d : py_dict) (k v : pyval) : py_dict :=
  match d with
  | [] => [(k, v)]
  | (k', v') :: d' =>
      if py_eqb k' k then (k', v) :: d' else (k', v') :: dict_set d' k v
  end.

(** [dict(pairs)]: the pairs are inserted from left to right. *)
Definition dict_of_pairs (kvs : list (pyval * pyval)) : py_dict :=
  fold_left (fun d kv => dict_set d (fst kv) (snd kv)) kvs [].

(* ================================================================== *)
(** ** The code table: [load_codes] and [search_code] *)

(** A data frame as [pd.read_csv] returns it: named columns of cells. *)
Definition dataframe : Type := list (string * list pyval).

Definition has_column (name : string) (df : dataframe) : bool :=
  existsb (fun col => String.eqb (fst col) name) df.

Fixpoint column (name : string) (df : dataframe) : list pyval :=
  match df with
  | [] => []
  | (n, cells) :: df' => if String.eqb n name then cells else column name df'
  end.

(** [load_codes]: [read_csv] is the outcome of [pd.read_csv(csv_file)].
    Only [FileNotFoundError] is caught (logged, empty table); the
    [KeyError] raised for a missing column and every other exception of
    the read leave the function. *)
Definition load_codes (read_csv : result dataframe) : result py_dict :=
  match read_csv with
  | Ok df =>
      if has_column "code" df && has_column "description" df
      then Ok (dict_of_pairs (combine (column "code" df) (column "description" df)))
      else Raise KeyError
  | Raise FileNotFoundError => Ok []
  | Raise e => Raise e
  end.

(** The two renderings of [search_code]. *)
Definition hit_format (code : string) (description : pyval) : string :=
  "Código: " ++ code ++ nl ++ "Descrição: " ++ py_str description.

Definition miss_format (code : string) : string :=
  "Código " ++ code ++ " não encontrado.".

(** [code.upper()]: only a [str] has the method. *)
Definition py_upper (code : pyval) : result string :=
  match code with
  | PyStr s => Ok (upper s)
  | _ => Raise AttributeError
  end.

(** [search_code]: [self.codes.get(code.upper(), None)], then the
    truthiness test [if description:]. *)
Definition search_code (codes : py_dict) (code : pyval) : result string :=
  match py_upper code with
  | Raise e => Raise e
  | Ok u =>
      match dict_get codes (PyStr u) with
      | Some description =>
          if py_truthy description then Ok (hit_format u description)
          else Ok (miss_format u)
      | None => Ok (miss_format u)
      end
  end.

(* ================================================================== *)
(** ** The diagnosis record *)

(** The dict built by [diagnose_vehicle]: six fixed keys, in the order of
    the dict literal. *)
Record diagnosis : Type := Diagnosis {
  customer_complaint : pyval;
  selected_method : string;
  dtc_code : pyval;
  dtc_description : string;
  related_symptoms : pyval;
  problem_area : pyval
}.

(** [diagnosis.items()]. *)
Definition items (d : diagnosis) : list (string * pyval) :=
  [ ("Reclamação do Cliente", customer_complaint d);
    ("Método de Diagnóstico", PyStr (selected_method d));
    ("Código de Falha", dtc_code d);
    ("Descrição do Código", PyStr (dtc_description d));
    ("Sintomas Relacionados", related_symptoms d);
    ("Área do Problema", problem_area d) ].

Definition diagnostic_methods : list string :=
  [ "Verificar a Reclamação";
    "Determinar os Sintomas Relacionados";
    "Analisar os Sintomas Relacionados";
    "Isolar a Área do Problema";
    "Reparar a Área do Problema";
    "Certificar que a Operação Está Adequada" ].

(** [l[i]] with Python's negative indices. *)
Definition list_index {A : Type} (l : list A) (i : Z) : result A :=
  let n := Z.of_nat (List.length l) in
  let j := if (i <? 0)%Z then (i + n)%Z else i in
  if ((0 <=? j) && (j <? n))%Z
  then match nth_error l (Z.to_nat j) with
       | Some a => Ok a
       | None => Raise IndexError
       end
  else Raise IndexError.

(** [method_choice - 1]: defined on integers (and booleans, which are
    integers); [None] and strings raise [TypeError]. *)
Definition py_sub1 (v : pyval) : result Z :=
  match v with
  | PyInt z => Ok (z - 1)%Z
  | PyBool b => Ok (int_of_bool b - 1)%Z
  | _ => Raise TypeError
  end.

(** [diagnostic_methods[method_choice - 1]]. *)
Definition select_method (method_choice : pyval) : result string :=
  match py_sub1 method_choice with
  | Ok i => list_index diagnostic_methods i
  | Raise e => Raise e
  end.

(* ================================================================== *)
(** ** State, effects and the monad *)

(** The requests made to the assistants service. *)
Inductive api_op : Type :=
| AssistantsCreate
| ThreadsCreate
| MessagesCreate (prompt : string)
| RunsCreateAndPoll
| MessagesList
| AssistantsDelete.

(** What the system asks of the world, in order: an append to its
    history, a request to the service, the writing of a file. *)
Inductive event : Type :=
| HistoryAppend (d : diagnosis)
| ApiRequest (op : api_op)
| FileWrite (path content : string).

(** The fields of a [VehicleDiagnosticSystem] and the effects so far. *)
Record state : Type := State {
  codes : py_dict;
  diagnostics_history : list diagnosis;
  trace : list event
}.

Definition M (A : Type) : Type := state -> result A * state.

Definition ret {A : Type} (a : A) : M A := fun st => (Ok a, st).

(** An exception stops the computation; what was done before stays. *)
Definition bind {A B : Type} (m : M A) (k : A -> M B) : M B :=
  fun st =>
    match m st with
    | (Ok a, st') => k a st'
    | (Raise e, st') => (Raise e, st')
    end.

Notation "x <- m ;; k" := (bind m (fun x => k))
  (at level 61, m at next level, right associativity).

Definition lift {A : Type} (r : result A) : M A := fun st => (r, st).

Definition get_codes : M py_dict := fun st => (Ok (codes st), st).

Definition get_history : M (list diagnosis) :=
  fun st => (Ok (diagnostics_history st), st).

Definition emit (e : event) (st : state) : state :=
  State (codes st) (diagnostics_history st) (trace st ++ [e])%list.

(** [self.diagnostics_history.append(d)]. *)
Definition history_append (d : diagnosis) : M unit :=
  fun st =>
    (Ok tt, State (codes st) (diagnostics_history st ++ [d])%list
                  (trace st ++ [HistoryAppend d])%list).

(** A request to the service: it is recorded, then returns or raises. *)
Definition api {A : Type} (op : api_op) (outcome : result A) : M A :=
  fun st => (outcome, emit (ApiRequest op) st).

(** The files as the process meets them: whether [open(path, "w")]
    returns, and whether the encoding the file is opened with (the one
    of the locale) can encode a text. *)
Record filesystem : Type := Filesystem {
  open_w : string -> result unit;
  encodes : string -> bool
}.

(** The outcome of [open(path, "w")] followed by [file.write(content)]:
    the exception of the open, or [UnicodeEncodeError] when the text
    cannot be encoded. *)
Definition write_outcome (fs : filesystem) (path content : string)
  : result unit :=
  match open_w fs path with
  | Raise e => Raise e
  | Ok _ => if encodes fs content then Ok tt else Raise UnicodeEncodeError
  end.

(** [with open(path, "w") as file: file.write(content)].  Like a request
    to the service, the write is recorded when it is made; it then
    returns or raises. *)
Definition file_write (fs : filesystem) (path content : string) : M unit :=
  fun st => (write_outcome fs path content, emit (FileWrite path content) st).

(* ================================================================== *)
(** ** The suggestion call: [get_chatbot_solution] *)

(** A thread message, seen through [msg.content[0]]. *)
Record message : Type := Message {
  content_type : string;
  text_value : string
}.

(** The module-level [client]: what each of its operations answers.
    Every operation may raise.  That covers transport errors, and it
    covers the binding of [app.py] itself, whose chained assignment
    [client = openai.api_key = os.getenv(...)] gives [client] the value
    of the key, an object without the attribute [beta] (see
    [broken_client]). *)
Record service : Type := Service {
  assistants_create : result unit;
  threads_create : result unit;
  messages_create : string -> result unit;
  runs_create_and_poll : string -> result string;
  messages_list : string -> result (list message);
  assistants_delete : result unit
}.

(** [re.sub(r"[*_#`~]", "", s)]. *)
Definition is_markdown (c : ascii) : bool :=
  Ascii.eqb c "*" || Ascii.eqb c "_" || Ascii.eqb c "#"
  || Ascii.eqb c "`" || Ascii.eqb c "~".

Fixpoint strip_markdown (s : string) : string :=
  match s with
  | EmptyString => EmptyString
  | String c s' =>
      if is_markdown c then strip_markdown s' else String c (strip_markdown s')
  end.

Definition text_messages (msgs : list message) : list string :=
  map text_value (filter (fun m => String.eqb (content_type m) "text") msgs).

Definition fallback_suggestion : string :=
  "Ocorreu um erro ao processar a solicitação. Tente novamente.".

Definition prompt_of (d : diagnosis) : string :=
  "Cliente reclamou de: " ++ py_str (customer_complaint d) ++ nl ++
  "Método de Diagnóstico: " ++ selected_method d ++ nl ++
  "Código de Falha: " ++ py_str (dtc_code d) ++ nl ++
  "Descrição do Código: " ++ dtc_description d ++ nl ++
  "Sintomas Relacionados: " ++ py_str (related_symptoms d) ++ nl ++
  "Área do Problema: " ++ py_str (problem_area d) ++ nl ++
  "Com base nessas informações, quais podem ser as causas do problema e como ele pode ser resolvido?".

Section Client.

Variable client : service.

Definition get_chatbot_solution (d : diagnosis) : M string :=
  _ <- api AssistantsCreate (assistants_create client) ;;
  _ <- api ThreadsCreate (threads_create client) ;;
  let prompt := prompt_of d in
  _ <- api (MessagesCreate prompt) (messages_create client prompt) ;;
  status <- api RunsCreateAndPoll (runs_create_and_poll client prompt) ;;
  suggestion <-
    (if String.eqb status "completed"
     then msgs <- api MessagesList (messages_list client prompt) ;;
          ret (strip_markdown (String.concat nl (text_messages msgs)))
     else ret fallback_suggestion) ;;
  _ <- api AssistantsDelete (assistants_delete client) ;;
  ret suggestion.

(* ================================================================== *)
(** ** [diagnose_vehicle], [view_history], [generate_report] *)

Record response : Type := Response {
  resp_diagnosis : diagnosis;
  resp_suggestion : string
}.

Definition diagnose_vehicle
    (complaint method_choice dtc symptoms area : pyval) : M response :=
  method <- lift (select_method method_choice) ;;
  table <- get_codes ;;
  description <-
    lift (if py_truthy dtc then search_code table dtc else Ok "N/A") ;;
  let d := Diagnosis complaint method dtc description symptoms area in
  _ <- history_append d ;;
  suggestion <- get_chatbot_solution d ;;
  ret (Response d suggestion).

End Client.

Definition view_history : M (list diagnosis) := get_history.

Definition report_banner : string :=
  nl ++ "--- Relatório de Diagnóstico ---" ++ nl.

Definition report_line (kv : string * pyval) : string :=
  fst kv ++ ": " ++ py_str (snd kv) ++ nl.

Definition no_diagnosis_message : string :=
  "Nenhum diagnóstico disponível para gerar relatório.".

Definition report_saved_message : string :=
  "Relatório gerado e salvo como 'diagnostic_report.txt'".

Definition generate_report (fs : filesystem) : M string :=
  history <- get_history ;;
  match history with
  | [] => ret no_diagnosis_message
  | _ :: _ =>
      last_diagnosis <- lift (list_index history (-1)) ;;
      let report :=
        fold_left (fun r kv => r ++ report_line kv) (items last_diagnosis)
                  report_banner in
      _ <- file_write fs "diagnostic_report.txt" report ;;
      ret report_saved_message
  end.

(** [VehicleDiagnosticSystem(csv_file)]. *)
Definition init (read_csv : result dataframe) : result state :=
  match load_codes read_csv with
  | Ok table => Ok (State table [] [])
  | Raise e => Raise e
  end.

(* ================================================================== *)
(** ** The routes

    The Flask handlers around the one [system] object.  They read the
    request, call the method and hand back what [jsonify] is given; the
    logging is left out. *)

(** [data.get(key)] on the JSON object of the request body. *)
Definition json_get (data : py_dict) (key : string) : pyval :=
  match dict_get data (PyStr key) with
  | Some v => v
  | None => PyNone
  end.

(** [request.args.get(key)]: the first value of the query parameter. *)
Fixpoint args_get (args : list (string * string)) (key : string) : pyval :=
  match args with
  | [] => PyNone
  | (k, v) :: args' => if String.eqb k key then PyStr v else args_get args' key
  end.

Module Routes.

Section Client.

Variable client : service.

(** [POST /diagnose]. *)
Definition diagnose_vehicle (data : py_dict) : M response :=
  diagnose_vehicle client
    (json_get data "customer_complaint")
    (json_get data "method_choice")
    (json_get data "dtc_code")
    (json_get data "related_symptoms")
    (json_get data "problem_area").

End Client.

(** [GET /search_code]. *)
Definition search_code (args : list (string * string)) : M string :=
  table <- get_codes ;;
  lift (search_code table (args_get args "code")).

(** [GET /view_history]. *)
Definition view_history : M (list diagnosis) := view_history.

(** [GET /codes]: one object per entry of the table, in its order. *)
Definition get_all_codes : M (list (list (string * pyval))) :=
  table <- get_codes ;;
  ret (map (fun kv => [("code", fst kv); ("description", snd kv)]) table).

(** [GET /generate_report]. *)
Definition generate_report (fs : filesystem) : M string :=
  generate_report fs.

End Routes.

(* ================================================================== *)
(** ** Notions used to state properties *)

(** [k in d]. *)
Definition key_in (d : py_dict) (k : pyval) : bool :=
  existsb (fun kv => py_eqb (fst kv) k) d.

(** No two entries of [d] have equal keys. *)
Fixpoint keys_distinct (d : py_dict) : bool :=
  match d with
  | [] => true
  | (k, _) :: d' => negb (key_in d' k) && keys_distinct d'
  end.

(** The text holds none of the five markdown characters. *)
Fixpoint no_markdown (s : string) : bool :=
  match s with
  | EmptyString => true
  | String c s' => negb (is_markdown c) && no_markdown s'
  end.

Definition delete_request : event := ApiRequest AssistantsDelete.

(** The record carries one of the six labels. *)
Definition has_known_method (d : diagnosis) : Prop :=
  In (selected_method d) diagnostic_methods.

Definition is_delete_request (e : event) : bool :=
  match e with
  | ApiRequest AssistantsDelete => true
  | _ => false
  end.

(* ================================================================== *)
(** ** Properties the specification words differently

    These definitions follow the wording of the specification, to be
    compared with the code above. *)

(** The case of the letters [A]..[Z], without reference to [upper]: the
    lower-case form of a byte, two bytes that differ at most in the case
    of such a letter, and two strings that do so position by position. *)
Definition is_upper (c : ascii) : bool :=
  let n := nat_of_ascii c in (65 <=? n)%nat && (n <=? 90)%nat.

Definition lower_char (c : ascii) : ascii :=
  if is_upper c then ascii_of_nat (nat_of_ascii c + 32) else c.

Definition same_letter (a b : ascii) : bool :=
  Ascii.eqb a b || Ascii.eqb (lower_char a) b || Ascii.eqb a (lower_char b).

Fixpoint differ_only_in_ascii_case (s t : string) : bool :=
  match s, t with
  | EmptyString, EmptyString => true
  | String a s', String b t' =>
      same_letter a b && differ_only_in_ascii_case s' t'
  | _, _ => false
  end.

(** The characters that [str.casefold] changes, each with what it
    becomes (Unicode 14.0, the database of CPython 3.11). *)
Definition casefold_table : list (string * string) :=
  [ "A" ~> "a"; "B" ~> "b"; "C" ~> "c"; "D" ~> "d"; "E" ~> "e"; "F" ~> "f";
    "G" ~> "g"; "H" ~> "h"; "I" ~> "i"; "J" ~> "j"; "K" ~> "k"; "L" ~> "l";
    "M" ~> "m"; "N" ~> "n"; "O" ~> "o"; "P" ~> "p"; "Q" ~> "q"; "R" ~> "r";
    "S" ~> "s"; "T" ~> "t"; "U" ~> "u"; "V" ~> "v"; "W" ~> "w"; "X" ~> "x";
    "Y" ~> "y"; "Z" ~> "z"; "µ" ~> "μ"; "À" ~> "à"; "Á" ~> "á"; "Â" ~> "â";
    "Ã" ~> "ã"; "Ä" ~> "ä"; "Å" ~> "å"; "Æ" ~> "æ"; "Ç" ~> "ç"; "È" ~> "è";
    "É" ~> "é"; "Ê" ~> "ê"; "Ë" ~> "ë"; "Ì" ~> "ì"; "Í" ~> "í"; "Î" ~> "î";
    "Ï" ~> "ï"; "Ð" ~> "ð"; "Ñ" ~> "ñ"; "Ò" ~> "ò"; "Ó" ~> "ó"; "Ô" ~> "ô";
    "Õ" ~> "õ"; "Ö" ~> "ö"; "Ø" ~> "ø"; "Ù" ~> "ù"; "Ú" ~> "ú"; "Û" ~> "û";
    "Ü" ~> "ü"; "Ý" ~> "ý"; "Þ" ~> "þ"; "ß" ~> "ss"; "Ā" ~> "ā"; "Ă" ~> "ă";
    "Ą" ~> "ą"; "Ć" ~> "ć"; "Ĉ" ~> "ĉ"; "Ċ" ~> "ċ" ]
  ++
  [ "Č" ~> "č"; "Ď" ~> "ď"; "Đ" ~> "đ"; "Ē" ~> "ē"; "Ĕ" ~> "ĕ"; "Ė" ~> "ė";
    "Ę" ~> "ę"; "Ě" ~> "ě"; "Ĝ" ~> "ĝ"; "Ğ" ~> "ğ"; "Ġ" ~> "ġ"; "Ģ" ~> "ģ";
    "Ĥ" ~> "ĥ"; "Ħ" ~> "ħ"; "Ĩ" ~> "ĩ"; "Ī" ~> "ī"; "Ĭ" ~> "ĭ"; "Į" ~> "į";
    "İ" ~> "i̇"; "Ĳ" ~> "ĳ"; "Ĵ" ~> "ĵ"; "Ķ" ~> "ķ"; "Ĺ" ~> "ĺ"; "Ļ" ~> "ļ";
    "Ľ" ~> "ľ"; "Ŀ" ~> "ŀ"; "Ł" ~> "ł"; "Ń" ~> "ń"; "Ņ" ~> "ņ"; "Ň" ~> "ň";
    "ŉ" ~> "ʼn"; "Ŋ" ~> "ŋ"; "Ō" ~> "ō"; "Ŏ" ~> "ŏ"; "Ő" ~> "ő"; "Œ" ~> "œ";
    "Ŕ" ~> "ŕ"; "Ŗ" ~> "ŗ"; "Ř" ~> "ř"; "Ś" ~> "ś"; "Ŝ" ~> "ŝ"; "Ş" ~> "ş";
    "Š" ~> "š"; "Ţ" ~> "ţ"; "Ť" ~> "ť"; "Ŧ" ~> "ŧ"; "Ũ" ~> "ũ"; "Ū" ~> "ū";
    "Ŭ" ~> "ŭ"; "Ů" ~> "ů"; "Ű" ~> "ű"; "Ų" ~> "ų"; "Ŵ" ~> "ŵ"; "Ŷ" ~> "ŷ";
    "Ÿ" ~> "ÿ"; "Ź" ~> "ź"; "Ż" ~> "ż"; "Ž" ~> "ž"; "ſ" ~> "s"; "Ɓ" ~> "ɓ";
    "Ƃ" ~> "ƃ"; "Ƅ" ~> "ƅ"; "Ɔ" ~> "ɔ"; "Ƈ" ~> "ƈ" ]
  ++
  [ "Ɖ" ~> "ɖ"; "Ɗ" ~> "ɗ"; "Ƌ" ~> "ƌ"; "Ǝ" ~> "ǝ"; "Ə" ~> "ə"; "Ɛ" ~> "ɛ";
    "Ƒ" ~> "ƒ"; "Ɠ" ~> "ɠ"; "Ɣ" ~> "ɣ"; "Ɩ" ~> "ɩ"; "Ɨ" ~> "ɨ"; "Ƙ" ~> "ƙ";
    "Ɯ" ~> "ɯ"; "Ɲ" ~> "ɲ"; "Ɵ" ~> "ɵ"; "Ơ" ~> "ơ"; "Ƣ" ~> "ƣ"; "Ƥ" ~> "ƥ";
    "Ʀ" ~> "ʀ"; "Ƨ" ~> "ƨ"; "Ʃ" ~> "ʃ"; "Ƭ" ~> "ƭ"; "Ʈ" ~> "ʈ"; "Ư" ~> "ư";
    "Ʊ" ~> "ʊ"; "Ʋ" ~> "ʋ"; "Ƴ" ~> "ƴ"; "Ƶ" ~> "ƶ"; "Ʒ" ~> "ʒ"; "Ƹ" ~> "ƹ";
    "Ƽ" ~> "ƽ"; "Ǆ" ~> "ǆ"; "ǅ" ~> "ǆ"; "Ǉ" ~> "ǉ"; "ǈ" ~> "ǉ"; "Ǌ" ~> "ǌ";
    "ǋ" ~> "ǌ"; "Ǎ" ~> "ǎ"; "Ǐ" ~> "ǐ"; "Ǒ" ~> "ǒ"; "Ǔ" ~> "ǔ"; "Ǖ" ~> "ǖ";
    "Ǘ" ~> "ǘ"; "Ǚ" ~> "ǚ"; "Ǜ" ~> "ǜ"; "Ǟ" ~> "ǟ"; "Ǡ" ~> "ǡ"; "Ǣ" ~> "ǣ";
    "Ǥ" ~> "ǥ"; "Ǧ" ~> "ǧ"; "Ǩ" ~> "ǩ"; "Ǫ" ~> "ǫ"; "Ǭ" ~> "ǭ"; "Ǯ" ~> "ǯ";
    "ǰ" ~> "ǰ"; "Ǳ" ~> "ǳ"; "ǲ" ~> "ǳ"; "Ǵ" ~> "ǵ"; "Ƕ" ~> "ƕ"; "Ƿ" ~> "ƿ";
    "Ǹ" ~> "ǹ"; "Ǻ" ~> "ǻ"; "Ǽ" ~> "ǽ"; "Ǿ" ~> "ǿ" ]
  ++
  [ "Ȁ" ~> "ȁ"; "Ȃ" ~> "ȃ"; "Ȅ" ~> "ȅ"; "Ȇ" ~> "ȇ"; "Ȉ" ~> "ȉ"; "Ȋ" ~> "ȋ";
    "Ȍ" ~> "ȍ"; "Ȏ" ~> "ȏ"; "Ȑ" ~> "ȑ"; "Ȓ" ~> "ȓ"; "Ȕ" ~> "ȕ"; "Ȗ" ~> "ȗ";
    "Ș" ~> "ș"; "Ț" ~> "ț"; "Ȝ" ~> "ȝ"; "Ȟ" ~> "ȟ"; "Ƞ" ~> "ƞ"; "Ȣ" ~> "ȣ";
    "Ȥ" ~> "ȥ"; "Ȧ" ~> "ȧ"; "Ȩ" ~> "ȩ"; "Ȫ" ~> "ȫ"; "Ȭ" ~> "ȭ"; "Ȯ" ~> "ȯ";
    "Ȱ" ~> "ȱ"; "Ȳ" ~> "ȳ"; "Ⱥ" ~> "ⱥ"; "Ȼ" ~> "ȼ"; "Ƚ" ~> "ƚ"; "Ⱦ" ~> "ⱦ";
    "Ɂ" ~> "ɂ"; "Ƀ" ~> "ƀ"; "Ʉ" ~> "ʉ"; "Ʌ" ~> "ʌ"; "Ɇ" ~> "ɇ"; "Ɉ" ~> "ɉ";
    "Ɋ" ~> "ɋ"; "Ɍ" ~> "ɍ"; "Ɏ" ~> "ɏ"; "ͅ" ~> "ι"; "Ͱ" ~> "ͱ"; "Ͳ" ~> "ͳ";
    "Ͷ" ~> "ͷ"; "Ϳ" ~> "ϳ"; "Ά" ~> "ά"; "Έ" ~> "έ"; "Ή" ~> "ή"; "Ί" ~> "ί";
    "Ό" ~> "ό"; "Ύ" ~> "ύ"; "Ώ" ~> "ώ"; "ΐ" ~> "ΐ"; "Α" ~> "α"; "Β" ~> "β";
    "Γ" ~> "γ"; "Δ" ~> "δ"; "Ε" ~> "ε"; "Ζ" ~> "ζ"; "Η" ~> "η"; "Θ" ~> "θ";
    "Ι" ~> "ι"; "Κ" ~> "κ"; "Λ" ~> "λ"; "Μ" ~> "μ" ]
  ++
  [ "Ν" ~> "ν"; "Ξ" ~> "ξ"; "Ο" ~> "ο"; "Π" ~> "π"; "Ρ" ~> "ρ"; "Σ" ~> "σ";
    "Τ" ~> "τ"; "Υ" ~> "υ"; "Φ" ~> "φ"; "Χ" ~> "χ"; "Ψ" ~> "ψ"; "Ω" ~> "ω";
    "Ϊ" ~> "ϊ"; "Ϋ" ~> "ϋ"; "ΰ" ~> "ΰ"; "ς" ~> "σ"; "Ϗ" ~> "ϗ"; "ϐ" ~> "β";
    "ϑ" ~> "θ"; "ϕ" ~> "φ"; "ϖ" ~> "π"; "Ϙ" ~> "ϙ"; "Ϛ" ~> "ϛ"; "Ϝ" ~> "ϝ";
    "Ϟ" ~> "ϟ"; "Ϡ" ~> "ϡ"; "Ϣ" ~> "ϣ"; "Ϥ" ~> "ϥ"; "Ϧ" ~> "ϧ"; "Ϩ" ~> "ϩ";
    "Ϫ" ~> "ϫ"; "Ϭ" ~> "ϭ"; "Ϯ" ~> "ϯ"; "ϰ" ~> "κ"; "ϱ" ~> "ρ"; "ϴ" ~> "θ";
    "ϵ" ~> "ε"; "Ϸ" ~> "ϸ"; "Ϲ" ~> "ϲ"; "Ϻ" ~> "ϻ"; "Ͻ" ~> "ͻ"; "Ͼ" ~> "ͼ";
    "Ͽ" ~> "ͽ"; "Ѐ" ~> "ѐ"; "Ё" ~> "ё"; "Ђ" ~> "ђ"; "Ѓ" ~> "ѓ"; "Є" ~> "є";
    "Ѕ" ~> "ѕ"; "І" ~> "і"; "Ї" ~> "ї"; "Ј" ~> "ј"; "Љ" ~> "љ"; "Њ" ~> "њ";
    "Ћ" ~> "ћ"; "Ќ" ~> "ќ"; "Ѝ" ~> "ѝ"; "Ў" ~> "ў"; "Џ" ~> "џ"; "А" ~> "а";
    "Б" ~> "б"; "В" ~> "в"; "Г" ~> "г"; "Д" ~> "д" ]
  ++
  [ "Е" ~> "е"; "Ж" ~> "ж"; "З" ~> "з"; "И" ~> "и"; "Й" ~> "й"; "К" ~> "к";
    "Л" ~> "л"; "М" ~> "м"; "Н" ~> "н"; "О" ~> "о"; "П" ~> "п"; "Р" ~> "р";
    "С" ~> "с"; "Т" ~> "т"; "У" ~> "у"; "Ф" ~> "ф"; "Х" ~> "х"; "Ц" ~> "ц";
    "Ч" ~> "ч"; "Ш" ~> "ш"; "Щ" ~> "щ"; "Ъ" ~> "ъ"; "Ы" ~> "ы"; "Ь" ~> "ь";
    "Э" ~> "э"; "Ю" ~> "ю"; "Я" ~> "я"; "Ѡ" ~> "ѡ"; "Ѣ" ~> "ѣ"; "Ѥ" ~> "ѥ";
    "Ѧ" ~> "ѧ"; "Ѩ" ~> "ѩ"; "Ѫ" ~> "ѫ"; "Ѭ" ~> "ѭ"; "Ѯ" ~> "ѯ"; "Ѱ" ~> "ѱ";
    "Ѳ" ~> "ѳ"; "Ѵ" ~> "ѵ"; "Ѷ" ~> "ѷ"; "Ѹ" ~> "ѹ"; "Ѻ" ~> "ѻ"; "Ѽ" ~> "ѽ";
    "Ѿ" ~> "ѿ"; "Ҁ" ~> "ҁ"; "Ҋ" ~> "ҋ"; "Ҍ" ~> "ҍ"; "Ҏ" ~> "ҏ"; "Ґ" ~> "ґ";
    "Ғ" ~> "ғ"; "Ҕ" ~> "ҕ"; "Җ" ~> "җ"; "Ҙ" ~> "ҙ"; "Қ" ~> "қ"; "Ҝ" ~> "ҝ";
    "Ҟ" ~> "ҟ"; "Ҡ" ~> "ҡ"; "Ң" ~> "ң"; "Ҥ" ~> "ҥ"; "Ҧ" ~> "ҧ"; "Ҩ" ~> "ҩ";
    "Ҫ" ~> "ҫ"; "Ҭ" ~> "ҭ"; "Ү" ~> "ү"; "Ұ" ~> "ұ" ]
  ++
  [ "Ҳ" ~> "ҳ"; "Ҵ" ~> "ҵ"; "Ҷ" ~> "ҷ"; "Ҹ" ~> "ҹ"; "Һ" ~> "һ"; "Ҽ" ~> "ҽ";
    "Ҿ" ~> "ҿ"; "Ӏ" ~> "ӏ"; "Ӂ" ~> "ӂ"; "Ӄ" ~> "ӄ"; "Ӆ" ~> "ӆ"; "Ӈ" ~> "ӈ";
    "Ӊ" ~> "ӊ"; "Ӌ" ~> "ӌ"; "Ӎ" ~> "ӎ"; "Ӑ" ~> "ӑ"; "Ӓ" ~> "ӓ"; "Ӕ" ~> "ӕ";
    "Ӗ" ~> "ӗ"; "Ә" ~> "ә"; "Ӛ" ~> "ӛ"; "Ӝ" ~> "ӝ"; "Ӟ" ~> "ӟ"; "Ӡ" ~> "ӡ";
    "Ӣ" ~> "ӣ"; "Ӥ" ~> "ӥ"; "Ӧ" ~> "ӧ"; "Ө" ~> "ө"; "Ӫ" ~> "ӫ"; "Ӭ" ~> "ӭ";
    "Ӯ" ~> "ӯ"; "Ӱ" ~> "ӱ"; "Ӳ" ~> "ӳ"; "Ӵ" ~> "ӵ"; "Ӷ" ~> "ӷ"; "Ӹ" ~> "ӹ";
    "Ӻ" ~> "ӻ"; "Ӽ" ~> "ӽ"; "Ӿ" ~> "ӿ"; "Ԁ" ~> "ԁ"; "Ԃ" ~> "ԃ"; "Ԅ" ~> "ԅ";
    "Ԇ" ~> "ԇ"; "Ԉ" ~> "ԉ"; "Ԋ" ~> "ԋ"; "Ԍ" ~> "ԍ"; "Ԏ" ~> "ԏ"; "Ԑ" ~> "ԑ";
    "Ԓ" ~> "ԓ"; "Ԕ" ~> "ԕ"; "Ԗ" ~> "ԗ"; "Ԙ" ~> "ԙ"; "Ԛ" ~> "ԛ"; "Ԝ" ~> "ԝ";
    "Ԟ" ~> "ԟ"; "Ԡ" ~> "ԡ"; "Ԣ" ~> "ԣ"; "Ԥ" ~> "ԥ"; "Ԧ" ~> "ԧ"; "Ԩ" ~> "ԩ";
    "Ԫ" ~> "ԫ"; "Ԭ" ~> "ԭ"; "Ԯ" ~> "ԯ"; "Ա" ~> "ա" ]
  ++
  [ "Բ" ~> "բ"; "Գ" ~> "գ"; "Դ" ~> "դ"; "Ե" ~> "ե"; "Զ" ~> "զ"; "Է" ~> "է";
    "Ը" ~> "ը"; "Թ" ~> "թ"; "Ժ" ~> "ժ"; "Ի" ~> "ի"; "Լ" ~> "լ"; "Խ" ~> "խ";
    "Ծ" ~> "ծ"; "Կ" ~> "կ"; "Հ" ~> "հ"; "Ձ" ~> "ձ"; "Ղ" ~> "ղ"; "Ճ" ~> "ճ";
    "Մ" ~> "մ"; "Յ" ~> "յ"; "Ն" ~> "ն"; "Շ" ~> "շ"; "Ո" ~> "ո"; "Չ" ~> "չ";
    "Պ" ~> "պ"; "Ջ" ~> "ջ"; "Ռ" ~> "ռ"; "Ս" ~> "ս"; "Վ" ~> "վ"; "Տ" ~> "տ";
    "Ր" ~> "ր"; "Ց" ~> "ց"; "Ւ" ~> "ւ"; "Փ" ~> "փ"; "Ք" ~> "ք"; "Օ" ~> "օ";
    "Ֆ" ~> "ֆ"; "և" ~> "եւ"; "Ⴀ" ~> "ⴀ"; "Ⴁ" ~> "ⴁ"; "Ⴂ" ~> "ⴂ"; "Ⴃ" ~> "ⴃ";
    "Ⴄ" ~> "ⴄ"; "Ⴅ" ~> "ⴅ"; "Ⴆ" ~> "ⴆ"; "Ⴇ" ~> "ⴇ"; "Ⴈ" ~> "ⴈ"; "Ⴉ" ~> "ⴉ";
    "Ⴊ" ~> "ⴊ"; "Ⴋ" ~> "ⴋ"; "Ⴌ" ~> "ⴌ"; "Ⴍ" ~> "ⴍ"; "Ⴎ" ~> "ⴎ"; "Ⴏ" ~> "ⴏ";
    "Ⴐ" ~> "ⴐ"; "Ⴑ" ~> "ⴑ"; "Ⴒ" ~> "ⴒ"; "Ⴓ" ~> "ⴓ"; "Ⴔ" ~> "ⴔ"; "Ⴕ" ~> "ⴕ";
    "Ⴖ" ~> "ⴖ"; "Ⴗ" ~> "ⴗ"; "Ⴘ" ~> "ⴘ"; "Ⴙ" ~> "ⴙ" ]
  ++
  [ "Ⴚ" ~> "ⴚ"; "Ⴛ" ~> "ⴛ"; "Ⴜ" ~> "ⴜ"; "Ⴝ" ~> "ⴝ"; "Ⴞ" ~> "ⴞ"; "Ⴟ" ~> "ⴟ";
    "Ⴠ" ~> "ⴠ"; "Ⴡ" ~> "ⴡ"; "Ⴢ" ~> "ⴢ"; "Ⴣ" ~> "ⴣ"; "Ⴤ" ~> "ⴤ"; "Ⴥ" ~> "ⴥ";
    "Ⴧ" ~> "ⴧ"; "Ⴭ" ~> "ⴭ"; "ᏸ" ~> "Ᏸ"; "ᏹ" ~> "Ᏹ"; "ᏺ" ~> "Ᏺ"; "ᏻ" ~> "Ᏻ";
    "ᏼ" ~> "Ᏼ"; "ᏽ" ~> "Ᏽ"; "ᲀ" ~> "в"; "ᲁ" ~> "д"; "ᲂ" ~> "о"; "ᲃ" ~> "с";
    "ᲄ" ~> "т"; "ᲅ" ~> "т"; "ᲆ" ~> "ъ"; "ᲇ" ~> "ѣ"; "ᲈ" ~> "ꙋ"; "Ა" ~> "ა";
    "Ბ" ~> "ბ"; "Გ" ~> "გ"; "Დ" ~> "დ"; "Ე" ~> "ე"; "Ვ" ~> "ვ"; "Ზ" ~> "ზ";
    "Თ" ~> "თ"; "Ი" ~> "ი"; "Კ" ~> "კ"; "Ლ" ~> "ლ"; "Მ" ~> "მ"; "Ნ" ~> "ნ";
    "Ო" ~> "ო"; "Პ" ~> "პ"; "Ჟ" ~> "ჟ"; "Რ" ~> "რ"; "Ს" ~> "ს"; "Ტ" ~> "ტ";
    "Უ" ~> "უ"; "Ფ" ~> "ფ"; "Ქ" ~> "ქ"; "Ღ" ~> "ღ"; "Ყ" ~> "ყ"; "Შ" ~> "შ";
    "Ჩ" ~> "ჩ"; "Ც" ~> "ც"; "Ძ" ~> "ძ"; "Წ" ~> "წ"; "Ჭ" ~> "ჭ"; "Ხ" ~> "ხ";
    "Ჯ" ~> "ჯ"; "Ჰ" ~> "ჰ"; "Ჱ" ~> "ჱ"; "Ჲ" ~> "ჲ" ]
  ++
  [ "Ჳ" ~> "ჳ"; "Ჴ" ~> "ჴ"; "Ჵ" ~> "ჵ"; "Ჶ" ~> "ჶ"; "Ჷ" ~> "ჷ"; "Ჸ" ~> "ჸ";
    "Ჹ" ~> "ჹ"; "Ჺ" ~> "ჺ"; "Ჽ" ~> "ჽ"; "Ჾ" ~> "ჾ"; "Ჿ" ~> "ჿ"; "Ḁ" ~> "ḁ";
    "Ḃ" ~> "ḃ"; "Ḅ" ~> "ḅ"; "Ḇ" ~> "ḇ"; "Ḉ" ~> "ḉ"; "Ḋ" ~> "ḋ"; "Ḍ" ~> "ḍ";
    "Ḏ" ~> "ḏ"; "Ḑ" ~> "ḑ"; "Ḓ" ~> "ḓ"; "Ḕ" ~> "ḕ"; "Ḗ" ~> "ḗ"; "Ḙ" ~> "ḙ";
    "Ḛ" ~> "ḛ"; "Ḝ" ~> "ḝ"; "Ḟ" ~> "ḟ"; "Ḡ" ~> "ḡ"; "Ḣ" ~> "ḣ"; "Ḥ" ~> "ḥ";
    "Ḧ" ~> "ḧ"; "Ḩ" ~> "ḩ"; "Ḫ" ~> "ḫ"; "Ḭ" ~> "ḭ"; "Ḯ" ~> "ḯ"; "Ḱ" ~> "ḱ";
    "Ḳ" ~> "ḳ"; "Ḵ" ~> "ḵ"; "Ḷ" ~> "ḷ"; "Ḹ" ~> "ḹ"; "Ḻ" ~> "ḻ"; "Ḽ" ~> "ḽ";
    "Ḿ" ~> "ḿ"; "Ṁ" ~> "ṁ"; "Ṃ" ~> "ṃ"; "Ṅ" ~> "ṅ"; "Ṇ" ~> "ṇ"; "Ṉ" ~> "ṉ";
    "Ṋ" ~> "ṋ"; "Ṍ" ~> "ṍ"; "Ṏ" ~> "ṏ"; "Ṑ" ~> "ṑ"; "Ṓ" ~> "ṓ"; "Ṕ" ~> "ṕ";
    "Ṗ" ~> "ṗ"; "Ṙ" ~> "ṙ"; "Ṛ" ~> "ṛ"; "Ṝ" ~> "ṝ"; "Ṟ" ~> "ṟ"; "Ṡ" ~> "ṡ";
    "Ṣ" ~> "ṣ"; "Ṥ" ~> "ṥ"; "Ṧ" ~> "ṧ"; "Ṩ" ~> "ṩ" ]
  ++
  [ "Ṫ" ~> "ṫ"; "Ṭ" ~> "ṭ"; "Ṯ" ~> "ṯ"; "Ṱ" ~> "ṱ"; "Ṳ" ~> "ṳ"; "Ṵ" ~> "ṵ";
    "Ṷ" ~> "ṷ"; "Ṹ" ~> "ṹ"; "Ṻ" ~> "ṻ"; "Ṽ" ~> "ṽ"; "Ṿ" ~> "ṿ"; "Ẁ" ~> "ẁ";
    "Ẃ" ~> "ẃ"; "Ẅ" ~> "ẅ"; "Ẇ" ~> "ẇ"; "Ẉ" ~> "ẉ"; "Ẋ" ~> "ẋ"; "Ẍ" ~> "ẍ";
    "Ẏ" ~> "ẏ"; "Ẑ" ~> "ẑ"; "Ẓ" ~> "ẓ"; "Ẕ" ~> "ẕ"; "ẖ" ~> "ẖ"; "ẗ" ~> "ẗ";
    "ẘ" ~> "ẘ"; "ẙ" ~> "ẙ"; "ẚ" ~> "aʾ"; "ẛ" ~> "ṡ"; "ẞ" ~> "ss";
    "Ạ" ~> "ạ"; "Ả" ~> "ả"; "Ấ" ~> "ấ"; "Ầ" ~> "ầ"; "Ẩ" ~> "ẩ"; "Ẫ" ~> "ẫ";
    "Ậ" ~> "ậ"; "Ắ" ~> "ắ"; "Ằ" ~> "ằ"; "Ẳ" ~> "ẳ"; "Ẵ" ~> "ẵ"; "Ặ" ~> "ặ";
    "Ẹ" ~> "ẹ"; "Ẻ" ~> "ẻ"; "Ẽ" ~> "ẽ"; "Ế" ~> "ế"; "Ề" ~> "ề"; "Ể" ~> "ể";
    "Ễ" ~> "ễ"; "Ệ" ~> "ệ"; "Ỉ" ~> "ỉ"; "Ị" ~> "ị"; "Ọ" ~> "ọ"; "Ỏ" ~> "ỏ";
    "Ố" ~> "ố"; "Ồ" ~> "ồ"; "Ổ" ~> "ổ"; "Ỗ" ~> "ỗ"; "Ộ" ~> "ộ"; "Ớ" ~> "ớ";
    "Ờ" ~> "ờ"; "Ở" ~> "ở"; "Ỡ" ~> "ỡ"; "Ợ" ~> "ợ"; "Ụ" ~> "ụ" ]
  ++
  [ "Ủ" ~> "ủ"; "Ứ" ~> "ứ"; "Ừ" ~> "ừ"; "Ử" ~> "ử"; "Ữ" ~> "ữ"; "Ự" ~> "ự";
    "Ỳ" ~> "ỳ"; "Ỵ" ~> "ỵ"; "Ỷ" ~> "ỷ"; "Ỹ" ~> "ỹ"; "Ỻ" ~> "ỻ"; "Ỽ" ~> "ỽ";
    "Ỿ" ~> "ỿ"; "Ἀ" ~> "ἀ"; "Ἁ" ~> "ἁ"; "Ἂ" ~> "ἂ"; "Ἃ" ~> "ἃ"; "Ἄ" ~> "ἄ";
    "Ἅ" ~> "ἅ"; "Ἆ" ~> "ἆ"; "Ἇ" ~> "ἇ"; "Ἐ" ~> "ἐ"; "Ἑ" ~> "ἑ"; "Ἒ" ~> "ἒ";
    "Ἓ" ~> "ἓ"; "Ἔ" ~> "ἔ"; "Ἕ" ~> "ἕ"; "Ἠ" ~> "ἠ"; "Ἡ" ~> "ἡ"; "Ἢ" ~> "ἢ";
    "Ἣ" ~> "ἣ"; "Ἤ" ~> "ἤ"; "Ἥ" ~> "ἥ"; "Ἦ" ~> "ἦ"; "Ἧ" ~> "ἧ"; "Ἰ" ~> "ἰ";
    "Ἱ" ~> "ἱ"; "Ἲ" ~> "ἲ"; "Ἳ" ~> "ἳ"; "Ἴ" ~> "ἴ"; "Ἵ" ~> "ἵ"; "Ἶ" ~> "ἶ";
    "Ἷ" ~> "ἷ"; "Ὀ" ~> "ὀ"; "Ὁ" ~> "ὁ"; "Ὂ" ~> "ὂ"; "Ὃ" ~> "ὃ"; "Ὄ" ~> "ὄ";
    "Ὅ" ~> "ὅ"; "ὐ" ~> "ὐ"; "ὒ" ~> "ὒ"; "ὔ" ~> "ὔ"; "ὖ" ~> "ὖ";
    "Ὑ" ~> "ὑ"; "Ὓ" ~> "ὓ"; "Ὕ" ~> "ὕ"; "Ὗ" ~> "ὗ"; "Ὠ" ~> "ὠ"; "Ὡ" ~> "ὡ";
    "Ὢ" ~> "ὢ"; "Ὣ" ~> "ὣ"; "Ὤ" ~> "ὤ"; "Ὥ" ~> "ὥ"; "Ὦ" ~> "ὦ" ]
  ++
  [ "Ὧ" ~> "ὧ"; "ᾀ" ~> "ἀι"; "ᾁ" ~> "ἁι"; "ᾂ" ~> "ἂι"; "ᾃ" ~> "ἃι";
    "ᾄ" ~> "ἄι"; "ᾅ" ~> "ἅι"; "ᾆ" ~> "ἆι"; "ᾇ" ~> "ἇι"; "ᾈ" ~> "ἀι";
    "ᾉ" ~> "ἁι"; "ᾊ" ~> "ἂι"; "ᾋ" ~> "ἃι"; "ᾌ" ~> "ἄι"; "ᾍ" ~> "ἅι";
    "ᾎ" ~> "ἆι"; "ᾏ" ~> "ἇι"; "ᾐ" ~> "ἠι"; "ᾑ" ~> "ἡι"; "ᾒ" ~> "ἢι";
    "ᾓ" ~> "ἣι"; "ᾔ" ~> "ἤι"; "ᾕ" ~> "ἥι"; "ᾖ" ~> "ἦι"; "ᾗ" ~> "ἧι";
    "ᾘ" ~> "ἠι"; "ᾙ" ~> "ἡι"; "ᾚ" ~> "ἢι"; "ᾛ" ~> "ἣι"; "ᾜ" ~> "ἤι";
    "ᾝ" ~> "ἥι"; "ᾞ" ~> "ἦι"; "ᾟ" ~> "ἧι"; "ᾠ" ~> "ὠι"; "ᾡ" ~> "ὡι";
    "ᾢ" ~> "ὢι"; "ᾣ" ~> "ὣι"; "ᾤ" ~> "ὤι"; "ᾥ" ~> "ὥι"; "ᾦ" ~> "ὦι";
    "ᾧ" ~> "ὧι"; "ᾨ" ~> "ὠι"; "ᾩ" ~> "ὡι"; "ᾪ" ~> "ὢι"; "ᾫ" ~> "ὣι";
    "ᾬ" ~> "ὤι"; "ᾭ" ~> "ὥι"; "ᾮ" ~> "ὦι"; "ᾯ" ~> "ὧι"; "ᾲ" ~> "ὰι";
    "ᾳ" ~> "αι"; "ᾴ" ~> "άι"; "ᾶ" ~> "ᾶ"; "ᾷ" ~> "ᾶι"; "Ᾰ" ~> "ᾰ";
    "Ᾱ" ~> "ᾱ"; "Ὰ" ~> "ὰ"; "Ά" ~> "ά"; "ᾼ" ~> "αι"; "ι" ~> "ι"; "ῂ" ~> "ὴι";
    "ῃ" ~> "ηι"; "ῄ" ~> "ήι"; "ῆ" ~> "ῆ" ]
  ++
  [ "ῇ" ~> "ῆι"; "Ὲ" ~> "ὲ"; "Έ" ~> "έ"; "Ὴ" ~> "ὴ"; "Ή" ~> "ή"; "ῌ" ~> "ηι";
    "ῒ" ~> "ῒ"; "ΐ" ~> "ΐ"; "ῖ" ~> "ῖ"; "ῗ" ~> "ῗ"; "Ῐ" ~> "ῐ";
    "Ῑ" ~> "ῑ"; "Ὶ" ~> "ὶ"; "Ί" ~> "ί"; "ῢ" ~> "ῢ"; "ΰ" ~> "ΰ";
    "ῤ" ~> "ῤ"; "ῦ" ~> "ῦ"; "ῧ" ~> "ῧ"; "Ῠ" ~> "ῠ"; "Ῡ" ~> "ῡ";
    "Ὺ" ~> "ὺ"; "Ύ" ~> "ύ"; "Ῥ" ~> "ῥ"; "ῲ" ~> "ὼι"; "ῳ" ~> "ωι"; "ῴ" ~> "ώι";
    "ῶ" ~> "ῶ"; "ῷ" ~> "ῶι"; "Ὸ" ~> "ὸ"; "Ό" ~> "ό"; "Ὼ" ~> "ὼ"; "Ώ" ~> "ώ";
    "ῼ" ~> "ωι"; "Ω" ~> "ω"; "K" ~> "k"; "Å" ~> "å"; "Ⅎ" ~> "ⅎ"; "Ⅰ" ~> "ⅰ";
    "Ⅱ" ~> "ⅱ"; "Ⅲ" ~> "ⅲ"; "Ⅳ" ~> "ⅳ"; "Ⅴ" ~> "ⅴ"; "Ⅵ" ~> "ⅵ"; "Ⅶ" ~> "ⅶ";
    "Ⅷ" ~> "ⅷ"; "Ⅸ" ~> "ⅸ"; "Ⅹ" ~> "ⅹ"; "Ⅺ" ~> "ⅺ"; "Ⅻ" ~> "ⅻ"; "Ⅼ" ~> "ⅼ";
    "Ⅽ" ~> "ⅽ"; "Ⅾ" ~> "ⅾ"; "Ⅿ" ~> "ⅿ"; "Ↄ" ~> "ↄ"; "Ⓐ" ~> "ⓐ"; "Ⓑ" ~> "ⓑ";
    "Ⓒ" ~> "ⓒ"; "Ⓓ" ~> "ⓓ"; "Ⓔ" ~> "ⓔ"; "Ⓕ" ~> "ⓕ"; "Ⓖ" ~> "ⓖ"; "Ⓗ" ~> "ⓗ";
    "Ⓘ" ~> "ⓘ" ]
  ++
  [ "Ⓙ" ~> "ⓙ"; "Ⓚ" ~> "ⓚ"; "Ⓛ" ~> "ⓛ"; "Ⓜ" ~> "ⓜ"; "Ⓝ" ~> "ⓝ"; "Ⓞ" ~> "ⓞ";
    "Ⓟ" ~> "ⓟ"; "Ⓠ" ~> "ⓠ"; "Ⓡ" ~> "ⓡ"; "Ⓢ" ~> "ⓢ"; "Ⓣ" ~> "ⓣ"; "Ⓤ" ~> "ⓤ";
    "Ⓥ" ~> "ⓥ"; "Ⓦ" ~> "ⓦ"; "Ⓧ" ~> "ⓧ"; "Ⓨ" ~> "ⓨ"; "Ⓩ" ~> "ⓩ"; "Ⰰ" ~> "ⰰ";
    "Ⰱ" ~> "ⰱ"; "Ⰲ" ~> "ⰲ"; "Ⰳ" ~> "ⰳ"; "Ⰴ" ~> "ⰴ"; "Ⰵ" ~> "ⰵ"; "Ⰶ" ~> "ⰶ";
    "Ⰷ" ~> "ⰷ"; "Ⰸ" ~> "ⰸ"; "Ⰹ" ~> "ⰹ"; "Ⰺ" ~> "ⰺ"; "Ⰻ" ~> "ⰻ"; "Ⰼ" ~> "ⰼ";
    "Ⰽ" ~> "ⰽ"; "Ⰾ" ~> "ⰾ"; "Ⰿ" ~> "ⰿ"; "Ⱀ" ~> "ⱀ"; "Ⱁ" ~> "ⱁ"; "Ⱂ" ~> "ⱂ";
    "Ⱃ" ~> "ⱃ"; "Ⱄ" ~> "ⱄ"; "Ⱅ" ~> "ⱅ"; "Ⱆ" ~> "ⱆ"; "Ⱇ" ~> "ⱇ"; "Ⱈ" ~> "ⱈ";
    "Ⱉ" ~> "ⱉ"; "Ⱊ" ~> "ⱊ"; "Ⱋ" ~> "ⱋ"; "Ⱌ" ~> "ⱌ"; "Ⱍ" ~> "ⱍ"; "Ⱎ" ~> "ⱎ";
    "Ⱏ" ~> "ⱏ"; "Ⱐ" ~> "ⱐ"; "Ⱑ" ~> "ⱑ"; "Ⱒ" ~> "ⱒ"; "Ⱓ" ~> "ⱓ"; "Ⱔ" ~> "ⱔ";
    "Ⱕ" ~> "ⱕ"; "Ⱖ" ~> "ⱖ"; "Ⱗ" ~> "ⱗ"; "Ⱘ" ~> "ⱘ"; "Ⱙ" ~> "ⱙ"; "Ⱚ" ~> "ⱚ";
    "Ⱛ" ~> "ⱛ"; "Ⱜ" ~> "ⱜ"; "Ⱝ" ~> "ⱝ"; "Ⱞ" ~> "ⱞ" ]
  ++
  [ "Ⱟ" ~> "ⱟ"; "Ⱡ" ~> "ⱡ"; "Ɫ" ~> "ɫ"; "Ᵽ" ~> "ᵽ"; "Ɽ" ~> "ɽ"; "Ⱨ" ~> "ⱨ";
    "Ⱪ" ~> "ⱪ"; "Ⱬ" ~> "ⱬ"; "Ɑ" ~> "ɑ"; "Ɱ" ~> "ɱ"; "Ɐ" ~> "ɐ"; "Ɒ" ~> "ɒ";
    "Ⱳ" ~> "ⱳ"; "Ⱶ" ~> "ⱶ"; "Ȿ" ~> "ȿ"; "Ɀ" ~> "ɀ"; "Ⲁ" ~> "ⲁ"; "Ⲃ" ~> "ⲃ";
    "Ⲅ" ~> "ⲅ"; "Ⲇ" ~> "ⲇ"; "Ⲉ" ~> "ⲉ"; "Ⲋ" ~> "ⲋ"; "Ⲍ" ~> "ⲍ"; "Ⲏ" ~> "ⲏ";
    "Ⲑ" ~> "ⲑ"; "Ⲓ" ~> "ⲓ"; "Ⲕ" ~> "ⲕ"; "Ⲗ" ~> "ⲗ"; "Ⲙ" ~> "ⲙ"; "Ⲛ" ~> "ⲛ";
    "Ⲝ" ~> "ⲝ"; "Ⲟ" ~> "ⲟ"; "Ⲡ" ~> "ⲡ"; "Ⲣ" ~> "ⲣ"; "Ⲥ" ~> "ⲥ"; "Ⲧ" ~> "ⲧ";
    "Ⲩ" ~> "ⲩ"; "Ⲫ" ~> "ⲫ"; "Ⲭ" ~> "ⲭ"; "Ⲯ" ~> "ⲯ"; "Ⲱ" ~> "ⲱ"; "Ⲳ" ~> "ⲳ";
    "Ⲵ" ~> "ⲵ"; "Ⲷ" ~> "ⲷ"; "Ⲹ" ~> "ⲹ"; "Ⲻ" ~> "ⲻ"; "Ⲽ" ~> "ⲽ"; "Ⲿ" ~> "ⲿ";
    "Ⳁ" ~> "ⳁ"; "Ⳃ" ~> "ⳃ"; "Ⳅ" ~> "ⳅ"; "Ⳇ" ~> "ⳇ"; "Ⳉ" ~> "ⳉ"; "Ⳋ" ~> "ⳋ";
    "Ⳍ" ~> "ⳍ"; "Ⳏ" ~> "ⳏ"; "Ⳑ" ~> "ⳑ"; "Ⳓ" ~> "ⳓ"; "Ⳕ" ~> "ⳕ"; "Ⳗ" ~> "ⳗ";
    "Ⳙ" ~> "ⳙ"; "Ⳛ" ~> "ⳛ"; "Ⳝ" ~> "ⳝ"; "Ⳟ" ~> "ⳟ" ]
  ++
  [ "Ⳡ" ~> "ⳡ"; "Ⳣ" ~> "ⳣ"; "Ⳬ" ~> "ⳬ"; "Ⳮ" ~> "ⳮ"; "Ⳳ" ~> "ⳳ"; "Ꙁ" ~> "ꙁ";
    "Ꙃ" ~> "ꙃ"; "Ꙅ" ~> "ꙅ"; "Ꙇ" ~> "ꙇ"; "Ꙉ" ~> "ꙉ"; "Ꙋ" ~> "ꙋ"; "Ꙍ" ~> "ꙍ";
    "Ꙏ" ~> "ꙏ"; "Ꙑ" ~> "ꙑ"; "Ꙓ" ~> "ꙓ"; "Ꙕ" ~> "ꙕ"; "Ꙗ" ~> "ꙗ"; "Ꙙ" ~> "ꙙ";
    "Ꙛ" ~> "ꙛ"; "Ꙝ" ~> "ꙝ"; "Ꙟ" ~> "ꙟ"; "Ꙡ" ~> "ꙡ"; "Ꙣ" ~> "ꙣ"; "Ꙥ" ~> "ꙥ";
    "Ꙧ" ~> "ꙧ"; "Ꙩ" ~> "ꙩ"; "Ꙫ" ~> "ꙫ"; "Ꙭ" ~> "ꙭ"; "Ꚁ" ~> "ꚁ"; "Ꚃ" ~> "ꚃ";
    "Ꚅ" ~> "ꚅ"; "Ꚇ" ~> "ꚇ"; "Ꚉ" ~> "ꚉ"; "Ꚋ" ~> "ꚋ"; "Ꚍ" ~> "ꚍ"; "Ꚏ" ~> "ꚏ";
    "Ꚑ" ~> "ꚑ"; "Ꚓ" ~> "ꚓ"; "Ꚕ" ~> "ꚕ"; "Ꚗ" ~> "ꚗ"; "Ꚙ" ~> "ꚙ"; "Ꚛ" ~> "ꚛ";
    "Ꜣ" ~> "ꜣ"; "Ꜥ" ~> "ꜥ"; "Ꜧ" ~> "ꜧ"; "Ꜩ" ~> "ꜩ"; "Ꜫ" ~> "ꜫ"; "Ꜭ" ~> "ꜭ";
    "Ꜯ" ~> "ꜯ"; "Ꜳ" ~> "ꜳ"; "Ꜵ" ~> "ꜵ"; "Ꜷ" ~> "ꜷ"; "Ꜹ" ~> "ꜹ"; "Ꜻ" ~> "ꜻ";
    "Ꜽ" ~> "ꜽ"; "Ꜿ" ~> "ꜿ"; "Ꝁ" ~> "ꝁ"; "Ꝃ" ~> "ꝃ"; "Ꝅ" ~> "ꝅ"; "Ꝇ" ~> "ꝇ";
    "Ꝉ" ~> "ꝉ"; "Ꝋ" ~> "ꝋ"; "Ꝍ" ~> "ꝍ"; "Ꝏ" ~> "ꝏ" ]
  ++
  [ "Ꝑ" ~> "ꝑ"; "Ꝓ" ~> "ꝓ"; "Ꝕ" ~> "ꝕ"; "Ꝗ" ~> "ꝗ"; "Ꝙ" ~> "ꝙ"; "Ꝛ" ~> "ꝛ";
    "Ꝝ" ~> "ꝝ"; "Ꝟ" ~> "ꝟ"; "Ꝡ" ~> "ꝡ"; "Ꝣ" ~> "ꝣ"; "Ꝥ" ~> "ꝥ"; "Ꝧ" ~> "ꝧ";
    "Ꝩ" ~> "ꝩ"; "Ꝫ" ~> "ꝫ"; "Ꝭ" ~> "ꝭ"; "Ꝯ" ~> "ꝯ"; "Ꝺ" ~> "ꝺ"; "Ꝼ" ~> "ꝼ";
    "Ᵹ" ~> "ᵹ"; "Ꝿ" ~> "ꝿ"; "Ꞁ" ~> "ꞁ"; "Ꞃ" ~> "ꞃ"; "Ꞅ" ~> "ꞅ"; "Ꞇ" ~> "ꞇ";
    "Ꞌ" ~> "ꞌ"; "Ɥ" ~> "ɥ"; "Ꞑ" ~> "ꞑ"; "Ꞓ" ~> "ꞓ"; "Ꞗ" ~> "ꞗ"; "Ꞙ" ~> "ꞙ";
    "Ꞛ" ~> "ꞛ"; "Ꞝ" ~> "ꞝ"; "Ꞟ" ~> "ꞟ"; "Ꞡ" ~> "ꞡ"; "Ꞣ" ~> "ꞣ"; "Ꞥ" ~> "ꞥ";
    "Ꞧ" ~> "ꞧ"; "Ꞩ" ~> "ꞩ"; "Ɦ" ~> "ɦ"; "Ɜ" ~> "ɜ"; "Ɡ" ~> "ɡ"; "Ɬ" ~> "ɬ";
    "Ɪ" ~> "ɪ"; "Ʞ" ~> "ʞ"; "Ʇ" ~> "ʇ"; "Ʝ" ~> "ʝ"; "Ꭓ" ~> "ꭓ"; "Ꞵ" ~> "ꞵ";
    "Ꞷ" ~> "ꞷ"; "Ꞹ" ~> "ꞹ"; "Ꞻ" ~> "ꞻ"; "Ꞽ" ~> "ꞽ"; "Ꞿ" ~> "ꞿ"; "Ꟁ" ~> "ꟁ";
    "Ꟃ" ~> "ꟃ"; "Ꞔ" ~> "ꞔ"; "Ʂ" ~> "ʂ"; "Ᶎ" ~> "ᶎ"; "Ꟈ" ~> "ꟈ"; "Ꟊ" ~> "ꟊ";
    "Ꟑ" ~> "ꟑ"; "Ꟗ" ~> "ꟗ"; "Ꟙ" ~> "ꟙ"; "Ꟶ" ~> "ꟶ" ]
  ++
  [ "ꭰ" ~> "Ꭰ"; "ꭱ" ~> "Ꭱ"; "ꭲ" ~> "Ꭲ"; "ꭳ" ~> "Ꭳ"; "ꭴ" ~> "Ꭴ"; "ꭵ" ~> "Ꭵ";
    "ꭶ" ~> "Ꭶ"; "ꭷ" ~> "Ꭷ"; "ꭸ" ~> "Ꭸ"; "ꭹ" ~> "Ꭹ"; "ꭺ" ~> "Ꭺ"; "ꭻ" ~> "Ꭻ";
    "ꭼ" ~> "Ꭼ"; "ꭽ" ~> "Ꭽ"; "ꭾ" ~> "Ꭾ"; "ꭿ" ~> "Ꭿ"; "ꮀ" ~> "Ꮀ"; "ꮁ" ~> "Ꮁ";
    "ꮂ" ~> "Ꮂ"; "ꮃ" ~> "Ꮃ"; "ꮄ" ~> "Ꮄ"; "ꮅ" ~> "Ꮅ"; "ꮆ" ~> "Ꮆ"; "ꮇ" ~> "Ꮇ";
    "ꮈ" ~> "Ꮈ"; "ꮉ" ~> "Ꮉ"; "ꮊ" ~> "Ꮊ"; "ꮋ" ~> "Ꮋ"; "ꮌ" ~> "Ꮌ"; "ꮍ" ~> "Ꮍ";
    "ꮎ" ~> "Ꮎ"; "ꮏ" ~> "Ꮏ"; "ꮐ" ~> "Ꮐ"; "ꮑ" ~> "Ꮑ"; "ꮒ" ~> "Ꮒ"; "ꮓ" ~> "Ꮓ";
    "ꮔ" ~> "Ꮔ"; "ꮕ" ~> "Ꮕ"; "ꮖ" ~> "Ꮖ"; "ꮗ" ~> "Ꮗ"; "ꮘ" ~> "Ꮘ"; "ꮙ" ~> "Ꮙ";
    "ꮚ" ~> "Ꮚ"; "ꮛ" ~> "Ꮛ"; "ꮜ" ~> "Ꮜ"; "ꮝ" ~> "Ꮝ"; "ꮞ" ~> "Ꮞ"; "ꮟ" ~> "Ꮟ";
    "ꮠ" ~> "Ꮠ"; "ꮡ" ~> "Ꮡ"; "ꮢ" ~> "Ꮢ"; "ꮣ" ~> "Ꮣ"; "ꮤ" ~> "Ꮤ"; "ꮥ" ~> "Ꮥ";
    "ꮦ" ~> "Ꮦ"; "ꮧ" ~> "Ꮧ"; "ꮨ" ~> "Ꮨ"; "ꮩ" ~> "Ꮩ"; "ꮪ" ~> "Ꮪ"; "ꮫ" ~> "Ꮫ";
    "ꮬ" ~> "Ꮬ"; "ꮭ" ~> "Ꮭ"; "ꮮ" ~> "Ꮮ"; "ꮯ" ~> "Ꮯ" ]
  ++
  [ "ꮰ" ~> "Ꮰ"; "ꮱ" ~> "Ꮱ"; "ꮲ" ~> "Ꮲ"; "ꮳ" ~> "Ꮳ"; "ꮴ" ~> "Ꮴ"; "ꮵ" ~> "Ꮵ";
    "ꮶ" ~> "Ꮶ"; "ꮷ" ~> "Ꮷ"; "ꮸ" ~> "Ꮸ"; "ꮹ" ~> "Ꮹ"; "ꮺ" ~> "Ꮺ"; "ꮻ" ~> "Ꮻ";
    "ꮼ" ~> "Ꮼ"; "ꮽ" ~> "Ꮽ"; "ꮾ" ~> "Ꮾ"; "ꮿ" ~> "Ꮿ"; "ﬀ" ~> "ff"; "ﬁ" ~> "fi";
    "ﬂ" ~> "fl"; "ﬃ" ~> "ffi"; "ﬄ" ~> "ffl"; "ﬅ" ~> "st"; "ﬆ" ~> "st";
    "ﬓ" ~> "մն"; "ﬔ" ~> "մե"; "ﬕ" ~> "մի"; "ﬖ" ~> "վն"; "ﬗ" ~> "մխ";
    "Ａ" ~> "ａ"; "Ｂ" ~> "ｂ"; "Ｃ" ~> "ｃ"; "Ｄ" ~> "ｄ"; "Ｅ" ~> "ｅ"; "Ｆ" ~> "ｆ";
    "Ｇ" ~> "ｇ"; "Ｈ" ~> "ｈ"; "Ｉ" ~> "ｉ"; "Ｊ" ~> "ｊ"; "Ｋ" ~> "ｋ"; "Ｌ" ~> "ｌ";
    "Ｍ" ~> "ｍ"; "Ｎ" ~> "ｎ"; "Ｏ" ~> "ｏ"; "Ｐ" ~> "ｐ"; "Ｑ" ~> "ｑ"; "Ｒ" ~> "ｒ";
    "Ｓ" ~> "ｓ"; "Ｔ" ~> "ｔ"; "Ｕ" ~> "ｕ"; "Ｖ" ~> "ｖ"; "Ｗ" ~> "ｗ"; "Ｘ" ~> "ｘ";
    "Ｙ" ~> "ｙ"; "Ｚ" ~> "ｚ"; "𐐀" ~> "𐐨"; "𐐁" ~> "𐐩"; "𐐂" ~> "𐐪"; "𐐃" ~> "𐐫";
    "𐐄" ~> "𐐬"; "𐐅" ~> "𐐭"; "𐐆" ~> "𐐮"; "𐐇" ~> "𐐯"; "𐐈" ~> "𐐰"; "𐐉" ~> "𐐱" ]
  ++
  [ "𐐊" ~> "𐐲"; "𐐋" ~> "𐐳"; "𐐌" ~> "𐐴"; "𐐍" ~> "𐐵"; "𐐎" ~> "𐐶"; "𐐏" ~> "𐐷";
    "𐐐" ~> "𐐸"; "𐐑" ~> "𐐹"; "𐐒" ~> "𐐺"; "𐐓" ~> "𐐻"; "𐐔" ~> "𐐼"; "𐐕" ~> "𐐽";
    "𐐖" ~> "𐐾"; "𐐗" ~> "𐐿"; "𐐘" ~> "𐑀"; "𐐙" ~> "𐑁"; "𐐚" ~> "𐑂"; "𐐛" ~> "𐑃";
    "𐐜" ~> "𐑄"; "𐐝" ~> "𐑅"; "𐐞" ~> "𐑆"; "𐐟" ~> "𐑇"; "𐐠" ~> "𐑈"; "𐐡" ~> "𐑉";
    "𐐢" ~> "𐑊"; "𐐣" ~> "𐑋"; "𐐤" ~> "𐑌"; "𐐥" ~> "𐑍"; "𐐦" ~> "𐑎"; "𐐧" ~> "𐑏";
    "𐒰" ~> "𐓘"; "𐒱" ~> "𐓙"; "𐒲" ~> "𐓚"; "𐒳" ~> "𐓛"; "𐒴" ~> "𐓜"; "𐒵" ~> "𐓝";
    "𐒶" ~> "𐓞"; "𐒷" ~> "𐓟"; "𐒸" ~> "𐓠"; "𐒹" ~> "𐓡"; "𐒺" ~> "𐓢"; "𐒻" ~> "𐓣";
    "𐒼" ~> "𐓤"; "𐒽" ~> "𐓥"; "𐒾" ~> "𐓦"; "𐒿" ~> "𐓧"; "𐓀" ~> "𐓨"; "𐓁" ~> "𐓩";
    "𐓂" ~> "𐓪"; "𐓃" ~> "𐓫"; "𐓄" ~> "𐓬"; "𐓅" ~> "𐓭"; "𐓆" ~> "𐓮"; "𐓇" ~> "𐓯";
    "𐓈" ~> "𐓰"; "𐓉" ~> "𐓱"; "𐓊" ~> "𐓲"; "𐓋" ~> "𐓳"; "𐓌" ~> "𐓴"; "𐓍" ~> "𐓵";
    "𐓎" ~> "𐓶"; "𐓏" ~> "𐓷"; "𐓐" ~> "𐓸"; "𐓑" ~> "𐓹" ]
  ++
  [ "𐓒" ~> "𐓺"; "𐓓" ~> "𐓻"; "𐕰" ~> "𐖗"; "𐕱" ~> "𐖘"; "𐕲" ~> "𐖙"; "𐕳" ~> "𐖚";
    "𐕴" ~> "𐖛"; "𐕵" ~> "𐖜"; "𐕶" ~> "𐖝"; "𐕷" ~> "𐖞"; "𐕸" ~> "𐖟"; "𐕹" ~> "𐖠";
    "𐕺" ~> "𐖡"; "𐕼" ~> "𐖣"; "𐕽" ~> "𐖤"; "𐕾" ~> "𐖥"; "𐕿" ~> "𐖦"; "𐖀" ~> "𐖧";
    "𐖁" ~> "𐖨"; "𐖂" ~> "𐖩"; "𐖃" ~> "𐖪"; "𐖄" ~> "𐖫"; "𐖅" ~> "𐖬"; "𐖆" ~> "𐖭";
    "𐖇" ~> "𐖮"; "𐖈" ~> "𐖯"; "𐖉" ~> "𐖰"; "𐖊" ~> "𐖱"; "𐖌" ~> "𐖳"; "𐖍" ~> "𐖴";
    "𐖎" ~> "𐖵"; "𐖏" ~> "𐖶"; "𐖐" ~> "𐖷"; "𐖑" ~> "𐖸"; "𐖒" ~> "𐖹"; "𐖔" ~> "𐖻";
    "𐖕" ~> "𐖼"; "𐲀" ~> "𐳀"; "𐲁" ~> "𐳁"; "𐲂" ~> "𐳂"; "𐲃" ~> "𐳃"; "𐲄" ~> "𐳄";
    "𐲅" ~> "𐳅"; "𐲆" ~> "𐳆"; "𐲇" ~> "𐳇"; "𐲈" ~> "𐳈"; "𐲉" ~> "𐳉"; "𐲊" ~> "𐳊";
    "𐲋" ~> "𐳋"; "𐲌" ~> "𐳌"; "𐲍" ~> "𐳍"; "𐲎" ~> "𐳎"; "𐲏" ~> "𐳏"; "𐲐" ~> "𐳐";
    "𐲑" ~> "𐳑"; "𐲒" ~> "𐳒"; "𐲓" ~> "𐳓"; "𐲔" ~> "𐳔"; "𐲕" ~> "𐳕"; "𐲖" ~> "𐳖";
    "𐲗" ~> "𐳗"; "𐲘" ~> "𐳘"; "𐲙" ~> "𐳙"; "𐲚" ~> "𐳚" ]
  ++
  [ "𐲛" ~> "𐳛"; "𐲜" ~> "𐳜"; "𐲝" ~> "𐳝"; "𐲞" ~> "𐳞"; "𐲟" ~> "𐳟"; "𐲠" ~> "𐳠";
    "𐲡" ~> "𐳡"; "𐲢" ~> "𐳢"; "𐲣" ~> "𐳣"; "𐲤" ~> "𐳤"; "𐲥" ~> "𐳥"; "𐲦" ~> "𐳦";
    "𐲧" ~> "𐳧"; "𐲨" ~> "𐳨"; "𐲩" ~> "𐳩"; "𐲪" ~> "𐳪"; "𐲫" ~> "𐳫"; "𐲬" ~> "𐳬";
    "𐲭" ~> "𐳭"; "𐲮" ~> "𐳮"; "𐲯" ~> "𐳯"; "𐲰" ~> "𐳰"; "𐲱" ~> "𐳱"; "𐲲" ~> "𐳲";
    "𑢠" ~> "𑣀"; "𑢡" ~> "𑣁"; "𑢢" ~> "𑣂"; "𑢣" ~> "𑣃"; "𑢤" ~> "𑣄"; "𑢥" ~> "𑣅";
    "𑢦" ~> "𑣆"; "𑢧" ~> "𑣇"; "𑢨" ~> "𑣈"; "𑢩" ~> "𑣉"; "𑢪" ~> "𑣊"; "𑢫" ~> "𑣋";
    "𑢬" ~> "𑣌"; "𑢭" ~> "𑣍"; "𑢮" ~> "𑣎"; "𑢯" ~> "𑣏"; "𑢰" ~> "𑣐"; "𑢱" ~> "𑣑";
    "𑢲" ~> "𑣒"; "𑢳" ~> "𑣓"; "𑢴" ~> "𑣔"; "𑢵" ~> "𑣕"; "𑢶" ~> "𑣖"; "𑢷" ~> "𑣗";
    "𑢸" ~> "𑣘"; "𑢹" ~> "𑣙"; "𑢺" ~> "𑣚"; "𑢻" ~> "𑣛"; "𑢼" ~> "𑣜"; "𑢽" ~> "𑣝";
    "𑢾" ~> "𑣞"; "𑢿" ~> "𑣟"; "𖹀" ~> "𖹠"; "𖹁" ~> "𖹡"; "𖹂" ~> "𖹢"; "𖹃" ~> "𖹣";
    "𖹄" ~> "𖹤"; "𖹅" ~> "𖹥"; "𖹆" ~> "𖹦"; "𖹇" ~> "𖹧" ]
  ++
  [ "𖹈" ~> "𖹨"; "𖹉" ~> "𖹩"; "𖹊" ~> "𖹪"; "𖹋" ~> "𖹫"; "𖹌" ~> "𖹬"; "𖹍" ~> "𖹭";
    "𖹎" ~> "𖹮"; "𖹏" ~> "𖹯"; "𖹐" ~> "𖹰"; "𖹑" ~> "𖹱"; "𖹒" ~> "𖹲"; "𖹓" ~> "𖹳";
    "𖹔" ~> "𖹴"; "𖹕" ~> "𖹵"; "𖹖" ~> "𖹶"; "𖹗" ~> "𖹷"; "𖹘" ~> "𖹸"; "𖹙" ~> "𖹹";
    "𖹚" ~> "𖹺"; "𖹛" ~> "𖹻"; "𖹜" ~> "𖹼"; "𖹝" ~> "𖹽"; "𖹞" ~> "𖹾"; "𖹟" ~> "𖹿";
    "𞤀" ~> "𞤢"; "𞤁" ~> "𞤣"; "𞤂" ~> "𞤤"; "𞤃" ~> "𞤥"; "𞤄" ~> "𞤦"; "𞤅" ~> "𞤧";
    "𞤆" ~> "𞤨"; "𞤇" ~> "𞤩"; "𞤈" ~> "𞤪"; "𞤉" ~> "𞤫"; "𞤊" ~> "𞤬"; "𞤋" ~> "𞤭";
    "𞤌" ~> "𞤮"; "𞤍" ~> "𞤯"; "𞤎" ~> "𞤰"; "𞤏" ~> "𞤱"; "𞤐" ~> "𞤲"; "𞤑" ~> "𞤳";
    "𞤒" ~> "𞤴"; "𞤓" ~> "𞤵"; "𞤔" ~> "𞤶"; "𞤕" ~> "𞤷"; "𞤖" ~> "𞤸"; "𞤗" ~> "𞤹";
    "𞤘" ~> "𞤺"; "𞤙" ~> "𞤻"; "𞤚" ~> "𞤼"; "𞤛" ~> "𞤽"; "𞤜" ~> "𞤾"; "𞤝" ~> "𞤿";
    "𞤞" ~> "𞥀"; "𞤟" ~> "𞥁"; "𞤠" ~> "𞥂"; "𞤡" ~> "𞥃" ].

(** [str.casefold]. *)
Definition casefold (s : string) : string :=
  map_chars (case_lookup casefold_table) EmptyString 0 s.

(** Letter case at large: two strings differ only in letter case when
    they are a caseless match, that is when their case-folded forms are
    equal. *)
Definition differ_only_in_case (s t : string) : bool :=
  String.eqb (casefold s) (casefold t).

(** The encoding UTF-8 refuses the surrogates, the characters whose
    three-byte form is [ED A0..BF xx]. *)
Fixpoint utf8_encodes (s : string) : bool :=
  match s with
  | EmptyString => true
  | String c s' =>
      match s' with
      | String c' _ =>
          if Ascii.eqb c (ascii_of_nat 237) && (160 <=? nat_of_ascii c')%nat
          then false else utf8_encodes s'
      | EmptyString => true
      end
  end.

(** The failures of opening a file: the file is not there, or it may not
    be read. *)
Definition cannot_be_opened (e : pyexn) : bool :=
  match e with
  | FileNotFoundError | PermissionError => true
  | _ => false
  end.

(** The fault the specification names for a bad method choice. *)
Definition InvalidMethodChoice : pyexn := ExnOther "InvalidMethodChoice".

Definition is_api_request (e : event) : bool :=
  match e with
  | ApiRequest _ => true
  | _ => false
  end.

(** The effects [new] of one request end with the single append of an
    entry, after all the requests to the service. *)
Definition appended_after_calls (new : list event) : Prop :=
  exists calls d,
    new = (calls ++ [HistoryAppend d])%list /\
    forallb is_api_request calls = true.

(* ================================================================== *)
(** ** Sample data *)

Definition sample_frame : dataframe :=
  [ ("code", [PyStr "P0300"; PyStr "P0171"]);
    ("description", [PyStr "Random/Multiple Cylinder Misfire Detected";
                     PyStr "System Too Lean"]) ].

Definition sample_table : py_dict :=
  [ (PyStr "P0300", PyStr "Random/Multiple Cylinder Misfire Detected");
    (PyStr "P0171", PyStr "System Too Lean") ].

(** A table whose source spells a code in lower case. *)
Definition lowercase_frame : dataframe :=
  [ ("code", [PyStr "p0300"]);
    ("description", [PyStr "Random/Multiple Cylinder Misfire Detected"]) ].

(** A table whose descriptions are all numeric: the column is read as
    integers. *)
Definition zero_description_frame : dataframe :=
  [ ("code", [PyStr "P0300"]); ("description", [PyInt 0]) ].

(** A source that gives the code [P0300] twice. *)
Definition duplicate_frame : dataframe :=
  [ ("code", [PyStr "P0300"; PyStr "P0171"; PyStr "P0300"]);
    ("description", [PyStr "first"; PyStr "lean"; PyStr "second"]) ].

Definition frame_without_description : dataframe :=
  [ ("code", [PyStr "P0300"]); ("desc", [PyStr "Misfire"]) ].

(** A service that completes the run with one text reply. *)
Definition completed_client (reply : string) : service :=
  Service (Ok tt) (Ok tt) (fun _ => Ok tt) (fun _ => Ok "completed")
          (fun _ => Ok [Message "text" reply]) (Ok tt).

(** A service whose run ends in another state than completed. *)
Definition failing_client : service :=
  Service (Ok tt) (Ok tt) (fun _ => Ok tt) (fun _ => Ok "failed")
          (fun _ => Ok []) (Ok tt).

(** A [client] without the attribute [beta]: every operation raises
    [AttributeError]. *)
Definition broken_client : service :=
  Service (Raise AttributeError) (Raise AttributeError)
          (fun _ => Raise AttributeError) (fun _ => Raise AttributeError)
          (fun _ => Raise AttributeError) (Raise AttributeError).

Definition sample_state : state := State sample_table [] [].

(** Files that open, written in UTF-8. *)
Definition utf8_files : filesystem :=
  Filesystem (fun _ => Ok tt) utf8_encodes.

(** Files that may not be written. *)
Definition read_only_files : filesystem :=
  Filesystem (fun _ => Raise PermissionError) utf8_encodes.

(** The text of the JSON string ["\ud83d"]: one lone surrogate. *)
Definition lone_surrogate : string :=
  String (ascii_of_nat 237)
    (String (ascii_of_nat 160) (String (ascii_of_nat 189) EmptyString)).

(** The record of a request whose complaint is that text. *)
Definition surrogate_diagnosis : diagnosis :=
  Diagnosis (PyStr lone_surrogate) "Verificar a Reclamação"
            PyNone "N/A" PyNone PyNone.

Definition sample_diagnosis : diagnosis :=
  Diagnosis (PyStr "Engine shakes") "Isolar a Área do Problema"
            (PyStr "p0300")
            ("Código: P0300" ++ nl ++
             "Descrição: Random/Multiple Cylinder Misfire Detected")
            (PyStr "Rough idle") (PyStr "Ignition").

(** The request of the end-to-end scenario. *)
Definition sample_request (client : service) (method_choice : pyval)
  : M response :=
  diagnose_vehicle client (PyStr "Engine shakes") method_choice
                   (PyStr "p0300") (PyStr "Rough idle") (PyStr "Ignition").

(* ================================================================== *)
(** ** Running the code on examples *)

Example search_hit :
  search_code sample_table (PyStr "p0300")
  = Ok ("Código: P0300" ++ nl ++
        "Descrição: Random/Multiple Cylinder Misfire Detected").
Proof. reflexivity. Qed.

Example case_of_codes :
  differ_only_in_ascii_case "p0300" "P0300" = true /\
  differ_only_in_ascii_case "p0300" "P0301" = false /\
  differ_only_in_ascii_case "p0300" "P030" = false /\
  differ_only_in_case "p0300" "P0300" = true /\
  differ_only_in_case "p0300" "P0301" = false /\
  differ_only_in_case "é1" "É1" = true.
Proof. repeat split. Qed.

Example upper_beyond_ascii :
  upper "p0300" = "P0300" /\ upper "é1" = "É1" /\ upper "ß1" = "SS1" /\
  upper lone_surrogate = lone_surrogate.
Proof. repeat split. Qed.

Example search_miss :
  search_code sample_table (PyStr "b1234") = Ok "Código B1234 não encontrado.".
Proof. reflexivity. Qed.

Example py_str_int : py_str (PyInt (-42)) = "-42" /\ py_str (PyInt 0) = "0".
Proof. split; reflexivity. Qed.

Example load_sample : load_codes (Ok sample_frame) = Ok sample_table.
Proof. reflexivity. Qed.

Example duplicate_code_last_wins :
  dict_of_pairs [(PyStr "P1", PyStr "a"); (PyStr "P2", PyStr "b");
                 (PyStr "P1", PyStr "c")]
  = [(PyStr "P1", PyStr "c"); (PyStr "P2", PyStr "b")].
Proof. reflexivity. Qed.

Example scenario_completed :
  sample_request (completed_client "Check the **coil** `pack`") (PyInt 4)
                 sample_state
  = (Ok (Response sample_diagnosis "Check the coil pack"),
     State sample_table [sample_diagnosis]
       [ HistoryAppend sample_diagnosis;
         ApiRequest AssistantsCreate; ApiRequest ThreadsCreate;
         ApiRequest (MessagesCreate (prompt_of sample_diagnosis));
         ApiRequest RunsCreateAndPoll; ApiRequest MessagesList;
         ApiRequest AssistantsDelete ]).
Proof. reflexivity. Qed.

Example scenario_failed_run :
  fst (sample_request failing_client (PyInt 4) sample_state)
  = Ok (Response sample_diagnosis fallback_suggestion).
Proof. reflexivity. Qed.

Example scenario_broken_client :
  sample_request broken_client (PyInt 4) sample_state
  = (Raise AttributeError,
     State sample_table [sample_diagnosis]
       [HistoryAppend sample_diagnosis; ApiRequest AssistantsCreate]).
Proof. reflexivity. Qed.

Example report_of_sample :
  generate_report utf8_files (State sample_table [sample_diagnosis] [])
  = (Ok report_saved_message,
     State sample_table [sample_diagnosis]
       [FileWrite "diagnostic_report.txt"
          (nl ++ "--- Relatório de Diagnóstico ---" ++ nl ++
           "Reclamação do Cliente: Engine shakes" ++ nl ++
           "Método de Diagnóstico: Isolar a Área do Problema" ++ nl ++
           "Código de Falha: p0300" ++ nl ++
           "Descrição do Código: Código: P0300" ++ nl ++
           "Descrição: Random/Multiple Cylinder Misfire Detected" ++ nl ++
           "Sintomas Relacionados: Rough idle" ++ nl ++
           "Área do Problema: Ignition" ++ nl)]).
Proof. reflexivity. Qed.

(* ================================================================== *)
(** ** The code table *)

(** A letter [A]..[Z] and its lower-case form are one byte each, and
    [upper_table] sends both to the same character. *)
Lemma letter_cases (a : ascii) :
  lower_char a <> a ->
  is_continuation a = false /\
  is_continuation (lower_char a) = false /\
  char_width a = 1%nat /\
  char_width (lower_char a) = 1%nat /\
  case_lookup upper_table (String a EmptyString)
  = case_lookup upper_table (String (lower_char a) EmptyString).
Proof.
  destruct a as [[] [] [] [] [] [] [] []]; intros H;
    first [ now elim H | repeat split; vm_compute; reflexivity ].
Qed.

Lemma map_chars_letter (a b : ascii) (pending : string) (need : nat)
    (s t : string) :
  lower_char a = b -> a <> b ->
  map_chars (case_lookup upper_table) EmptyString 0 s
  = map_chars (case_lookup upper_table) EmptyString 0 t ->
  map_chars (case_lookup upper_table) pending need (String a s)
  = map_chars (case_lookup upper_table) pending need (String b t).
Proof.
  intros Hb Hab Hst. subst b.
  destruct (letter_cases a) as (Ha & Hla & Hwa & Hwla & Hup);
    [congruence |].
  cbn [map_chars]. rewrite Ha, Hla, Hwa, Hwla. cbv beta iota.
  now rewrite Hup, Hst.
Qed.

Lemma differ_only_in_ascii_case_map (s t : string) :
  differ_only_in_ascii_case s t = true ->
  forall pending need,
    map_chars (case_lookup upper_table) pending need s
    = map_chars (case_lookup upper_table) pending need t.
Proof.
  revert t. induction s as [| a s IH]; intros [| b t] H; simpl in H;
    try discriminate; [reflexivity |].
  apply andb_true_iff in H as [Hab Hst]. intros pending need.
  pose proof (IH t Hst) as IHst.
  destruct (Ascii.eqb_spec a b) as [-> | Hne].
  - cbn [map_chars].
    destruct (is_continuation b);
      [destruct need as [| [| n]] | destruct (char_width b) as [| [| w]]];
      now rewrite IHst.
  - unfold same_letter in Hab.
    apply orb_true_iff in Hab as [Hab | Hab];
      [apply orb_true_iff in Hab as [Hab | Hab] |];
      apply Ascii.eqb_eq in Hab.
    + contradiction.
    + now apply map_chars_letter.
    + symmetry. apply map_chars_letter; [now symmetry | congruence |].
      symmetry. apply IHst.
Qed.

Lemma differ_only_in_ascii_case_upper (s t : string) :
  differ_only_in_ascii_case s t = true -> upper s = upper t.
Proof.
  intros H. unfold upper. now apply differ_only_in_ascii_case_map.
Qed.

(** The answer of [search_code] is a function of the uppercased code. *)
Lemma search_code_upper (table : py_dict) (a b : string) :
  upper a = upper b ->
  search_code table (PyStr a) = search_code table (PyStr b).
Proof. intros H. unfold search_code, py_upper. now rewrite H. Qed.

(** C6 (as amended): lookup is insensitive to the case of the letters
    [A]..[Z], and more generally to whatever [str.upper] erases.  Two
    code strings that differ only in the case of those letters, or that
    have the same uppercased form, get the same answer from
    [search_code], whatever the table holds. *)
Theorem search_code_case_insensitive (table : py_dict) (a b : string) :
  differ_only_in_ascii_case a b = true \/ upper a = upper b ->
  search_code table (PyStr a) = search_code table (PyStr b).
Proof.
  intros [H | H]; apply search_code_upper; [| exact H].
  now apply differ_only_in_ascii_case_upper.
Qed.

Lemma search_code_case_insensitive_witness :
  (differ_only_in_ascii_case "p0300" "P0300" = true \/
   upper "p0300" = upper "P0300") /\
  search_code sample_table (PyStr "p0300")
  = search_code sample_table (PyStr "P0300").
Proof.
  split; [left; reflexivity |].
  apply (search_code_case_insensitive sample_table "p0300" "P0300").
  left. reflexivity.
Defined.

(** C6 (as stated) fails.  The lower-case sharp s and the capital sharp
    s differ only in letter case, yet [str.upper] turns the first into
    [SS] and leaves the second: the two lookups look for different keys
    and answer differently. *)
Lemma sharp_s_lookup_depends_on_case :
  differ_only_in_case "ß" "ẞ" = true /\
  upper "ß" = "SS" /\
  upper "ẞ" = "ẞ" /\
  search_code sample_table (PyStr "ß") = Ok "Código SS não encontrado." /\
  search_code sample_table (PyStr "ẞ") = Ok "Código ẞ não encontrado." /\
  search_code sample_table (PyStr "ß") <> search_code sample_table (PyStr "ẞ").
Proof.
  split; [reflexivity |]. split; [reflexivity |]. split; [reflexivity |].
  split; [reflexivity |]. split; [reflexivity |].
  intros H. vm_compute in H. discriminate.
Qed.

(** C3 (as amended): the key looked up is the uppercased code, and the
    table is matched as stored.  When the uppercased code is a key with a
    truthy description, [search_code] answers in the two-line hit format
    with that description; when the uppercased code is not a key, it
    answers in the miss format. *)
Theorem search_code_hit_or_miss (table : py_dict) (c : string) :
  (forall description,
      dict_get table (PyStr (upper c)) = Some description ->
      py_truthy description = true ->
      search_code table (PyStr c)
      = Ok ("Código: " ++ upper c ++ nl ++ "Descrição: " ++ py_str description))
  /\
  (dict_get table (PyStr (upper c)) = None ->
   search_code table (PyStr c)
   = Ok ("Código " ++ upper c ++ " não encontrado.")).
Proof.
  unfold search_code, py_upper. split.
  - intros d Hget Htrue. now rewrite Hget, Htrue.
  - intros Hget. now rewrite Hget.
Qed.

Lemma search_code_hit_or_miss_witness :
  (dict_get sample_table (PyStr (upper "p0171")) = Some (PyStr "System Too Lean")
   /\ py_truthy (PyStr "System Too Lean") = true
   /\ search_code sample_table (PyStr "p0171")
      = Ok ("Código: P0171" ++ nl ++ "Descrição: System Too Lean"))
  /\
  (dict_get sample_table (PyStr (upper "b1234")) = None
   /\ search_code sample_table (PyStr "b1234")
      = Ok "Código B1234 não encontrado.").
Proof.
  split.
  - split; [reflexivity | split; [reflexivity |]].
    exact (proj1 (search_code_hit_or_miss sample_table "p0171")
                 (PyStr "System Too Lean") eq_refl eq_refl).
  - split; [reflexivity |].
    exact (proj2 (search_code_hit_or_miss sample_table "b1234") eq_refl).
Defined.

(** C3 (as stated) fails.  [load_codes] keeps the keys as the source
    spells them: the code [p0300] is present in the table loaded from
    [lowercase_frame], yet looking it up answers "not found".  And a code
    stored in upper case whose description is falsy, as the [0] of
    [zero_description_frame], is reported "not found" as well. *)
Lemma loaded_code_reported_not_found :
  (exists table,
      load_codes (Ok lowercase_frame) = Ok table /\
      dict_get table (PyStr "p0300")
      = Some (PyStr "Random/Multiple Cylinder Misfire Detected") /\
      search_code table (PyStr "p0300") = Ok "Código P0300 não encontrado." /\
      search_code table (PyStr "p0300")
      <> Ok (hit_format "P0300"
               (PyStr "Random/Multiple Cylinder Misfire Detected")))
  /\
  (exists table,
      load_codes (Ok zero_description_frame) = Ok table /\
      upper "P0300" = "P0300" /\
      dict_get table (PyStr "P0300") = Some (PyInt 0) /\
      search_code table (PyStr "P0300") = Ok "Código P0300 não encontrado." /\
      search_code table (PyStr "P0300") <> Ok (hit_format "P0300" (PyInt 0))).
Proof.
  split; eexists; (split; [reflexivity |]).
  - split; [reflexivity |]. split; [reflexivity |]. discriminate.
  - split; [reflexivity |]. split; [reflexivity |].
    split; [reflexivity |]. discriminate.
Qed.

(** C7 (as amended): when the source does not exist
    ([FileNotFoundError]) the load returns the empty table, on which
    every lookup answers "not found", and the system starts; every other
    exception of the read leaves [load_codes]; a source that opens but
    lacks the column [code] or [description] makes it raise [KeyError]. *)
Theorem load_codes_missing_source_or_column :
  load_codes (Raise FileNotFoundError) = Ok [] /\
  init (Raise FileNotFoundError) = Ok (State [] [] []) /\
  (forall code : string,
      search_code [] (PyStr code)
      = Ok ("Código " ++ upper code ++ " não encontrado.")) /\
  (forall e, e <> FileNotFoundError -> load_codes (Raise e) = Raise e) /\
  (forall df,
      has_column "code" df = false \/ has_column "description" df = false ->
      load_codes (Ok df) = Raise KeyError).
Proof.
  repeat split; try reflexivity.
  - intros e He. destruct e; try reflexivity. now elim He.
  - intros df [H | H]; simpl; rewrite H; [reflexivity |].
    now rewrite andb_false_r.
Qed.

Lemma load_codes_missing_source_or_column_witness :
  (PermissionError <> FileNotFoundError
   /\ load_codes (Raise PermissionError) = Raise PermissionError)
  /\
  ((has_column "code" frame_without_description = false
    \/ has_column "description" frame_without_description = false)
   /\ load_codes (Ok frame_without_description) = Raise KeyError).
Proof.
  destruct load_codes_missing_source_or_column as (_ & _ & _ & Hexn & Hcol).
  split.
  - split; [discriminate |]. apply Hexn. discriminate.
  - split; [right; reflexivity |]. apply Hcol. right. reflexivity.
Defined.

(** C7 (as stated) fails: a source that exists but may not be read cannot
    be opened either, and that exception is not caught: the load raises
    instead of returning the empty table. *)
Lemma unreadable_source_is_fatal :
  cannot_be_opened PermissionError = true /\
  load_codes (Raise PermissionError) = Raise PermissionError /\
  load_codes (Raise PermissionError) <> Ok [] /\
  init (Raise PermissionError) = Raise PermissionError.
Proof. repeat split; try reflexivity. discriminate. Qed.

(* ================================================================== *)
(** ** The diagnosis request *)

Section Diagnose.

Variable client : service.

(** The suggestion call only talks to the service: it leaves the table
    and the history alone, and begins by creating the assistant. *)
Lemma get_chatbot_solution_effects (d : diagnosis) (st : state) :
  exists rest,
    snd (get_chatbot_solution client d st)
    = State (codes st) (diagnostics_history st)
            (trace st ++ ApiRequest AssistantsCreate :: rest)%list /\
    forallb is_api_request rest = true.
Proof.
  unfold get_chatbot_solution. generalize (prompt_of d). intros prompt.
  unfold bind, api, emit, ret. cbn.
  destruct (assistants_create client); cbn;
    [| exists []; rewrite <- ?app_assoc; split; reflexivity].
  destruct (threads_create client); cbn;
    [| eexists; rewrite <- ?app_assoc; split; reflexivity].
  destruct (messages_create client prompt); cbn;
    [| eexists; rewrite <- ?app_assoc; split; reflexivity].
  destruct (runs_create_and_poll client prompt) as [status |]; cbn;
    [| eexists; rewrite <- ?app_assoc; split; reflexivity].
  destruct (String.eqb status "completed"); cbn.
  - destruct (messages_list client prompt); cbn;
      [| eexists; rewrite <- ?app_assoc; split; reflexivity].
    destruct (assistants_delete client); cbn;
      eexists; rewrite <- ?app_assoc; split; reflexivity.
  - destruct (assistants_delete client); cbn;
      eexists; rewrite <- ?app_assoc; split; reflexivity.
Qed.

(** One request, step by step: once the method is selected and the code
    described, the record is appended, then the suggestion is asked
    for. *)
Lemma diagnose_vehicle_run
    (c mc dtc s a : pyval) (st : state) (method description : string) :
  select_method mc = Ok method ->
  (if py_truthy dtc then search_code (codes st) dtc else Ok "N/A")
  = Ok description ->
  let d := Diagnosis c method dtc description s a in
  exists (suggestion : result string) (rest : list event),
    diagnose_vehicle client c mc dtc s a st
    = (match suggestion with
       | Ok text => Ok (Response d text)
       | Raise e => Raise e
       end,
       State (codes st) (diagnostics_history st ++ [d])%list
             (trace st ++ HistoryAppend d :: ApiRequest AssistantsCreate :: rest)%list)
    /\ forallb is_api_request rest = true.
Proof.
  intros Hm Hd d.
  unfold diagnose_vehicle, bind, lift, get_codes, history_append, ret.
  rewrite Hm, Hd. fold d.
  set (st1 := State (codes st) (diagnostics_history st ++ [d])%list
                    (trace st ++ [HistoryAppend d])%list).
  destruct (get_chatbot_solution_effects d st1) as (rest & Hst & Hrest).
  destruct (get_chatbot_solution client d st1) as [r st2].
  cbn in Hst. subst st2. rewrite <- app_assoc. cbn.
  exists r, rest. split; [| exact Hrest]. now destruct r.
Qed.

(** A request that fails to select its method changes nothing. *)
Lemma diagnose_vehicle_no_method
    (c mc dtc s a : pyval) (st : state) (e : pyexn) :
  select_method mc = Raise e ->
  diagnose_vehicle client c mc dtc s a st = (Raise e, st).
Proof.
  intros H. unfold diagnose_vehicle, bind, lift. now rewrite H.
Qed.

(** A request that returns has appended the record it returns. *)
Lemma diagnose_vehicle_returns_last_entry
    (c mc dtc s a : pyval) (st : state) (resp : response) :
  fst (diagnose_vehicle client c mc dtc s a st) = Ok resp ->
  diagnostics_history (snd (diagnose_vehicle client c mc dtc s a st))
  = (diagnostics_history st ++ [resp_diagnosis resp])%list.
Proof.
  destruct (select_method mc) as [method | e] eqn:Hm.
  - destruct (if py_truthy dtc then search_code (codes st) dtc else Ok "N/A")
      as [description | e] eqn:Hd.
    + destruct (diagnose_vehicle_run c mc dtc s a st method description Hm Hd)
        as (r & rest & Hrun & _).
      cbn zeta in Hrun. rewrite Hrun. cbn.
      destruct r; [| discriminate]. intros H. now inversion H.
    + unfold diagnose_vehicle, bind, lift, get_codes.
      rewrite Hm, Hd. discriminate.
  - rewrite (diagnose_vehicle_no_method c mc dtc s a st e Hm). discriminate.
Qed.


Lemma select_method_out_of_range (z : Z) :
  (z < -5 \/ 6 < z)%Z -> select_method (PyInt z) = Raise IndexError.
Proof.
  intros Hz. unfold select_method, py_sub1, list_index.
  change (Z.of_nat (List.length diagnostic_methods)) with 6%Z.
  destruct (Z.ltb_spec (z - 1) 0).
  - destruct (Z.leb_spec 0 (z - 1 + 6)); [lia | reflexivity].
  - destruct (Z.leb_spec 0 (z - 1)); [| lia].
    destruct (Z.ltb_spec (z - 1) 6); [lia | reflexivity].
Qed.

(** C1 (as amended): a request whose method is selected and whose code is
    described appends the diagnosis record alone, without the
    suggestion, exactly once, and does so before the first request to
    the service; the entry is in the history whatever the suggestion
    call then does, and every later effect of the request is a request
    to the service. *)
Theorem history_entry_appended_before_suggestion
    (c mc dtc s a : pyval) (st : state) (method description : string) :
  select_method mc = Ok method ->
  (if py_truthy dtc then search_code (codes st) dtc else Ok "N/A")
  = Ok description ->
  let d := Diagnosis c method dtc description s a in
  let st' := snd (diagnose_vehicle client c mc dtc s a st) in
  diagnostics_history st' = (diagnostics_history st ++ [d])%list /\
  exists rest,
    trace st'
    = (trace st ++ HistoryAppend d :: ApiRequest AssistantsCreate :: rest)%list
    /\ forallb is_api_request rest = true.
Proof.
  intros Hm Hd d st'. subst st'.
  destruct (diagnose_vehicle_run c _ _ s a st _ _ Hm Hd) as (r & rest & Hrun & Hrest).
  fold d in Hrun. rewrite Hrun. cbn. split; [reflexivity |].
  exists rest. now split.
Qed.

(** C2 (as amended): an integer method choice outside -5..6 makes
    [diagnose_vehicle] raise [IndexError] before anything else happens:
    no record, no history entry, no request to the service. *)
Theorem method_choice_out_of_range_raises
    (z : Z) (c dtc s a : pyval) (st : state) :
  (z < -5 \/ 6 < z)%Z ->
  diagnose_vehicle client c (PyInt z) dtc s a st = (Raise IndexError, st).
Proof.
  intros Hz. apply diagnose_vehicle_no_method.
  now apply select_method_out_of_range.
Qed.


(** C5: with a selected method, an absent ([None]) or empty code gives
    the record the description ["N/A"] whatever the table holds; a
    non-empty code gives it the text [search_code] renders. *)
Theorem dtc_description_rule
    (c mc dtc s a : pyval) (st : state) (method : string) :
  select_method mc = Ok method ->
  let st' := snd (diagnose_vehicle client c mc dtc s a st) in
  (dtc = PyNone \/ dtc = PyStr EmptyString ->
   diagnostics_history st'
   = (diagnostics_history st ++ [Diagnosis c method dtc "N/A" s a])%list)
  /\
  (forall code, dtc = PyStr code -> code <> EmptyString ->
     exists rendered,
       search_code (codes st) (PyStr code) = Ok rendered /\
       diagnostics_history st'
       = (diagnostics_history st
          ++ [Diagnosis c method dtc rendered s a])%list).
Proof.
  intros Hm st'. subst st'. split.
  - intros Hdtc.
    assert (Hd : (if py_truthy dtc then search_code (codes st) dtc
                  else Ok "N/A") = Ok "N/A")
      by (destruct Hdtc; subst; reflexivity).
    destruct (diagnose_vehicle_run c _ _ s a st _ _ Hm Hd) as (r & rest & Hrun & _).
    cbn zeta in Hrun. now rewrite Hrun.
  - intros code -> Hcode.
    assert (Htrue : py_truthy (PyStr code) = true).
    { cbn. destruct (String.eqb_spec code EmptyString); [contradiction | reflexivity]. }
    assert (Hs : exists rendered,
               search_code (codes st) (PyStr code) = Ok rendered).
    { unfold search_code, py_upper.
      destruct (dict_get (codes st) (PyStr (upper code))) as [v |];
        [destruct (py_truthy v) |]; eexists; reflexivity. }
    destruct Hs as (rendered & Hs). exists rendered. split; [exact Hs |].
    assert (Hd : (if py_truthy (PyStr code)
                  then search_code (codes st) (PyStr code)
                  else Ok "N/A") = Ok rendered) by now rewrite Htrue.
    destruct (diagnose_vehicle_run c _ _ s a st _ _ Hm Hd) as (r & rest & Hrun & _).
    cbn zeta in Hrun. now rewrite Hrun.
Qed.

(** C10: the method choice 0 does not raise; the index -1 selects the
    sixth label and the request runs exactly as with the choice 6: same
    record, same history, same effects, same result. *)
Theorem method_choice_zero_selects_last
    (c dtc s a : pyval) (st : state) :
  select_method (PyInt 0) = Ok "Certificar que a Operação Está Adequada" /\
  select_method (PyInt 0) = select_method (PyInt 6) /\
  diagnose_vehicle client c (PyInt 0) dtc s a st
  = diagnose_vehicle client c (PyInt 6) dtc s a st /\
  forall description,
    (if py_truthy dtc then search_code (codes st) dtc else Ok "N/A")
    = Ok description ->
    diagnostics_history (snd (diagnose_vehicle client c (PyInt 0) dtc s a st))
    = (diagnostics_history st
       ++ [Diagnosis c "Certificar que a Operação Está Adequada"
                     dtc description s a])%list.
Proof.
  split; [reflexivity |]. split; [reflexivity |]. split; [reflexivity |].
  intros description Hd.
  assert (Hm : select_method (PyInt 0)
               = Ok "Certificar que a Operação Está Adequada") by reflexivity.
  destruct (diagnose_vehicle_run c _ _ s a st _ _ Hm Hd) as (r & rest & Hrun & _).
  cbn zeta in Hrun. now rewrite Hrun.
Qed.

End Diagnose.

Lemma history_entry_appended_before_suggestion_witness :
  select_method (PyInt 4) = Ok "Isolar a Área do Problema" /\
  (if py_truthy (PyStr "p0300")
   then search_code (codes sample_state) (PyStr "p0300") else Ok "N/A")
  = Ok (dtc_description sample_diagnosis) /\
  let st' := snd (sample_request broken_client (PyInt 4) sample_state) in
  diagnostics_history st' = [sample_diagnosis] /\
  exists rest,
    trace st'
    = HistoryAppend sample_diagnosis :: ApiRequest AssistantsCreate :: rest
    /\ forallb is_api_request rest = true.
Proof.
  split; [reflexivity |]. split; [reflexivity |].
  exact (history_entry_appended_before_suggestion broken_client
           (PyStr "Engine shakes") (PyInt 4) (PyStr "p0300")
           (PyStr "Rough idle") (PyStr "Ignition") sample_state
           "Isolar a Área do Problema" (dtc_description sample_diagnosis)
           eq_refl eq_refl).
Defined.

(** C1 (as stated) fails.  In the scenario request the effects begin with
    the append and go on with the requests to the service, so they do
    not end with the append; and two services that suggest different
    texts leave the same history: the entry is the record, without the
    suggestion. *)
Lemma history_entry_precedes_call_and_lacks_suggestion :
  let run reply :=
    sample_request (completed_client reply) (PyInt 4) sample_state in
  trace (snd (run "Check the coil"))
  = [ HistoryAppend sample_diagnosis;
      ApiRequest AssistantsCreate; ApiRequest ThreadsCreate;
      ApiRequest (MessagesCreate (prompt_of sample_diagnosis));
      ApiRequest RunsCreateAndPoll; ApiRequest MessagesList;
      ApiRequest AssistantsDelete ] /\
  ~ appended_after_calls (trace (snd (run "Check the coil"))) /\
  fst (run "Check the coil") <> fst (run "Replace the plugs") /\
  diagnostics_history (snd (run "Check the coil")) = [sample_diagnosis] /\
  diagnostics_history (snd (run "Replace the plugs")) = [sample_diagnosis].
Proof.
  cbv zeta. split; [reflexivity |]. split.
  - intros (calls & d & Heq & _).
    change (trace (snd (sample_request (completed_client "Check the coil")
                          (PyInt 4) sample_state)))
      with ([ HistoryAppend sample_diagnosis;
              ApiRequest AssistantsCreate; ApiRequest ThreadsCreate;
              ApiRequest (MessagesCreate (prompt_of sample_diagnosis));
              ApiRequest RunsCreateAndPoll; ApiRequest MessagesList ]
            ++ [ApiRequest AssistantsDelete])%list in Heq.
    apply app_inj_tail in Heq as [_ Heq]. discriminate.
  - split; [| split; reflexivity].
    intros Heq. vm_compute in Heq. discriminate.
Qed.

Lemma method_choice_out_of_range_raises_witness :
  (7 < -5 \/ 6 < 7)%Z /\
  sample_request failing_client (PyInt 7) sample_state
  = (Raise IndexError, sample_state).
Proof.
  split; [right; reflexivity |].
  apply (method_choice_out_of_range_raises failing_client 7).
  right. reflexivity.
Defined.

(** C2 (as stated) fails.  The choice 7 is outside 1..6 and the request
    ends with [IndexError], the index-out-of-range fault, not with
    [InvalidMethodChoice]; the choice 0 is outside 1..6 too and the
    request returns a record. *)
Lemma method_choice_seven_is_an_index_error :
  (7 < 1 \/ 6 < 7)%Z /\
  fst (sample_request failing_client (PyInt 7) sample_state)
  = Raise IndexError /\
  fst (sample_request failing_client (PyInt 7) sample_state)
  <> Raise InvalidMethodChoice /\
  (0 < 1 \/ 6 < 0)%Z /\
  exists resp,
    fst (sample_request failing_client (PyInt 0) sample_state) = Ok resp.
Proof.
  split; [right; reflexivity |]. split; [reflexivity |].
  split; [discriminate |]. split; [left; reflexivity |].
  eexists. reflexivity.
Qed.


(** The labels of the six choices, spelled out. *)
Example method_labels :
  map (fun i => select_method (PyInt i)) [1; 2; 3; 4; 5; 6]%Z
  = [ Ok "Verificar a Reclamação";
      Ok "Determinar os Sintomas Relacionados";
      Ok "Analisar os Sintomas Relacionados";
      Ok "Isolar a Área do Problema";
      Ok "Reparar a Área do Problema";
      Ok "Certificar que a Operação Está Adequada" ].
Proof. reflexivity. Qed.

Lemma dtc_description_rule_witness :
  select_method (PyInt 2) = Ok "Determinar os Sintomas Relacionados" /\
  ((PyNone = PyNone \/ PyNone = PyStr EmptyString) /\
   diagnostics_history
     (snd (diagnose_vehicle failing_client (PyStr "Stalls") (PyInt 2) PyNone
             (PyStr "None") (PyStr "Fuel") sample_state))
   = [Diagnosis (PyStr "Stalls") "Determinar os Sintomas Relacionados"
                PyNone "N/A" (PyStr "None") (PyStr "Fuel")])
  /\
  (PyStr "p0171" = PyStr "p0171" /\ "p0171" <> EmptyString /\
   exists rendered,
     search_code (codes sample_state) (PyStr "p0171") = Ok rendered /\
     diagnostics_history
       (snd (diagnose_vehicle failing_client (PyStr "Stalls") (PyInt 2)
               (PyStr "p0171") (PyStr "None") (PyStr "Fuel") sample_state))
     = [Diagnosis (PyStr "Stalls") "Determinar os Sintomas Relacionados"
                  (PyStr "p0171") rendered (PyStr "None") (PyStr "Fuel")]).
Proof.
  split; [reflexivity |]. split.
  - split; [left; reflexivity |].
    apply (proj1 (dtc_description_rule failing_client (PyStr "Stalls")
                    (PyInt 2) PyNone (PyStr "None") (PyStr "Fuel")
                    sample_state "Determinar os Sintomas Relacionados"
                    eq_refl)).
    left. reflexivity.
  - split; [reflexivity |]. split; [discriminate |].
    apply (proj2 (dtc_description_rule failing_client (PyStr "Stalls")
                    (PyInt 2) (PyStr "p0171") (PyStr "None") (PyStr "Fuel")
                    sample_state "Determinar os Sintomas Relacionados"
                    eq_refl) "p0171"); [reflexivity | discriminate].
Defined.

Lemma method_choice_zero_selects_last_witness :
  (if py_truthy (PyStr "p0300")
   then search_code (codes sample_state) (PyStr "p0300") else Ok "N/A")
  = Ok (dtc_description sample_diagnosis) /\
  diagnostics_history
    (snd (sample_request (completed_client "Check the coil") (PyInt 0)
            sample_state))
  = [Diagnosis (PyStr "Engine shakes")
               "Certificar que a Operação Está Adequada" (PyStr "p0300")
               (dtc_description sample_diagnosis)
               (PyStr "Rough idle") (PyStr "Ignition")].
Proof.
  split; [reflexivity |].
  destruct (method_choice_zero_selects_last
              (completed_client "Check the coil") (PyStr "Engine shakes")
              (PyStr "p0300") (PyStr "Rough idle") (PyStr "Ignition")
              sample_state) as (_ & _ & _ & H).
  apply H. reflexivity.
Defined.

(* ================================================================== *)
(** ** The report *)

Lemma append_assoc (a b c : string) : (a ++ b) ++ c = a ++ (b ++ c).
Proof. induction a as [| x a IH]; simpl; [reflexivity | now rewrite IH]. Qed.

(** [l[-1]] of a list that ends with [d] is [d]. *)
Lemma list_index_last {A : Type} (h : list A) (d : A) :
  list_index (h ++ [d]) (-1) = Ok d.
Proof.
  unfold list_index. rewrite last_length.
  change (-1 <? 0)%Z with true. cbv iota.
  replace (-1 + Z.of_nat (S (List.length h)))%Z
    with (Z.of_nat (List.length h)) by lia.
  rewrite Nat2Z.id.
  destruct (Z.leb_spec 0 (Z.of_nat (List.length h))); [| lia].
  destruct (Z.ltb_spec (Z.of_nat (List.length h))
                       (Z.of_nat (S (List.length h)))); [| lia].
  cbn. rewrite nth_error_app2 by lia. now rewrite Nat.sub_diag.
Qed.

(** The report of a history that ends with [d]: one write is asked for,
    and the answer follows its outcome. *)
Lemma generate_report_last
    (fs : filesystem) (h : list diagnosis) (d : diagnosis) (st : state) :
  diagnostics_history st = (h ++ [d])%list ->
  let content :=
    fold_left (fun r kv => r ++ report_line kv) (items d) report_banner in
  generate_report fs st
  = (match write_outcome fs "diagnostic_report.txt" content with
     | Ok _ => Ok report_saved_message
     | Raise e => Raise e
     end,
     emit (FileWrite "diagnostic_report.txt" content) st).
Proof.
  intros H content. unfold generate_report, bind, get_history. rewrite H.
  pose proof (list_index_last h d) as Hlast.
  destruct (h ++ [d])%list as [| x l] eqn:E; [destruct h; discriminate |].
  unfold lift. rewrite Hlast. unfold file_write, ret. fold content.
  now destruct (write_outcome fs "diagnostic_report.txt" content).
Qed.

(** The text of the report, line by line. *)
Lemma report_text (d : diagnosis) :
  fold_left (fun r kv => r ++ report_line kv) (items d) report_banner
  = nl ++ "--- Relatório de Diagnóstico ---" ++ nl ++
    "Reclamação do Cliente: " ++ py_str (customer_complaint d) ++ nl ++
    "Método de Diagnóstico: " ++ selected_method d ++ nl ++
    "Código de Falha: " ++ py_str (dtc_code d) ++ nl ++
    "Descrição do Código: " ++ dtc_description d ++ nl ++
    "Sintomas Relacionados: " ++ py_str (related_symptoms d) ++ nl ++
    "Área do Problema: " ++ py_str (problem_area d) ++ nl.
Proof.
  unfold items, report_line, report_banner. cbn [fold_left fst snd py_str].
  rewrite !append_assoc. reflexivity.
Qed.

(** C8 (as amended): on an empty history [generate_report] returns the
    fixed message and asks for no write; on a history whose most recent
    entry is [d] it asks for one write, to [diagnostic_report.txt], of
    the banner followed by one "key: value" line for each of the six
    fields of [d] in the order of the record; it returns the
    confirmation when the open and the write succeed, and raises their
    exception otherwise. *)
Theorem generate_report_renders_last_entry (fs : filesystem) (st : state) :
  (diagnostics_history st = [] ->
   generate_report fs st
   = (Ok "Nenhum diagnóstico disponível para gerar relatório.", st))
  /\
  (forall h d,
      diagnostics_history st = (h ++ [d])%list ->
      let content :=
        nl ++ "--- Relatório de Diagnóstico ---" ++ nl ++
        "Reclamação do Cliente: " ++ py_str (customer_complaint d) ++ nl ++
        "Método de Diagnóstico: " ++ selected_method d ++ nl ++
        "Código de Falha: " ++ py_str (dtc_code d) ++ nl ++
        "Descrição do Código: " ++ dtc_description d ++ nl ++
        "Sintomas Relacionados: " ++ py_str (related_symptoms d) ++ nl ++
        "Área do Problema: " ++ py_str (problem_area d) ++ nl in
      let st' :=
        State (codes st) (diagnostics_history st)
              (trace st ++ [FileWrite "diagnostic_report.txt" content])%list in
      (write_outcome fs "diagnostic_report.txt" content = Ok tt ->
       generate_report fs st
       = (Ok "Relatório gerado e salvo como 'diagnostic_report.txt'", st'))
      /\
      (forall e,
          write_outcome fs "diagnostic_report.txt" content = Raise e ->
          generate_report fs st = (Raise e, st'))).
Proof.
  split.
  - intros H. unfold generate_report, bind, get_history. now rewrite H.
  - intros h d H content st'.
    pose proof (generate_report_last fs h d st H) as Hrun.
    cbv zeta in Hrun. rewrite (report_text d) in Hrun.
    fold content in Hrun. rewrite Hrun.
    split; [intros Hw | intros e Hw]; now rewrite Hw.
Qed.

Lemma generate_report_renders_last_entry_witness :
  (diagnostics_history sample_state = [] /\
   generate_report utf8_files sample_state
   = (Ok "Nenhum diagnóstico disponível para gerar relatório.", sample_state))
  /\
  (diagnostics_history (State sample_table [sample_diagnosis] [])
   = ([] ++ [sample_diagnosis])%list /\
   fst (generate_report utf8_files (State sample_table [sample_diagnosis] []))
   = Ok "Relatório gerado e salvo como 'diagnostic_report.txt'" /\
   fst (generate_report read_only_files
          (State sample_table [sample_diagnosis] []))
   = Raise PermissionError).
Proof.
  split.
  - split; [reflexivity |].
    apply (proj1 (generate_report_renders_last_entry utf8_files sample_state)).
    reflexivity.
  - split; [reflexivity |]. split.
    + rewrite (proj1 (proj2 (generate_report_renders_last_entry utf8_files
                               (State sample_table [sample_diagnosis] []))
                        [] sample_diagnosis eq_refl) eq_refl).
      reflexivity.
    + rewrite (proj2 (proj2 (generate_report_renders_last_entry
                               read_only_files
                               (State sample_table [sample_diagnosis] []))
                        [] sample_diagnosis eq_refl)
                 PermissionError eq_refl).
      reflexivity.
Defined.

(** C8 (as stated) fails.  A request whose complaint is the text of the
    JSON string ["\ud83d"] leaves a record in the history, and the
    report of that record cannot be encoded in UTF-8: the write raises
    [UnicodeEncodeError] and no confirmation is returned. *)
Lemma report_of_surrogate_text_raises :
  diagnostics_history
    (snd (diagnose_vehicle failing_client (PyStr lone_surrogate) (PyInt 1)
            PyNone PyNone PyNone sample_state))
  = [surrogate_diagnosis] /\
  fst (generate_report utf8_files (State sample_table [surrogate_diagnosis] []))
  = Raise UnicodeEncodeError /\
  fst (generate_report utf8_files (State sample_table [surrogate_diagnosis] []))
  <> Ok "Relatório gerado e salvo como 'diagnostic_report.txt'".
Proof.
  split; [reflexivity |]. split; [reflexivity |].
  intros H. vm_compute in H. discriminate.
Qed.

(* ================================================================== *)
(** ** Stripping the markdown characters *)

Lemma strip_markdown_clean (s : string) (c : ascii) :
  is_markdown c = false ->
  strip_markdown (String c s) = String c (strip_markdown s).
Proof. intros H. simpl. now rewrite H. Qed.

(** C9: stripping the characters [* _ # ` ~] is idempotent: stripping a
    stripped text changes nothing. *)
Theorem strip_markdown_idempotent (s : string) :
  strip_markdown (strip_markdown s) = strip_markdown s.
Proof.
  induction s as [| c s IH]; [reflexivity |].
  simpl. destruct (is_markdown c) eqn:Hc; [exact IH |].
  rewrite strip_markdown_clean by exact Hc. now rewrite IH.
Qed.

(** What is left holds none of the five characters. *)
Lemma strip_markdown_removes_all (s : string) (c : ascii) :
  is_markdown c = true ->
  In c (list_ascii_of_string (strip_markdown s)) -> False.
Proof.
  intros Hc. induction s as [| x s IH]; simpl; [tauto |].
  destruct (is_markdown x) eqn:Hx; [exact IH |].
  simpl. intros [-> | H]; [congruence | auto].
Qed.

Example strip_sample :
  strip_markdown "## Check the **coil** `pack` ~now~_" = " Check the coil pack now".
Proof. reflexivity. Qed.

(* ================================================================== *)
(** ** More on the code table *)

Lemma py_eqb_refl (a : pyval) : py_eqb a a = true.
Proof.
  destruct a as [| b | z | s]; simpl;
    [reflexivity | now destruct b | apply Z.eqb_refl | apply String.eqb_refl].
Qed.

Lemma py_eqb_sym (a b : pyval) : py_eqb a b = py_eqb b a.
Proof.
  destruct a as [| x | x | x], b as [| y | y | y]; simpl; try reflexivity.
  - now destruct x, y.
  - apply Z.eqb_sym.
  - apply Z.eqb_sym.
  - apply Z.eqb_sym.
  - apply String.eqb_sym.
Qed.

(** Equal keys compare alike with every third key. *)
Lemma py_eqb_congr (a b c : pyval) :
  py_eqb a b = true -> py_eqb a c = py_eqb b c.
Proof.
  destruct a as [| x | x | x], b as [| y | y | y]; simpl;
    try discriminate; intros H.
  - reflexivity.
  - apply eqb_prop in H. now subst.
  - apply Z.eqb_eq in H. subst. destruct c as [| z | z | z]; simpl;
      try reflexivity. destruct x, z; reflexivity.
  - apply Z.eqb_eq in H. subst. destruct c as [| z | z | z]; simpl;
      try reflexivity. destruct y, z; reflexivity.
  - apply Z.eqb_eq in H. now subst.
  - apply String.eqb_eq in H. now subst.
Qed.

(** Lookup after an assignment. *)
Lemma dict_get_set (d : py_dict) (k v k' : pyval) :
  dict_get (dict_set d k v) k'
  = if py_eqb k k' then Some v else dict_get d k'.
Proof.
  induction d as [| [k0 v0] d IH]; simpl; [reflexivity |].
  destruct (py_eqb k0 k) eqn:Hk; simpl.
  - rewrite (py_eqb_congr k0 k k' Hk). now destruct (py_eqb k k').
  - rewrite IH. destruct (py_eqb k0 k') eqn:Hk'; [| reflexivity].
    destruct (py_eqb k k') eqn:Hkk'; [| reflexivity].
    assert (Habs : py_eqb k0 k = true)
      by (rewrite py_eqb_sym, (py_eqb_congr k k' k0 Hkk'), py_eqb_sym;
          exact Hk').
    congruence.
Qed.

Lemma dict_get_app (d1 d2 : py_dict) (k : pyval) :
  dict_get (d1 ++ d2)%list k
  = match dict_get d1 k with
    | Some v => Some v
    | None => dict_get d2 k
    end.
Proof.
  induction d1 as [| [k0 v0] d1 IH]; simpl; [reflexivity |].
  now destruct (py_eqb k0 k).
Qed.

Lemma dict_get_fold_set (kvs : list (pyval * pyval)) (d0 : py_dict) (k : pyval) :
  dict_get (fold_left (fun d kv => dict_set d (fst kv) (snd kv)) kvs d0) k
  = match dict_get (rev kvs) k with
    | Some v => Some v
    | None => dict_get d0 k
    end.
Proof.
  revert d0. induction kvs as [| [k1 v1] kvs IH]; intros d0; simpl;
    [reflexivity |].
  rewrite IH, dict_get_app, dict_get_set. simpl.
  destruct (dict_get (rev kvs) k); [reflexivity |].
  now destruct (py_eqb k1 k).
Qed.

Lemma key_in_set (d : py_dict) (k v k' : pyval) :
  key_in (dict_set d k v) k' = key_in d k' || py_eqb k k'.
Proof.
  induction d as [| [k0 v0] d IH]; simpl; [now rewrite orb_false_r |].
  destruct (py_eqb k0 k) eqn:Hk; simpl.
  - rewrite (py_eqb_congr k0 k k' Hk).
    destruct (py_eqb k k'); simpl; [reflexivity |].
    now rewrite orb_false_r.
  - fold (key_in (dict_set d k v) k'). rewrite IH. fold (key_in d k').
    now rewrite orb_assoc.
Qed.

Lemma keys_distinct_set (d : py_dict) (k v : pyval) :
  keys_distinct d = true -> keys_distinct (dict_set d k v) = true.
Proof.
  induction d as [| [k0 v0] d IH]; simpl; [reflexivity |].
  intros H. apply andb_true_iff in H as [Hin Hd].
  destruct (py_eqb k0 k) eqn:Hk; simpl.
  - now rewrite Hin, Hd.
  - rewrite key_in_set, IH by exact Hd.
    rewrite (py_eqb_sym k k0), Hk, orb_false_r. now rewrite Hin.
Qed.

Lemma keys_distinct_fold (kvs : list (pyval * pyval)) (d0 : py_dict) :
  keys_distinct d0 = true ->
  keys_distinct
    (fold_left (fun d kv => dict_set d (fst kv) (snd kv)) kvs d0) = true.
Proof.
  revert d0. induction kvs as [| kv kvs IH]; intros d0 H; simpl;
    [exact H |].
  apply IH. now apply keys_distinct_set.
Qed.

Lemma keys_distinct_loaded (read_csv : result dataframe) (table : py_dict) :
  load_codes read_csv = Ok table -> keys_distinct table = true.
Proof.
  unfold load_codes. destruct read_csv as [df | e].
  - destruct (has_column "code" df && has_column "description" df);
      [| discriminate].
    intros H. inversion H. now apply keys_distinct_fold.
  - destruct e; try discriminate. intros H. now inversion H.
Qed.

(** In a dict with distinct keys an entry is what its key looks up. *)
Lemma dict_get_entry (d : py_dict) (k v : pyval) :
  keys_distinct d = true -> In (k, v) d -> dict_get d k = Some v.
Proof.
  induction d as [| [k0 v0] d IH]; simpl; [tauto |].
  intros H Hin. apply andb_true_iff in H as [Hk0 Hd].
  destruct Hin as [Heq | Hin].
  - inversion Heq. subst. now rewrite py_eqb_refl.
  - destruct (py_eqb k0 k) eqn:Hk; [| now apply IH].
    apply negb_true_iff in Hk0. unfold key_in in Hk0.
    assert (Hex : existsb (fun kv => py_eqb (fst kv) k0) d = true).
    { apply existsb_exists. exists (k, v). split; [exact Hin |].
      simpl. now rewrite py_eqb_sym. }
    congruence.
Qed.

(** X1: in the table loaded from a frame that has both columns, a key
    looks up the description of the last row that carries it: of rows
    with the same code the last one wins. *)
Theorem load_codes_last_row_wins
    (df : dataframe) (table : py_dict) (k : pyval) :
  load_codes (Ok df) = Ok table ->
  dict_get table k
  = dict_get (rev (combine (column "code" df) (column "description" df))) k.
Proof.
  unfold load_codes.
  destruct (has_column "code" df && has_column "description" df);
    [| discriminate].
  intros H. inversion H. unfold dict_of_pairs.
  rewrite dict_get_fold_set.
  now destruct (dict_get (rev (combine (column "code" df)
                                       (column "description" df))) k).
Qed.

Lemma load_codes_last_row_wins_witness :
  load_codes (Ok duplicate_frame)
  = Ok [(PyStr "P0300", PyStr "second"); (PyStr "P0171", PyStr "lean")] /\
  dict_get [(PyStr "P0300", PyStr "second"); (PyStr "P0171", PyStr "lean")]
           (PyStr "P0300")
  = Some (PyStr "second").
Proof.
  split; [reflexivity |].
  rewrite (load_codes_last_row_wins duplicate_frame
             [(PyStr "P0300", PyStr "second"); (PyStr "P0171", PyStr "lean")]
             (PyStr "P0300") eq_refl).
  reflexivity.
Defined.

(** X2: whatever the read gave, a loaded table has no two entries with
    equal keys, and it has no more entries than the source has rows. *)
Theorem load_codes_keys_distinct
    (read_csv : result dataframe) (table : py_dict) :
  load_codes read_csv = Ok table ->
  keys_distinct table = true /\
  forall df, read_csv = Ok df ->
             (List.length table <= List.length (column "code" df))%nat.
Proof.
  intros H. split; [now apply (keys_distinct_loaded read_csv) |].
  intros df ->. unfold load_codes in H.
  destruct (has_column "code" df && has_column "description" df);
    [| discriminate].
  inversion H. unfold dict_of_pairs.
  assert (Hlen : forall kvs d0,
             (List.length (fold_left (fun d kv => dict_set d (fst kv) (snd kv))
                                     kvs d0)
              <= List.length d0 + List.length kvs)%nat).
  { induction kvs as [| kv kvs IH]; intros d0; simpl; [lia |].
    specialize (IH (dict_set d0 (fst kv) (snd kv))).
    assert (Hset : (List.length (dict_set d0 (fst kv) (snd kv))
                    <= S (List.length d0))%nat).
    { clear. induction d0 as [| [k0 v0] d0 IH]; simpl; [lia |].
      destruct (py_eqb k0 (fst kv)); simpl; lia. }
    lia. }
  specialize (Hlen (combine (column "code" df) (column "description" df)) []).
  rewrite length_combine in Hlen. simpl in Hlen. lia.
Qed.

Lemma load_codes_keys_distinct_witness :
  load_codes (Ok duplicate_frame)
  = Ok [(PyStr "P0300", PyStr "second"); (PyStr "P0171", PyStr "lean")] /\
  keys_distinct [(PyStr "P0300", PyStr "second"); (PyStr "P0171", PyStr "lean")]
  = true /\
  (2 <= 3)%nat.
Proof.
  split; [reflexivity |].
  destruct (load_codes_keys_distinct (Ok duplicate_frame) _ eq_refl)
    as [Hk Hlen].
  split; [exact Hk | exact (Hlen duplicate_frame eq_refl)].
Defined.

(** X3: what [GET /codes] lists, [GET /search_code] finds.  On a system
    whose table was loaded, every listed object whose code is a string
    in upper case and whose description is truthy is answered in the
    hit format with exactly that description. *)
Theorem listed_code_is_found
    (read_csv : result dataframe) (st : state)
    (listing : list (list (string * pyval)))
    (k : string) (description : pyval) :
  load_codes read_csv = Ok (codes st) ->
  fst (Routes.get_all_codes st) = Ok listing ->
  In [("code", PyStr k); ("description", description)] listing ->
  upper k = k ->
  py_truthy description = true ->
  Routes.search_code [("code", k)] st
  = (Ok ("Código: " ++ k ++ nl ++ "Descrição: " ++ py_str description), st).
Proof.
  intros Hload Hlist Hin Hup Htrue.
  unfold Routes.get_all_codes, bind, get_codes, ret in Hlist. cbn in Hlist.
  inversion Hlist. subst listing. clear Hlist.
  apply in_map_iff in Hin as ([k0 v0] & Heq & Hin). cbn in Heq.
  inversion Heq. subst k0 v0.
  unfold Routes.search_code, bind, get_codes, lift. cbn.
  unfold search_code, py_upper. rewrite Hup.
  rewrite (dict_get_entry (codes st) (PyStr k) description
             (keys_distinct_loaded read_csv (codes st) Hload) Hin).
  now rewrite Htrue.
Qed.

Lemma listed_code_is_found_witness :
  load_codes (Ok sample_frame) = Ok (codes sample_state) /\
  fst (Routes.get_all_codes sample_state)
  = Ok [ [("code", PyStr "P0300");
          ("description", PyStr "Random/Multiple Cylinder Misfire Detected")];
         [("code", PyStr "P0171"); ("description", PyStr "System Too Lean")] ]
  /\
  upper "P0171" = "P0171" /\
  py_truthy (PyStr "System Too Lean") = true /\
  Routes.search_code [("code", "P0171")] sample_state
  = (Ok ("Código: P0171" ++ nl ++ "Descrição: System Too Lean"), sample_state).
Proof.
  split; [reflexivity |]. split; [reflexivity |].
  split; [reflexivity |]. split; [reflexivity |].
  apply (listed_code_is_found (Ok sample_frame) sample_state
           _ "P0171" (PyStr "System Too Lean") eq_refl eq_refl);
    [right; left; reflexivity | reflexivity | reflexivity].
Defined.

(* ------------------------------------------------------------------ *)
(** *** More on [search_code] *)

Lemma args_get_missing (args : list (string * string)) (key : string) :
  (forall v, ~ In (key, v) args) -> args_get args key = PyNone.
Proof.
  induction args as [| [k v] args IH]; simpl; intros H; [reflexivity |].
  destruct (String.eqb_spec k key) as [-> | _].
  - exfalso. apply (H v). now left.
  - apply IH. intros w Hw. apply (H w). now right.
Qed.

Lemma args_get_present (args : list (string * string)) (key v : string) :
  In (key, v) args -> exists w, args_get args key = PyStr w.
Proof.
  induction args as [| [k0 v0] args IH]; simpl; [tauto |].
  intros [Heq | Hin].
  - inversion Heq. subst. rewrite String.eqb_refl. now exists v.
  - destruct (String.eqb k0 key); [now exists v0 | now apply IH].
Qed.

Lemma search_code_string_returns (table : py_dict) (c : string) :
  exists text, search_code table (PyStr c) = Ok text.
Proof.
  unfold search_code, py_upper.
  destruct (dict_get table (PyStr (upper c))) as [v |];
    [destruct (py_truthy v) |]; eexists; reflexivity.
Qed.

(** X4: [GET /search_code] without the parameter [code] raises
    [AttributeError]; with it the request always gets an answer; in
    neither case does the system change. *)
Theorem search_route_needs_code (args : list (string * string)) (st : state) :
  ((forall v, ~ In ("code", v) args) ->
   Routes.search_code args st = (Raise AttributeError, st))
  /\
  (forall v, In ("code", v) args ->
             exists text, Routes.search_code args st = (Ok text, st)).
Proof.
  unfold Routes.search_code, bind, get_codes, lift. cbn. split.
  - intros H. now rewrite (args_get_missing args "code" H).
  - intros v Hin.
    destruct (args_get_present args "code" v Hin) as (w & ->).
    destruct (search_code_string_returns (codes st) w) as (text & ->).
    now exists text.
Qed.

Lemma search_route_needs_code_witness :
  ((forall v, ~ In ("code", v) [("q", "P0300")]) /\
   Routes.search_code [("q", "P0300")] sample_state
   = (Raise AttributeError, sample_state))
  /\
  (In ("code", "p0171") [("code", "p0171")] /\
   exists text,
     Routes.search_code [("code", "p0171")] sample_state
     = (Ok text, sample_state)).
Proof.
  assert (Hno : forall v : string, ~ In ("code", v) [("q", "P0300")]).
  { intros v [H | []]. discriminate. }
  split.
  - split; [exact Hno |].
    exact (proj1 (search_route_needs_code [("q", "P0300")] sample_state) Hno).
  - split; [left; reflexivity |].
    apply (proj2 (search_route_needs_code [("code", "p0171")] sample_state)
             "p0171").
    left. reflexivity.
Defined.

Lemma hit_is_not_miss (u u' : string) (d : pyval) :
  hit_format u d <> miss_format u'.
Proof. unfold hit_format, miss_format. simpl. discriminate. Qed.

(** X5: the answer to a string is in the miss format exactly when the
    uppercased code is not a key of the table or its description is
    falsy; the hit and miss formats never coincide. *)
Theorem search_code_miss_iff (table : py_dict) (c : string) :
  search_code table (PyStr c) = Ok (miss_format (upper c))
  <->
  (dict_get table (PyStr (upper c)) = None \/
   exists description,
     dict_get table (PyStr (upper c)) = Some description /\
     py_truthy description = false).
Proof.
  unfold search_code, py_upper.
  destruct (dict_get table (PyStr (upper c))) as [v |].
  - destruct (py_truthy v) eqn:Hv; split.
    + intros H. exfalso.
      apply (hit_is_not_miss (upper c) (upper c) v). congruence.
    + intros [H | (w & H & Hw)]; [discriminate | congruence].
    + intros _. right. now exists v.
    + reflexivity.
  - split; [now left | reflexivity].
Qed.

Lemma search_code_miss_iff_witness :
  search_code sample_table (PyStr "b1234") = Ok (miss_format (upper "b1234"))
  /\ dict_get sample_table (PyStr (upper "b1234")) = None.
Proof.
  split; [| reflexivity].
  apply (proj2 (search_code_miss_iff sample_table "b1234")).
  left. reflexivity.
Defined.

(* ================================================================== *)
(** ** More on the diagnosis request *)

Lemma list_index_in {A : Type} (l : list A) (i : Z) (a : A) :
  list_index l i = Ok a -> In a l.
Proof.
  unfold list_index.
  destruct (_ && _)%bool; [| discriminate].
  destruct (nth_error l _) eqn:Hnth; [| discriminate].
  intros H. inversion H. subst. eapply nth_error_In. exact Hnth.
Qed.

Lemma select_method_known (mc : pyval) (method : string) :
  select_method mc = Ok method -> In method diagnostic_methods.
Proof.
  unfold select_method. destruct (py_sub1 mc); [| discriminate].
  apply list_index_in.
Qed.

(** The request as a function of its three steps. *)
Lemma diagnose_vehicle_steps
    (client : service) (c mc dtc s a : pyval) (st : state)
    (method description : string) :
  select_method mc = Ok method ->
  (if py_truthy dtc then search_code (codes st) dtc else Ok "N/A")
  = Ok description ->
  let d := Diagnosis c method dtc description s a in
  let st1 := State (codes st) (diagnostics_history st ++ [d])%list
                   (trace st ++ [HistoryAppend d])%list in
  diagnose_vehicle client c mc dtc s a st
  = match get_chatbot_solution client d st1 with
    | (Ok text, st2) => (Ok (Response d text), st2)
    | (Raise e, st2) => (Raise e, st2)
    end.
Proof.
  intros Hm Hd d st1.
  unfold diagnose_vehicle, bind, lift, get_codes, history_append, ret.
  rewrite Hm, Hd. fold d. fold st1.
  now destruct (get_chatbot_solution client d st1) as [[text | e] st2].
Qed.

Lemma diagnose_vehicle_no_description
    (client : service) (c mc dtc s a : pyval) (st : state)
    (method : string) (e : pyexn) :
  select_method mc = Ok method ->
  (if py_truthy dtc then search_code (codes st) dtc else Ok "N/A")
  = Raise e ->
  diagnose_vehicle client c mc dtc s a st = (Raise e, st).
Proof.
  intros Hm Hd. unfold diagnose_vehicle, bind, lift, get_codes.
  now rewrite Hm, Hd.
Qed.

(** X7: a code that is truthy but not a string (a JSON number or [true])
    makes the request raise [AttributeError] once the method is
    selected, and nothing has happened by then: no entry, no request to
    the service. *)
Theorem diagnose_code_not_a_string
    (client : service) (c mc dtc s a : pyval) (st : state) (method : string) :
  select_method mc = Ok method ->
  py_truthy dtc = true ->
  (forall code, dtc <> PyStr code) ->
  diagnose_vehicle client c mc dtc s a st = (Raise AttributeError, st).
Proof.
  intros Hm Htrue Hstr.
  apply (diagnose_vehicle_no_description client c mc dtc s a st method);
    [exact Hm |].
  rewrite Htrue. destruct dtc as [| b | z | code]; try reflexivity.
  now elim (Hstr code).
Qed.

Lemma diagnose_code_not_a_string_witness :
  select_method (PyInt 1) = Ok "Verificar a Reclamação" /\
  py_truthy (PyInt 300) = true /\
  (forall code, PyInt 300 <> PyStr code) /\
  diagnose_vehicle failing_client (PyStr "Stalls") (PyInt 1) (PyInt 300)
                   PyNone PyNone sample_state
  = (Raise AttributeError, sample_state).
Proof.
  split; [reflexivity |]. split; [reflexivity |].
  split; [discriminate |].
  apply (diagnose_code_not_a_string failing_client (PyStr "Stalls") (PyInt 1)
           (PyInt 300) PyNone PyNone sample_state "Verificar a Reclamação");
    [reflexivity | reflexivity | discriminate].
Defined.



Lemma diagnose_vehicle_by_method
    (client : service) (c mc mc' dtc s a : pyval) (st : state) :
  select_method mc = select_method mc' ->
  diagnose_vehicle client c mc dtc s a st
  = diagnose_vehicle client c mc' dtc s a st.
Proof. intros H. unfold diagnose_vehicle. now rewrite H. Qed.

(** X9: a method choice [z] in -5..0 is read from the end of the list of
    labels: the request runs exactly as with the choice [z + 6]. *)
Theorem negative_method_choice_wraps
    (client : service) (z : Z) (c dtc s a : pyval) (st : state) :
  (-5 <= z <= 0)%Z ->
  diagnose_vehicle client c (PyInt z) dtc s a st
  = diagnose_vehicle client c (PyInt (z + 6)) dtc s a st.
Proof.
  intros Hz. apply diagnose_vehicle_by_method.
  assert (H : (z = -5 \/ z = -4 \/ z = -3 \/ z = -2 \/ z = -1 \/ z = 0)%Z)
    by lia.
  destruct H as [-> | [-> | [-> | [-> | [-> | ->]]]]]; reflexivity.
Qed.

Lemma negative_method_choice_wraps_witness :
  (-5 <= -2 <= 0)%Z /\
  sample_request failing_client (PyInt (-2)) sample_state
  = sample_request failing_client (PyInt 4) sample_state.
Proof.
  split; [lia |].
  apply (negative_method_choice_wraps failing_client (-2)). lia.
Defined.

(** X10: a boolean method choice counts as the integer it stands for:
    [true] runs as the choice 1 and selects the first label, [false]
    runs as the choice 0 and selects the last one. *)
Theorem boolean_method_choice
    (client : service) (b : bool) (c dtc s a : pyval) (st : state) :
  diagnose_vehicle client c (PyBool b) dtc s a st
  = diagnose_vehicle client c (PyInt (int_of_bool b)) dtc s a st /\
  select_method (PyBool b)
  = Ok (if b then "Verificar a Reclamação"
        else "Certificar que a Operação Está Adequada").
Proof.
  split; [apply diagnose_vehicle_by_method; reflexivity |].
  now destruct b.
Qed.

(** X11: whatever the request and whatever the service does, a request
    keeps the code table, keeps every entry of the history in place and
    adds at most one entry, which carries one of the six labels; the
    effects so far are kept too. *)
Theorem diagnose_vehicle_keeps_table_and_history
    (client : service) (c mc dtc s a : pyval) (st : state) :
  let st' := snd (diagnose_vehicle client c mc dtc s a st) in
  codes st' = codes st /\
  exists added events,
    diagnostics_history st' = (diagnostics_history st ++ added)%list /\
    (List.length added <= 1)%nat /\
    Forall has_known_method added /\
    trace st' = (trace st ++ events)%list.
Proof.
  cbv zeta.
  destruct (select_method mc) as [method | e] eqn:Hm.
  - destruct (if py_truthy dtc then search_code (codes st) dtc else Ok "N/A")
      as [description | e] eqn:Hd.
    + destruct (diagnose_vehicle_run client c mc dtc s a st method description
                  Hm Hd) as (r & rest & Hrun & _).
      cbv zeta in Hrun. rewrite Hrun. cbn. split; [reflexivity |].
      eexists [_], _. split; [reflexivity |]. split; [cbn; lia |].
      split; [| reflexivity].
      constructor; [| constructor]. unfold has_known_method. cbn.
      now apply (select_method_known mc).
    + rewrite (diagnose_vehicle_no_description client c mc dtc s a st
                 method e Hm Hd).
      cbn. split; [reflexivity |]. exists [], [].
      rewrite !app_nil_r. repeat split; [cbn; lia | constructor].
  - rewrite (diagnose_vehicle_no_method client c mc dtc s a st e Hm).
    cbn. split; [reflexivity |]. exists [], [].
    rewrite !app_nil_r. repeat split; [cbn; lia | constructor].
Qed.

(* ================================================================== *)
(** ** More on the suggestion call *)

Lemma strip_markdown_app (a b : string) :
  strip_markdown (a ++ b) = strip_markdown a ++ strip_markdown b.
Proof.
  induction a as [| x a IH]; simpl; [reflexivity |].
  destruct (is_markdown x); simpl; now rewrite IH.
Qed.

Lemma no_markdown_strip (s : string) : no_markdown (strip_markdown s) = true.
Proof.
  induction s as [| x s IH]; simpl; [reflexivity |].
  destruct (is_markdown x) eqn:Hx; simpl; [exact IH |].
  now rewrite Hx, IH.
Qed.

Lemma strip_markdown_length (s : string) :
  (String.length (strip_markdown s) <= String.length s)%nat.
Proof.
  induction s as [| x s IH]; simpl; [lia |].
  destruct (is_markdown x); simpl; lia.
Qed.

(** X12: stripping the replies joined by newlines is joining the
    stripped replies: the newline is not one of the five characters, so
    the lines of the suggestion are the stripped texts. *)
Theorem strip_markdown_of_joined (texts : list string) :
  strip_markdown (String.concat nl texts)
  = String.concat nl (map strip_markdown texts).
Proof.
  induction texts as [| t texts IH]; [reflexivity |].
  destruct texts as [| t' texts]; [reflexivity |].
  change (String.concat nl (t :: t' :: texts))
    with (t ++ nl ++ String.concat nl (t' :: texts)).
  change (String.concat nl (map strip_markdown (t :: t' :: texts)))
    with (strip_markdown t ++ nl
          ++ String.concat nl (map strip_markdown (t' :: texts))).
  rewrite !strip_markdown_app, IH. reflexivity.
Qed.

(** X13: the texts that stripping leaves as they are are exactly those
    without any of the five characters; every other text gets
    shorter. *)
Theorem strip_markdown_fixed_iff (s : string) :
  (strip_markdown s = s <-> no_markdown s = true) /\
  (no_markdown s = false ->
   (String.length (strip_markdown s) < String.length s)%nat).
Proof.
  induction s as [| x s [IHiff IHlt]]; simpl.
  - split; [tauto | discriminate].
  - pose proof (strip_markdown_length s) as Hlen.
    destruct (is_markdown x) eqn:Hx; simpl.
    + split; [| intros _; lia]. split; [| discriminate].
      intros H. apply (f_equal String.length) in H. simpl in H. lia.
    + split.
      * split.
        -- intros H. inversion H as [Heq]. rewrite !Heq. now apply IHiff.
        -- intros H. f_equal. now apply IHiff.
      * intros H. apply IHlt in H. lia.
Qed.

Lemma strip_markdown_fixed_iff_witness :
  (no_markdown "Check the coil" = true /\
   strip_markdown "Check the coil" = "Check the coil")
  /\
  (no_markdown "**coil**" = false /\
   (String.length (strip_markdown "**coil**") < String.length "**coil**")%nat).
Proof.
  split.
  - split; [reflexivity |].
    apply (proj2 (proj1 (strip_markdown_fixed_iff "Check the coil"))).
    reflexivity.
  - split; [reflexivity |].
    apply (proj2 (strip_markdown_fixed_iff "**coil**")). reflexivity.
Defined.

(** A suggestion that is returned holds none of the five characters. *)
Lemma get_chatbot_solution_clean
    (client : service) (d : diagnosis) (st : state) (text : string) :
  fst (get_chatbot_solution client d st) = Ok text ->
  no_markdown text = true.
Proof.
  unfold get_chatbot_solution. generalize (prompt_of d). intros prompt.
  unfold bind, api, emit, ret. cbn.
  destruct (assistants_create client); cbn; [| discriminate].
  destruct (threads_create client); cbn; [| discriminate].
  destruct (messages_create client prompt); cbn; [| discriminate].
  destruct (runs_create_and_poll client prompt) as [status |]; cbn;
    [| discriminate].
  destruct (String.eqb status "completed"); cbn.
  - destruct (messages_list client prompt) as [msgs |]; cbn; [| discriminate].
    destruct (assistants_delete client); cbn; [| discriminate].
    intros H. inversion H. apply no_markdown_strip.
  - destruct (assistants_delete client); cbn; [| discriminate].
    intros H. inversion H. reflexivity.
Qed.

(** X14: a request that returns has appended exactly the record it
    returns; the record carries the complaint, code, symptoms and area
    of the request unchanged and one of the six labels; and the
    suggestion returned holds none of the characters [* _ # ` ~]. *)
Theorem returned_response_is_recorded
    (client : service) (c mc dtc s a : pyval) (st : state) (resp : response) :
  fst (diagnose_vehicle client c mc dtc s a st) = Ok resp ->
  let d := resp_diagnosis resp in
  diagnostics_history (snd (diagnose_vehicle client c mc dtc s a st))
  = (diagnostics_history st ++ [d])%list /\
  customer_complaint d = c /\ dtc_code d = dtc /\
  related_symptoms d = s /\ problem_area d = a /\
  has_known_method d /\
  no_markdown (resp_suggestion resp) = true.
Proof.
  destruct (select_method mc) as [method | e] eqn:Hm.
  - destruct (if py_truthy dtc then search_code (codes st) dtc else Ok "N/A")
      as [description | e] eqn:Hd.
    + rewrite (diagnose_vehicle_steps client c mc dtc s a st method
                 description Hm Hd).
      cbv zeta.
      set (d := Diagnosis c method dtc description s a).
      set (st1 := State _ _ _).
      pose proof (get_chatbot_solution_clean client d st1) as Hclean.
      destruct (get_chatbot_solution_effects client d st1)
        as (rest & Hst & _).
      destruct (get_chatbot_solution client d st1) as [[text | e] st2];
        cbn; [| discriminate].
      intros H. inversion H. subst resp. cbn in Hst. subst st2. cbn.
      repeat split; try reflexivity.
      * unfold has_known_method. cbn. now apply (select_method_known mc).
      * now apply Hclean.
    + rewrite (diagnose_vehicle_no_description client c mc dtc s a st
                 method e Hm Hd). discriminate.
  - rewrite (diagnose_vehicle_no_method client c mc dtc s a st e Hm).
    discriminate.
Qed.

Lemma returned_response_is_recorded_witness :
  fst (sample_request (completed_client "Check the **coil**") (PyInt 4)
         sample_state)
  = Ok (Response sample_diagnosis "Check the coil") /\
  diagnostics_history
    (snd (sample_request (completed_client "Check the **coil**") (PyInt 4)
            sample_state))
  = [sample_diagnosis] /\
  no_markdown "Check the coil" = true.
Proof.
  split; [reflexivity |].
  destruct (returned_response_is_recorded
              (completed_client "Check the **coil**")
              (PyStr "Engine shakes") (PyInt 4) (PyStr "p0300")
              (PyStr "Rough idle") (PyStr "Ignition") sample_state
              (Response sample_diagnosis "Check the coil") eq_refl)
    as (Hh & _ & _ & _ & _ & _ & Hclean).
  split; [exact Hh | exact Hclean].
Defined.

(** X15: when every operation of the service returns and the run ends in
    a state other than [completed], the suggestion is the fixed fallback
    text; the messages of the thread are not asked for, and the
    assistant is deleted. *)
Theorem run_not_completed_gives_fallback
    (client : service) (d : diagnosis) (st : state) (status : string) :
  assistants_create client = Ok tt ->
  threads_create client = Ok tt ->
  messages_create client (prompt_of d) = Ok tt ->
  runs_create_and_poll client (prompt_of d) = Ok status ->
  status <> "completed" ->
  assistants_delete client = Ok tt ->
  get_chatbot_solution client d st
  = (Ok "Ocorreu um erro ao processar a solicitação. Tente novamente.",
     State (codes st) (diagnostics_history st)
       (trace st ++
        [ ApiRequest AssistantsCreate; ApiRequest ThreadsCreate;
          ApiRequest (MessagesCreate (prompt_of d));
          ApiRequest RunsCreateAndPoll; ApiRequest AssistantsDelete ])%list).
Proof.
  intros Hc Ht Hm Hr Hs Hd.
  unfold get_chatbot_solution.
  set (prompt := prompt_of d) in *. clearbody prompt.
  unfold bind, api, emit, ret. cbn.
  rewrite Hc, Ht. cbn. rewrite Hm. cbn. rewrite Hr. cbn.
  destruct (String.eqb_spec status "completed") as [-> | _];
    [now elim Hs |].
  cbn. rewrite Hd. cbn. rewrite <- !app_assoc. reflexivity.
Qed.

Lemma run_not_completed_gives_fallback_witness :
  assistants_create failing_client = Ok tt /\
  threads_create failing_client = Ok tt /\
  messages_create failing_client (prompt_of sample_diagnosis) = Ok tt /\
  runs_create_and_poll failing_client (prompt_of sample_diagnosis)
  = Ok "failed" /\
  "failed" <> "completed" /\
  assistants_delete failing_client = Ok tt /\
  fst (get_chatbot_solution failing_client sample_diagnosis sample_state)
  = Ok "Ocorreu um erro ao processar a solicitação. Tente novamente.".
Proof.
  repeat (split; [first [reflexivity | discriminate] |]).
  rewrite (run_not_completed_gives_fallback failing_client sample_diagnosis
             sample_state "failed" eq_refl eq_refl eq_refl eq_refl);
    [reflexivity | discriminate | reflexivity].
Defined.

(** X16: a suggestion call that returns has deleted the assistant it
    created: the delete is its last request and its only delete. *)
Theorem assistant_deleted_when_call_returns
    (client : service) (d : diagnosis) (st : state) (text : string) :
  fst (get_chatbot_solution client d st) = Ok text ->
  exists before,
    trace (snd (get_chatbot_solution client d st))
    = (trace st ++ ApiRequest AssistantsCreate :: before
       ++ [delete_request])%list /\
    existsb is_delete_request before = false.
Proof.
  unfold get_chatbot_solution. generalize (prompt_of d). intros prompt.
  unfold bind, api, emit, ret. cbn.
  destruct (assistants_create client); cbn; [| discriminate].
  destruct (threads_create client); cbn; [| discriminate].
  destruct (messages_create client prompt); cbn; [| discriminate].
  destruct (runs_create_and_poll client prompt) as [status |]; cbn;
    [| discriminate].
  destruct (String.eqb status "completed"); cbn.
  - destruct (messages_list client prompt) as [msgs |]; cbn; [| discriminate].
    destruct (assistants_delete client); cbn; [| discriminate].
    intros _.
    exists [ ApiRequest ThreadsCreate; ApiRequest (MessagesCreate prompt);
             ApiRequest RunsCreateAndPoll; ApiRequest MessagesList ].
    rewrite <- !app_assoc. split; reflexivity.
  - destruct (assistants_delete client); cbn; [| discriminate].
    intros _.
    exists [ ApiRequest ThreadsCreate; ApiRequest (MessagesCreate prompt);
             ApiRequest RunsCreateAndPoll ].
    rewrite <- !app_assoc. split; reflexivity.
Qed.

Lemma assistant_deleted_when_call_returns_witness :
  fst (get_chatbot_solution (completed_client "ok") sample_diagnosis
         sample_state) = Ok "ok" /\
  exists before,
    trace (snd (get_chatbot_solution (completed_client "ok") sample_diagnosis
                  sample_state))
    = (ApiRequest AssistantsCreate :: before ++ [delete_request])%list /\
    existsb is_delete_request before = false.
Proof.
  split; [reflexivity |].
  exact (assistant_deleted_when_call_returns (completed_client "ok")
           sample_diagnosis sample_state "ok" eq_refl).
Defined.

(** X17: a suggestion call that raises an exception which is not the one
    of the delete operation has made no delete request: the assistant it
    created, if any, is left on the service. *)
Theorem assistant_left_when_call_raises
    (client : service) (d : diagnosis) (st : state) (e : pyexn) :
  fst (get_chatbot_solution client d st) = Raise e ->
  assistants_delete client <> Raise e ->
  exists events,
    trace (snd (get_chatbot_solution client d st))
    = (trace st ++ events)%list /\
    existsb is_delete_request events = false.
Proof.
  unfold get_chatbot_solution. generalize (prompt_of d). intros prompt.
  unfold bind, api, emit, ret. cbn.
  destruct (assistants_create client); cbn;
    [| intros _ _; eexists; split; reflexivity].
  destruct (threads_create client); cbn;
    [| intros _ _; eexists; rewrite <- ?app_assoc; split; reflexivity].
  destruct (messages_create client prompt); cbn;
    [| intros _ _; eexists; rewrite <- ?app_assoc; split; reflexivity].
  destruct (runs_create_and_poll client prompt) as [status |]; cbn;
    [| intros _ _; eexists; rewrite <- ?app_assoc; split; reflexivity].
  destruct (String.eqb status "completed"); cbn.
  - destruct (messages_list client prompt) as [msgs |]; cbn;
      [| intros _ _; eexists; rewrite <- ?app_assoc; split; reflexivity].
    destruct (assistants_delete client) as [| e0]; cbn; [discriminate |].
    intros H Hdel. inversion H. subst. now elim Hdel.
  - destruct (assistants_delete client) as [| e0]; cbn; [discriminate |].
    intros H Hdel. inversion H. subst. now elim Hdel.
Qed.

Lemma assistant_left_when_call_raises_witness :
  let client :=
    Service (Ok tt) (Raise (ExnOther "APIConnectionError"))
            (fun _ => Ok tt) (fun _ => Ok "completed")
            (fun _ => Ok []) (Ok tt) in
  fst (get_chatbot_solution client sample_diagnosis sample_state)
  = Raise (ExnOther "APIConnectionError") /\
  assistants_delete client <> Raise (ExnOther "APIConnectionError") /\
  exists events,
    trace (snd (get_chatbot_solution client sample_diagnosis sample_state))
    = events /\
    existsb is_delete_request events = false.
Proof.
  cbv zeta. split; [reflexivity |]. split; [discriminate |].
  apply (assistant_left_when_call_raises
           (Service (Ok tt) (Raise (ExnOther "APIConnectionError"))
                    (fun _ => Ok tt) (fun _ => Ok "completed")
                    (fun _ => Ok []) (Ok tt))
           sample_diagnosis sample_state (ExnOther "APIConnectionError"));
    [reflexivity | discriminate].
Defined.

(* ================================================================== *)
(** ** More on the report *)

(** X18: after a request whose method is selected and whose code is
    described, the report asked for is the report of that request's
    record, also when the suggestion call raised and the request itself
    failed; the answer is the confirmation when the write succeeds and
    the exception of the write otherwise. *)
Theorem report_after_request
    (client : service) (fs : filesystem) (c mc dtc s a : pyval) (st : state)
    (method description : string) :
  select_method mc = Ok method ->
  (if py_truthy dtc then search_code (codes st) dtc else Ok "N/A")
  = Ok description ->
  let d := Diagnosis c method dtc description s a in
  let st' := snd (diagnose_vehicle client c mc dtc s a st) in
  let content :=
    fold_left (fun r kv => r ++ report_line kv) (items d) report_banner in
  generate_report fs st'
  = (match write_outcome fs "diagnostic_report.txt" content with
     | Ok _ => Ok "Relatório gerado e salvo como 'diagnostic_report.txt'"
     | Raise e => Raise e
     end,
     State (codes st) (diagnostics_history st ++ [d])%list
       (trace st' ++ [FileWrite "diagnostic_report.txt" content])%list).
Proof.
  intros Hm Hd d st' content. subst st'.
  destruct (diagnose_vehicle_run client c mc dtc s a st method description
              Hm Hd) as (r & rest & Hrun & _).
  fold d in Hrun. rewrite Hrun. cbn [snd].
  now rewrite (generate_report_last fs (diagnostics_history st) d).
Qed.

Lemma report_after_request_witness :
  select_method (PyInt 4) = Ok "Isolar a Área do Problema" /\
  (if py_truthy (PyStr "p0300")
   then search_code (codes sample_state) (PyStr "p0300") else Ok "N/A")
  = Ok (dtc_description sample_diagnosis) /\
  fst (sample_request broken_client (PyInt 4) sample_state)
  = Raise AttributeError /\
  fst (generate_report utf8_files
         (snd (sample_request broken_client (PyInt 4) sample_state)))
  = Ok "Relatório gerado e salvo como 'diagnostic_report.txt'" /\
  fst (generate_report read_only_files
         (snd (sample_request broken_client (PyInt 4) sample_state)))
  = Raise PermissionError.
Proof.
  split; [reflexivity |]. split; [reflexivity |]. split; [reflexivity |].
  unfold sample_request. split.
  - rewrite (report_after_request broken_client utf8_files
               (PyStr "Engine shakes") (PyInt 4) (PyStr "p0300")
               (PyStr "Rough idle") (PyStr "Ignition") sample_state
               "Isolar a Área do Problema" (dtc_description sample_diagnosis)
               eq_refl eq_refl).
    reflexivity.
  - rewrite (report_after_request broken_client read_only_files
               (PyStr "Engine shakes") (PyInt 4) (PyStr "p0300")
               (PyStr "Rough idle") (PyStr "Ignition") sample_state
               "Isolar a Área do Problema" (dtc_description sample_diagnosis)
               eq_refl eq_refl).
    reflexivity.
Defined.

(** X19: [generate_report] never touches the table or the history.  On
    an empty history it asks for no write and returns; on any other it
    asks for exactly one write, to [diagnostic_report.txt], and it
    raises only when that write does, with the exception of the
    write. *)
Theorem generate_report_keeps_state (fs : filesystem) (st : state) :
  let st' := snd (generate_report fs st) in
  codes st' = codes st /\
  diagnostics_history st' = diagnostics_history st /\
  (diagnostics_history st = [] /\ trace st' = trace st /\
   (exists message, fst (generate_report fs st) = Ok message)
   \/
   diagnostics_history st <> [] /\
   exists content,
     trace st'
     = (trace st ++ [FileWrite "diagnostic_report.txt" content])%list /\
     (write_outcome fs "diagnostic_report.txt" content = Ok tt ->
      exists message, fst (generate_report fs st) = Ok message) /\
     (forall e, fst (generate_report fs st) = Raise e ->
                write_outcome fs "diagnostic_report.txt" content = Raise e)).
Proof.
  cbv zeta.
  destruct (diagnostics_history st) as [| x l] eqn:Hh.
  - unfold generate_report, bind, get_history. rewrite Hh. cbn.
    repeat split; try reflexivity; try exact Hh.
    left. repeat split. now eexists.
  - destruct (@exists_last _ (x :: l)) as (h & d & Hlast); [discriminate |].
    assert (Hd : diagnostics_history st = (h ++ [d])%list) by congruence.
    rewrite (generate_report_last fs h d st Hd). cbn.
    repeat split; try reflexivity; try exact Hh.
    right. split; [discriminate |]. eexists. split; [reflexivity |].
    split.
    + intros ->. now eexists.
    + intros e.
      destruct (write_outcome fs "diagnostic_report.txt" _);
        [discriminate | congruence].
Qed.

Lemma generate_report_keeps_state_witness :
  write_outcome utf8_files "diagnostic_report.txt"
    (fold_left (fun r kv => r ++ report_line kv) (items sample_diagnosis)
               report_banner) = Ok tt /\
  codes (snd (generate_report utf8_files
                (State sample_table [sample_diagnosis] []))) = sample_table /\
  diagnostics_history
    (snd (generate_report utf8_files
            (State sample_table [sample_diagnosis] [])))
  = [sample_diagnosis].
Proof.
  split; [reflexivity |].
  destruct (generate_report_keeps_state utf8_files
              (State sample_table [sample_diagnosis] [])) as (Hc & Hh & _).
  split; [exact Hc | exact Hh].
Defined.

(** X20: the report depends on the most recent entry alone: two systems
    whose histories end with the same record write the same file and
    answer alike, whatever their earlier entries and their tables. *)
Theorem report_depends_on_last_entry
    (fs : filesystem) (h1 h2 : list diagnosis) (d : diagnosis)
    (st1 st2 : state) :
  diagnostics_history st1 = (h1 ++ [d])%list ->
  diagnostics_history st2 = (h2 ++ [d])%list ->
  fst (generate_report fs st1) = fst (generate_report fs st2) /\
  exists content,
    trace (snd (generate_report fs st1))
    = (trace st1 ++ [FileWrite "diagnostic_report.txt" content])%list /\
    trace (snd (generate_report fs st2))
    = (trace st2 ++ [FileWrite "diagnostic_report.txt" content])%list.
Proof.
  intros H1 H2.
  rewrite (generate_report_last fs h1 d st1 H1),
          (generate_report_last fs h2 d st2 H2).
  split; [reflexivity |]. eexists. split; reflexivity.
Qed.

Lemma report_depends_on_last_entry_witness :
  diagnostics_history (State sample_table [sample_diagnosis] [])
  = ([] ++ [sample_diagnosis])%list /\
  diagnostics_history (State [] [sample_diagnosis; sample_diagnosis] [])
  = ([sample_diagnosis] ++ [sample_diagnosis])%list /\
  fst (generate_report utf8_files (State sample_table [sample_diagnosis] []))
  = fst (generate_report utf8_files
           (State [] [sample_diagnosis; sample_diagnosis] [])).
Proof.
  split; [reflexivity |]. split; [reflexivity |].
  exact (proj1 (report_depends_on_last_entry utf8_files
                  [] [sample_diagnosis] sample_diagnosis
                  (State sample_table [sample_diagnosis] [])
                  (State [] [sample_diagnosis; sample_diagnosis] [])
                  eq_refl eq_refl)).
Defined.
